(** * optixProgressivePhotonMap: host-side orchestration, embedded in Rocq

    A shallow embedding of [optixProgressivePhotonMap.cpp]: the helper
    [pow2roundup], the context set-up ([createContext], [createMaterial],
    [createGeometry], [createLight]), the GLFW callbacks, the display loop
    [glfwRun] and the command-line handling of [main].

    Unsigned machine integers are [Z] with the wrap-around written out.
    The ray-tracing context is a record; the host program is written in a
    small state monad over the host state, with process exit and C++
    exceptions as the two abnormal outcomes.  Every call the host issues to
    the ray-tracing runtime, to the windowing toolkit and to the GUI is
    logged, in order, in the [trace] of the host state. *)

From Stdlib Require Import ZArith Lia Bool List Ascii String.
From stdpp Require Import base gmap strings list fin_maps.
Import ListNotations.

Local Open Scope Z_scope.

(** ** Unsigned machine arithmetic *)

Module U32.

Definition modulus : Z := 2 ^ 32.

(** Conversion to [unsigned int]: reduction modulo 2^32. *)
Definition wrap (z : Z) : Z := z mod modulus.

Definition add (a b : Z) : Z := wrap (a + b).
Definition sub (a b : Z) : Z := wrap (a - b).
Definition mul (a b : Z) : Z := wrap (a * b).

Definition in_range (z : Z) : Prop := 0 <= z < modulus.

End U32.

Module U64.

Definition modulus : Z := 2 ^ 64.

(** Conversion to [unsigned long long]: reduction modulo 2^64. *)
Definition wrap (z : Z) : Z := z mod modulus.

Definition mul (a b : Z) : Z := wrap (a * b).

End U64.

(** ** Constants of the sample (lines 67-73) *)

Definition SAMPLE_NAME : string := "optixProgressivePhotonMap".
Definition WIDTH : Z := 768.
Definition HEIGHT : Z := 768.
Definition MAX_PHOTON_COUNT : Z := 2.
Definition photon_launch_dim : Z := 512.

(** ** [pow2roundup] (lines 91-101) *)

(** [x |= x >> k] on an unsigned int. *)
Definition or_shr (x k : Z) : Z := Z.lor x (Z.shiftr x k).

(** The five or-shift statements, after the decrement. *)
Definition smear (x : Z) : Z :=
  let x := or_shr x 1 in
  let x := or_shr x 2 in
  let x := or_shr x 4 in
  let x := or_shr x 8 in
  let x := or_shr x 16 in
  x.

Definition pow2roundup (x : Z) : Z :=
  let x := U32.sub x 1 in      (* --x;  wraps at x = 0 *)
  let x := smear x in
  U32.add x 1.                 (* return x+1;  wraps at 0xFFFFFFFF *)

(** [covers n x y]: bit [i] of [y] is set exactly when one of the [n]
    bits of [x] at positions [i .. i+n-1] is set. *)
Definition covers (n x y : Z) : Prop :=
  forall i, 0 <= i ->
    (Z.testbit y i = true <-> exists d, 0 <= d < n /\ Z.testbit x (i + d) = true).

(** What the comment above the function promises. *)
Definition smallest_pow2_geq (x r : Z) : Prop :=
  (exists k, 0 <= k /\ r = 2 ^ k) /\
  x <= r /\
  (forall j, 0 <= j -> x <= 2 ^ j -> r <= 2 ^ j).


(** ** Objects of the ray-tracing runtime *)

Inductive RTformat := RT_FORMAT_FLOAT4 | RT_FORMAT_UNSIGNED_INT2 | RT_FORMAT_USER.

Inductive RTbuffertype := RT_BUFFER_INPUT | RT_BUFFER_OUTPUT | RT_BUFFER_INPUT_OUTPUT.

(** Single-precision values are kept symbolic: a literal of the source
    text, or the conversion of an integer. *)
Inductive cfloat :=
| FLit (lit : string)
| FOfUint (n : Z)            (* static_cast<float>( unsigned int ) *)
| FOfULongLong (n : Z).      (* static_cast<float>( unsigned long long ) *)

(** A device program is made by the runtime from PTX, read from a file or
    handed over as a string; the sample only ever uses the first. *)
Inductive Program :=
| ProgramFromPTXFile (path name : string)
| ProgramFromPTXString (ptx name : string).

(** [enum ProgramEnum] (lines 158-163). *)
Inductive ProgramEnum := rtpass | ppass | gather | NUM_PROGRAMS.

Definition enum_value (e : ProgramEnum) : Z :=
  match e with
  | rtpass => 0
  | ppass => 1
  | gather => 2
  | NUM_PROGRAMS => 3
  end.

Record BufferObj := mkBuffer {
  buf_type : RTbuffertype;
  buf_gpu_local : bool;            (* RT_BUFFER_GPU_LOCAL *)
  buf_format : RTformat;
  buf_size : list Z;               (* one entry per dimension *)
  buf_element_size : option Z;     (* setElementSize, for RT_FORMAT_USER *)
  buf_gl_interop : bool;           (* backed by a GL pixel buffer object *)
}.

(** What a context variable holds. *)
Inductive Value :=
| VUint (n : Z)
| VFloat (x : cfloat)
| VFloat3 (x y z : cfloat)
| VBuffer (h : nat)
| VUserData (size : Z)
| VTextureSampler (path : string)
| VGeometryGroup (obj accel : string)
| VCameraOwned.                    (* handed to sutil::Camera, which sets it *)

Record ContextObj := mkContext {
  devices : list Z;
  ray_type_count : Z;
  entry_point_count : Z;
  stack_size : Z;
  variables : gmap string Value;
  ray_generation_program : gmap Z Program;   (* by entry point *)
  exception_program : gmap Z Program;        (* by entry point *)
  miss_program : gmap Z Program;             (* by ray type *)
  buffers : list BufferObj;                  (* a Buffer handle is an index *)
}.

Record Material := mkMaterial {
  closest_hit_program : gmap Z Program;      (* by ray type *)
  any_hit_program : gmap Z Program;          (* by ray type *)
}.

(** [Context::create()]. *)
Definition Context_create : ContextObj :=
  mkContext [] 0 0 0 ∅ ∅ ∅ ∅ [].

Definition with_devices (d : list Z) (c : ContextObj) : ContextObj :=
  mkContext d (ray_type_count c) (entry_point_count c) (stack_size c) (variables c)
    (ray_generation_program c) (exception_program c) (miss_program c) (buffers c).

Definition with_ray_type_count (n : Z) (c : ContextObj) : ContextObj :=
  mkContext (devices c) n (entry_point_count c) (stack_size c) (variables c)
    (ray_generation_program c) (exception_program c) (miss_program c) (buffers c).

Definition with_entry_point_count (n : Z) (c : ContextObj) : ContextObj :=
  mkContext (devices c) (ray_type_count c) n (stack_size c) (variables c)
    (ray_generation_program c) (exception_program c) (miss_program c) (buffers c).

Definition with_stack_size (n : Z) (c : ContextObj) : ContextObj :=
  mkContext (devices c) (ray_type_count c) (entry_point_count c) n (variables c)
    (ray_generation_program c) (exception_program c) (miss_program c) (buffers c).

Definition with_variables (v : gmap string Value) (c : ContextObj) : ContextObj :=
  mkContext (devices c) (ray_type_count c) (entry_point_count c) (stack_size c) v
    (ray_generation_program c) (exception_program c) (miss_program c) (buffers c).

Definition with_ray_generation_program (p : gmap Z Program) (c : ContextObj) : ContextObj :=
  mkContext (devices c) (ray_type_count c) (entry_point_count c) (stack_size c) (variables c)
    p (exception_program c) (miss_program c) (buffers c).

Definition with_exception_program (p : gmap Z Program) (c : ContextObj) : ContextObj :=
  mkContext (devices c) (ray_type_count c) (entry_point_count c) (stack_size c) (variables c)
    (ray_generation_program c) p (miss_program c) (buffers c).

Definition with_miss_program (p : gmap Z Program) (c : ContextObj) : ContextObj :=
  mkContext (devices c) (ray_type_count c) (entry_point_count c) (stack_size c) (variables c)
    (ray_generation_program c) (exception_program c) p (buffers c).

Definition with_buffers (b : list BufferObj) (c : ContextObj) : ContextObj :=
  mkContext (devices c) (ray_type_count c) (entry_point_count c) (stack_size c) (variables c)
    (ray_generation_program c) (exception_program c) (miss_program c) b.

(** ** Windowing events *)

Inductive Key := GLFW_KEY_Q | GLFW_KEY_ESCAPE | GLFW_KEY_S | GLFW_KEY_F | GLFW_KEY_other (code : Z).

Inductive Action := GLFW_RELEASE | GLFW_PRESS | GLFW_REPEAT.

(** A callback fired from inside [glfwPollEvents].  [sutil::Camera] is not
    part of this file: what [camera.resize] answers comes with the event. *)
Inductive GlfwEvent :=
| KeyEvent (key : Key) (action : Action)
| WindowSizeEvent (w h : Z) (camera_resized : bool).

(** What one pass through the display loop reads from outside the file. *)
Record FrameInput := mkFrame {
  events : list GlfwEvent;         (* callbacks fired by glfwPollEvents *)
  want_capture_mouse : bool;       (* io.WantCaptureMouse *)
  camera_moved : bool;             (* what camera.process_mouse answers *)
  camera_width : Z;                (* camera.width() *)
  camera_height : Z;               (* camera.height() *)
}.

(** ** The host state and the log of calls *)

Inductive HostOp :=
| OpCreateBuffer (h : nat)
| OpSetElementSize (h : nat) (size : Z)
| OpSetVariable (name : string) (v : Value)
| OpMap (h : nat)
| OpHostWrite (h : nat) (count : Z)      (* seeds[i] = random2u(), i < count *)
| OpUnmap (h : nat)
| OpLaunch (entry : Z) (dims : list Z)
| OpResizeBuffer (h : nat) (w hgt : Z)
| OpDisplayBufferGL (h : nat)
| OpWriteBufferToFile (file : string) (h : nat)
| OpContext (call : string)             (* other calls on the context *)
| OpWindow (call : string)              (* GLFW, GLEW and GL calls *)
| OpGui (call : string)                 (* ImGui and sutil GUI helpers *)
| OpCamera (call : string).             (* sutil::Camera methods *)

Inductive Exn :=
| RTException (code : Z)                (* Exception::makeException( code, 0 ) *)
| NullContext                           (* the global context handle is 0 *)
| NotABuffer (name : string).           (* getBuffer() on something else *)

Record Host := mkHost {
  context : option ContextObj;          (* the global [Context context] *)
  trace : list HostOp;                  (* calls issued so far, oldest first *)
  stderr : list string;                 (* what went to std::cerr *)
  frame_count : Z;                      (* local of glfwRun *)
  accumulation_frame : Z;               (* local of glfwRun, shared with the
                                           callbacks through CallbackData *)
}.

Definition initial_host : Host := mkHost None [] [] 0 0.

Inductive Outcome (A : Type) :=
| Ret (a : A) (s : Host)                (* the call returns *)
| Exit (status : Z) (s : Host)          (* exit( status ) *)
| Throw (e : Exn) (s : Host).           (* a C++ exception propagates *)

Arguments Ret {A} a s.
Arguments Exit {A} status s.
Arguments Throw {A} e s.

Definition M (A : Type) : Type := Host -> Outcome A.

#[global] Instance M_ret : MRet M := fun A a s => Ret a s.

#[global] Instance M_bind : MBind M := fun A B f m s =>
  match m s with
  | Ret a s' => f a s'
  | Exit status s' => Exit status s'
  | Throw e s' => Throw e s'
  end.

(** The state an outcome leaves behind. *)
Definition final_host {A} (o : Outcome A) : Host :=
  match o with
  | Ret _ s => s
  | Exit _ s => s
  | Throw _ s => s
  end.

Definition exit {A} (status : Z) : M A := fun s => Exit status s.

Definition throw {A} (e : Exn) : M A := fun s => Throw e s.

Definition EXIT_SUCCESS : Z := 0.
Definition EXIT_FAILURE : Z := 1.

Definition log (op : HostOp) : M unit := fun s =>
  Ret tt (mkHost (context s) (trace s ++ [op]) (stderr s) (frame_count s) (accumulation_frame s)).

Definition cerr (msg : string) : M unit := fun s =>
  Ret tt (mkHost (context s) (trace s) (stderr s ++ [msg]) (frame_count s) (accumulation_frame s)).

Definition set_global_context (c : option ContextObj) : M unit := fun s =>
  Ret tt (mkHost c (trace s) (stderr s) (frame_count s) (accumulation_frame s)).

Definition set_frame_count (n : Z) : M unit := fun s =>
  Ret tt (mkHost (context s) (trace s) (stderr s) n (accumulation_frame s)).

Definition set_accumulation_frame (n : Z) : M unit := fun s =>
  Ret tt (mkHost (context s) (trace s) (stderr s) (frame_count s) n).

Definition get_frame_count : M Z := fun s => Ret (frame_count s) s.

Definition get_accumulation_frame : M Z := fun s => Ret (accumulation_frame s) s.

(** [context->...]: dereferences the global handle. *)
Definition get_context : M ContextObj := fun s =>
  match context s with
  | Some c => Ret c s
  | None => Throw NullContext s
  end.

Definition update_context (f : ContextObj -> ContextObj) : M unit :=
  c ← get_context; set_global_context (Some (f c)).

(** ** The host program *)

(** What the file takes from headers and libraries outside it. *)
Record Env := mkEnv {
  samplesPTXDir : string;                     (* sutil::samplesPTXDir() *)
  samplesDir : string;                        (* sutil::samplesDir() *)
  sizeof_HitRecord : Z;                       (* ppm.h *)
  sizeof_PhotonRecord : Z;                    (* ppm.h *)
  sizeof_PPMLight : Z;                        (* ppm.h *)
  getDeviceCount : Z;                         (* Context::getDeviceCount() *)
  (* rtDeviceGetAttribute( ordinal, RT_DEVICE_ATTRIBUTE_COMPUTE_CAPABILITY, .. ):
     the result code (0 is RT_SUCCESS) and the two ints written *)
  rtDeviceGetAttribute : Z -> Z * (Z * Z);
  glewGetErrorString : string;                (* glewGetErrorString( err ) *)
}.

Section HostProgram.

Variable env : Env.

(** *** Calls on the context and on buffers *)

Definition setDevices (d : list Z) : M unit := update_context (with_devices d).

Definition setRayTypeCount (n : Z) : M unit := update_context (with_ray_type_count n).

Definition setEntryPointCount (n : Z) : M unit := update_context (with_entry_point_count n).

Definition setStackSize (n : Z) : M unit := update_context (with_stack_size n).

(** [context[name]->set...( v )]. *)
Definition set_variable (name : string) (v : Value) : M unit :=
  update_context (fun c => with_variables (<[name := v]> (variables c)) c) ;;
  log (OpSetVariable name v).

Definition setUint (name : string) (n : Z) : M unit := set_variable name (VUint n).

Definition setFloat (name : string) (x : cfloat) : M unit := set_variable name (VFloat x).

Definition setFloat3 (name : string) (x y z : cfloat) : M unit :=
  set_variable name (VFloat3 x y z).

(** [context[name]->getBuffer()]. *)
Definition getBuffer (name : string) : M nat :=
  c ← get_context;
  match variables c !! name with
  | Some (VBuffer h) => mret h
  | _ => throw (NotABuffer name)
  end.

Definition add_buffer (b : BufferObj) : M nat :=
  c ← get_context;
  let h := length (buffers c) in
  set_global_context (Some (with_buffers (buffers c ++ [b]) c)) ;;
  log (OpCreateBuffer h) ;;
  mret h.

(** [context->createBuffer( type, format, dims... )]. *)
Definition createBuffer (type : RTbuffertype) (gpu_local : bool) (format : RTformat)
    (dims : list Z) : M nat :=
  add_buffer (mkBuffer type gpu_local format dims None false).

(** Modelled from the spec: [sutil::createOutputBuffer] is part of the
    sutil library, outside this file; the spec only says that the host
    allocates device buffers.  It is taken to allocate one output buffer
    of the format and dimensions it is called with, backed by a GL pixel
    buffer object when [use_pbo] is set. *)
Definition sutil_createOutputBuffer (format : RTformat) (width height : Z)
    (use_pbo : bool) : M nat :=
  add_buffer (mkBuffer RT_BUFFER_OUTPUT false format [width; height] None use_pbo).

Definition setElementSize (h : nat) (size : Z) : M unit :=
  update_context (fun c =>
    with_buffers
      (alter (fun b => mkBuffer (buf_type b) (buf_gpu_local b) (buf_format b)
                         (buf_size b) (Some size) (buf_gl_interop b)) h (buffers c)) c) ;;
  log (OpSetElementSize h size).

Definition map_buffer (h : nat) : M unit := log (OpMap h).

Definition unmap_buffer (h : nat) : M unit := log (OpUnmap h).

(** [for ( i = 0; i < count; ++i ) seeds[i] = random2u();] on the mapped
    buffer [h]; the values come from rand() and are not modelled. *)
Definition fill_seeds (h : nat) (count : Z) : M unit := log (OpHostWrite h count).

Definition createProgramFromPTXFile (path name : string) : M Program :=
  get_context ;; mret (ProgramFromPTXFile path name).

Definition setRayGenerationProgram (e : ProgramEnum) (p : Program) : M unit :=
  update_context (fun c =>
    with_ray_generation_program (<[enum_value e := p]> (ray_generation_program c)) c).

Definition setExceptionProgram (e : ProgramEnum) (p : Program) : M unit :=
  update_context (fun c =>
    with_exception_program (<[enum_value e := p]> (exception_program c)) c).

Definition setMissProgram (e : ProgramEnum) (p : Program) : M unit :=
  update_context (fun c =>
    with_miss_program (<[enum_value e := p]> (miss_program c)) c).

Definition launch (e : ProgramEnum) (dims : list Z) : M unit :=
  get_context ;; log (OpLaunch (enum_value e) dims).

(** [sutil::resizeBuffer( buffer, width, height )]. *)
Definition sutil_resizeBuffer (h : nat) (width height : Z) : M unit :=
  log (OpResizeBuffer h width height).

(** *** Helper functions (lines 133-156) *)

Definition ptxPath (cuda_file : string) : string :=
  samplesPTXDir env +:+ "/" +:+ SAMPLE_NAME +:+ "_generated_" +:+ cuda_file +:+ ".ptx".

Definition getOutputBuffer : M nat := getBuffer "output_buffer".

Definition destroyContext : M unit := fun s =>
  match context s with
  | Some _ => (log (OpContext "destroy") ;; set_global_context None) s
  | None => Ret tt s
  end.

(** *** [createContext] (lines 165-273) *)

(** Lines 173-185 pick the device: the first further device with the
    compute capability of device 0 if there is one, else device 0. *)

(** The loop of lines 177-185 over the ordinals [index], [index+1], ... *)
Fixpoint pick_device (computeCaps : Z * Z) (ordinals : list Z) : M Z :=
  match ordinals with
  | [] => mret 0
  | index :: rest =>
      let '(code, computeCapsB) := rtDeviceGetAttribute env index in
      if negb (code =? 0) then throw (RTException code)
      else if (computeCaps.1 =? computeCapsB.1) && (computeCaps.2 =? computeCapsB.2)
      then mret index
      else pick_device computeCaps rest
  end.

Definition select_device : M Z :=
  let '(code, computeCaps) := rtDeviceGetAttribute env 0 in
  if negb (code =? 0) then throw (RTException code)
  else pick_device computeCaps (Z.of_nat <$> seq 1 (Z.to_nat (getDeviceCount env) - 1)).

Definition num_photons : Z :=
  U32.mul (U32.mul photon_launch_dim photon_launch_dim) MAX_PHOTON_COUNT.

Definition photon_map_size : Z := U32.sub (pow2roundup num_photons) 1.

(** Lines 186-271: what [createContext] does once the device is chosen. *)
Definition createContext_configure (use_pbo : bool) (deviceId : Z) : M unit :=
  setDevices [deviceId] ;;

  setRayTypeCount 3 ;;
  setEntryPointCount (enum_value NUM_PROGRAMS) ;;
  setStackSize 800 ;;

  setUint "max_depth" 3 ;;
  setUint "max_photon_count" MAX_PHOTON_COUNT ;;

  setFloat "scene_epsilon" (FLit "1.e-1f") ;;
  setFloat "alpha" (FLit "0.7f") ;;
  setFloat "total_emitted" (FLit "0.0f") ;;
  setFloat "frame_number" (FLit "0.0f") ;;
  setUint "use_debug_buffer" 0 ;;

  buffer ← sutil_createOutputBuffer RT_FORMAT_FLOAT4 WIDTH HEIGHT use_pbo;
  set_variable "output_buffer" (VBuffer buffer) ;;

  (* Debug output buffer *)
  debug_buffer ← createBuffer RT_BUFFER_OUTPUT false RT_FORMAT_FLOAT4 [WIDTH; HEIGHT];
  set_variable "debug_buffer" (VBuffer debug_buffer) ;;

  (* RTPass output buffer *)
  rtpass_buffer ← createBuffer RT_BUFFER_OUTPUT false RT_FORMAT_USER [WIDTH; HEIGHT];
  setElementSize rtpass_buffer (sizeof_HitRecord env) ;;
  set_variable "rtpass_output_buffer" (VBuffer rtpass_buffer) ;;

  (* RTPass pixel sample buffers *)
  image_rnd_seeds ← createBuffer RT_BUFFER_INPUT_OUTPUT true RT_FORMAT_UNSIGNED_INT2
                      [WIDTH; HEIGHT];
  set_variable "image_rnd_seeds" (VBuffer image_rnd_seeds) ;;
  map_buffer image_rnd_seeds ;;
  fill_seeds image_rnd_seeds (U32.mul WIDTH HEIGHT) ;;
  unmap_buffer image_rnd_seeds ;;

  (* RTPass ray gen program *)
  ray_gen_program ← createProgramFromPTXFile (ptxPath "ppm_rtpass.cu") "rtpass_camera";
  setRayGenerationProgram rtpass ray_gen_program ;;
  (* RTPass exception/miss programs *)
  exception_program ← createProgramFromPTXFile (ptxPath "ppm_rtpass.cu") "rtpass_exception";
  setExceptionProgram rtpass exception_program ;;
  setFloat3 "rtpass_bad_color" (FLit "0.0f") (FLit "1.0f") (FLit "0.0f") ;;
  miss ← createProgramFromPTXFile (ptxPath "ppm_rtpass.cu") "rtpass_miss";
  setMissProgram rtpass miss ;;
  setFloat3 "rtpass_bg_color" (FLit "0.34f") (FLit "0.55f") (FLit "0.85f") ;;

  (* Photon pass *)
  ppass_buffer ← createBuffer RT_BUFFER_OUTPUT false RT_FORMAT_USER [num_photons];
  setElementSize ppass_buffer (sizeof_PhotonRecord env) ;;
  set_variable "ppass_output_buffer" (VBuffer ppass_buffer) ;;

  ray_gen_program ← createProgramFromPTXFile (ptxPath "ppm_ppass.cu") "ppass_camera";
  setRayGenerationProgram ppass ray_gen_program ;;
  photon_rnd_seeds ← createBuffer RT_BUFFER_INPUT false RT_FORMAT_UNSIGNED_INT2
                       [photon_launch_dim; photon_launch_dim];
  map_buffer photon_rnd_seeds ;;
  fill_seeds photon_rnd_seeds (U32.mul photon_launch_dim photon_launch_dim) ;;
  unmap_buffer photon_rnd_seeds ;;
  set_variable "photon_rnd_seeds" (VBuffer photon_rnd_seeds) ;;

  (* Gather phase *)
  gather_program ← createProgramFromPTXFile (ptxPath "ppm_gather.cu") "gather";
  setRayGenerationProgram gather gather_program ;;
  exception_program ← createProgramFromPTXFile (ptxPath "ppm_gather.cu") "gather_exception";
  setExceptionProgram gather exception_program ;;

  photon_map ← createBuffer RT_BUFFER_INPUT false RT_FORMAT_USER [photon_map_size];
  setElementSize photon_map (sizeof_PhotonRecord env) ;;
  set_variable "photon_map" (VBuffer photon_map).

Definition createContext (use_pbo : bool) : M unit :=
  (* Set up context *)
  set_global_context (Some Context_create) ;;
  deviceId ← select_device;
  createContext_configure use_pbo deviceId.

(** *** [createMaterial], [createGeometry], [createLight] (lines 276-322) *)

Definition createMaterial : M Material :=
  closest_hit1 ← createProgramFromPTXFile (ptxPath "ppm_rtpass.cu") "rtpass_closest_hit";
  closest_hit2 ← createProgramFromPTXFile (ptxPath "ppm_ppass.cu") "ppass_closest_hit";
  any_hit ← createProgramFromPTXFile (ptxPath "ppm_gather.cu") "gather_any_hit";
  get_context ;;      (* context->createMaterial() *)
  let material := mkMaterial ∅ ∅ in
  let material := mkMaterial (<[0 := closest_hit1]> (closest_hit_program material))
                             (any_hit_program material) in
  let material := mkMaterial (<[1 := closest_hit2]> (closest_hit_program material))
                             (any_hit_program material) in
  let material := mkMaterial (closest_hit_program material)
                             (<[2 := any_hit]> (any_hit_program material)) in
  mret material.

(** The material argument is not used: the mesh path is compiled out
    ([#if 0]) and [PpmObjLoader], outside this file, builds the geometry. *)
Definition createGeometry (material : Material) : M unit :=
  get_context ;;      (* context->createGeometryGroup() *)
  let full_path := samplesDir env +:+ "/data/wedding-band.obj" in
  log (OpContext "PpmObjLoader::load") ;;
  set_variable "top_object" (VGeometryGroup full_path "Trbvh") ;;
  set_variable "top_shadower" (VGeometryGroup full_path "Trbvh").

(** The fields of the light are single-precision values computed with
    cosf and sinf; only the size of the upload is kept. *)
Definition createLight : M unit :=
  set_variable "light" (VUserData (sizeof_PPMLight env)) ;;
  setFloat "rtpass_default_radius2" (FLit "0.25f") ;;
  setFloat3 "ambient_light" (FLit "0.1f") (FLit "0.1f") (FLit "0.1f") ;;
  let full_path := samplesDir env +:+ "/data/CedarCity.hdr" in
  get_context ;;      (* sutil::loadTexture( context, .. ) *)
  set_variable "envmap" (VTextureSampler full_path).

(** The character written by [\n] and by [std::endl]. *)
Definition newline : string := String (Ascii.ascii_of_nat 10) EmptyString.

(** *** GLFW callbacks (lines 339-404) *)

(** GLFW hands a key callback the window that received the event, which
    is never null: the test [if( window )] of line 351 is taken. *)
Definition keyCallback (key : Key) (action : Action) : M unit :=
  handled ← match action with
            | GLFW_PRESS =>
                match key with
                | GLFW_KEY_Q | GLFW_KEY_ESCAPE =>
                    (fun s => match context s with
                              | Some _ => log (OpContext "destroy") s
                              | None => Ret tt s
                              end) ;;
                    log (OpWindow "glfwDestroyWindow") ;;
                    log (OpWindow "glfwTerminate") ;;
                    exit EXIT_SUCCESS
                | GLFW_KEY_S =>
                    let outputImage := SAMPLE_NAME +:+ ".png" in
                    cerr ("Saving current frame to '" +:+ outputImage +:+ "'" +:+ newline) ;;
                    b ← getOutputBuffer;
                    log (OpWriteBufferToFile outputImage b) ;;
                    mret true
                | GLFW_KEY_F =>
                    log (OpCamera "reset_lookat") ;;
                    set_accumulation_frame 0 ;;
                    mret true
                | GLFW_KEY_other _ => mret false
                end
            | _ => mret false
            end;
  if negb handled then log (OpGui "ImGui_ImplGlfw_KeyCallback") else mret tt.

Definition windowSizeCallback (w h : Z) (camera_resized : bool) : M unit :=
  if (w <? 0) || (h <? 0) then mret tt
  else
    let width := U32.wrap w in
    let height := U32.wrap h in
    log (OpCamera "resize") ;;
    (if camera_resized then set_accumulation_frame 0 else mret tt) ;;
    b ← getOutputBuffer;
    sutil_resizeBuffer b width height ;;
    b ← getBuffer "debug_buffer";
    sutil_resizeBuffer b width height ;;
    b ← getBuffer "rtpass_output_buffer";
    sutil_resizeBuffer b width height ;;
    b ← getBuffer "image_rnd_seeds";
    sutil_resizeBuffer b width height ;;
    log (OpWindow "glMatrixMode") ;;
    log (OpWindow "glLoadIdentity") ;;
    log (OpWindow "glOrtho") ;;
    log (OpWindow "glViewport").

Definition callback (e : GlfwEvent) : M unit :=
  match e with
  | KeyEvent key action => keyCallback key action
  | WindowSizeEvent w h camera_resized => windowSizeCallback w h camera_resized
  end.

(** [glfwPollEvents()]: runs the callbacks of the pending events, in order. *)
Fixpoint glfwPollEvents (pending : list GlfwEvent) : M unit :=
  match pending with
  | [] => mret tt
  | e :: rest => callback e ;; glfwPollEvents rest
  end.

(** *** GLFW setup and run (lines 413-521) *)

Definition glfwInitialize : M unit :=
  log (OpWindow "sutil::initGLFW") ;;
  log (OpWindow "glfwSetKeyCallback") ;;
  log (OpWindow "glfwSetWindowSize") ;;
  log (OpWindow "glfwSetWindowSizeCallback").

(** The body of the [while] loop (lines 449-515). *)
Definition glfwRun_body (f : FrameInput) : M unit :=
  log (OpWindow "glfwPollEvents") ;;
  glfwPollEvents (events f) ;;

  log (OpGui "ImGui_ImplGlfw_NewFrame") ;;

  (* Let imgui process the mouse first *)
  (if negb (want_capture_mouse f) then
     log (OpWindow "glfwGetCursorPos") ;;
     log (OpCamera "process_mouse") ;;
     if camera_moved f then set_accumulation_frame 0 else mret tt
   else mret tt) ;;

  log (OpGui "ImGui::PushStyleVar") ;;
  log (OpGui "ImGui::PushStyleVar") ;;
  log (OpGui "ImGui::PushStyleVar") ;;
  frame_count ← get_frame_count;
  set_frame_count (U32.add frame_count 1) ;;
  log (OpGui "sutil::displayFps") ;;
  log (OpGui "ImGui::PopStyleVar") ;;

  (* Render main window *)
  frame_number ← get_accumulation_frame;
  set_accumulation_frame (U32.add frame_number 1) ;;
  setFloat "frame_number" (FOfUint frame_number) ;;
  accumulation_frame ← get_accumulation_frame;
  (if accumulation_frame =? 1 then
     (* Trace viewing rays *)
     launch rtpass [camera_width f; camera_height f] ;;
     setFloat "total_emitted" (FLit "0.0f")
   else mret tt) ;;

  (* Trace photons *)
  photon_rnd_seeds ← getBuffer "photon_rnd_seeds";
  map_buffer photon_rnd_seeds ;;
  fill_seeds photon_rnd_seeds (U32.mul photon_launch_dim photon_launch_dim) ;;
  unmap_buffer photon_rnd_seeds ;;
  launch ppass [photon_launch_dim; photon_launch_dim] ;;

  accumulation_frame ← get_accumulation_frame;
  setFloat "total_emitted"
    (FOfULongLong
       (U64.mul (U64.mul (U64.wrap accumulation_frame) photon_launch_dim)
          photon_launch_dim)) ;;

  (* Shade view rays by gathering photons *)
  launch gather [camera_width f; camera_height f] ;;
  b ← getOutputBuffer;
  log (OpDisplayBufferGL b) ;;

  (* Render gui over it *)
  log (OpGui "ImGui::Render") ;;
  log (OpWindow "glfwSwapBuffers").

(** [while( !glfwWindowShouldClose( window ) )]: one [FrameInput] for each
    time the test lets the loop go round. *)
Fixpoint glfwRun_loop (frames : list FrameInput) : M unit :=
  match frames with
  | [] => mret tt
  | f :: rest => glfwRun_body f ;; glfwRun_loop rest
  end.

Definition glfwRun (frames : list FrameInput) : M unit :=
  (* Initialize GL state *)
  log (OpWindow "glMatrixMode") ;;
  log (OpWindow "glLoadIdentity") ;;
  log (OpWindow "glOrtho") ;;
  log (OpWindow "glMatrixMode") ;;
  log (OpWindow "glLoadIdentity") ;;
  log (OpWindow "glViewport") ;;

  set_frame_count 0 ;;
  set_accumulation_frame 0 ;;
  log (OpWindow "glfwSetWindowUserPointer") ;;

  glfwRun_loop frames ;;

  destroyContext ;;
  log (OpWindow "glfwDestroyWindow") ;;
  log (OpWindow "glfwTerminate").

(** *** [main] (lines 530-629) *)

Definition usage (argv0 : string) : list string :=
  [ newline +:+ "Usage: " +:+ argv0 +:+ " [options]" +:+ newline;
    "App Options:" +:+ newline +:+
    "  -h | --help                  Print this usage message and exit." +:+ newline +:+
    "  -f | --file <output_file>    Save image to file and exit." +:+ newline +:+
    "  -n | --nopbo                 Disable GL interop for display buffer." +:+ newline +:+
    "App Keystrokes:" +:+ newline +:+
    "  q  Quit" +:+ newline +:+
    "  s  Save image to '" +:+ SAMPLE_NAME +:+ ".png'" +:+ newline +:+
    "  f  Re-center camera" +:+ newline +:+
    newline +:+ newline ].

Definition printUsageAndExit {A} (argv0 : string) : M A := fun s =>
  Exit 1 (mkHost (context s) (trace s) (stderr s ++ usage argv0)
            (frame_count s) (accumulation_frame s)).

Inductive Matrix4x4 := Matrix4x4_identity.

Record Options := mkOptions {
  use_pbo : bool;
  out_file : string;
  mesh_files : list string;
  mesh_xforms : list Matrix4x4;
}.

Definition initial_options : Options := mkOptions true "" [] [].

(** [arg[0] == '-'] *)
Definition starts_with_dash (arg : string) : bool :=
  match arg with
  | String c _ => bool_decide (c = "-"%char)
  | EmptyString => false
  end.

(** The [for] loop of lines 555-586, on the arguments from [argv[i]] on. *)
Fixpoint parse_args (argv0 : string) (args : list string) (o : Options) : M Options :=
  match args with
  | [] => mret o
  | arg :: rest =>
      if bool_decide (arg = "-h") || bool_decide (arg = "--help") then
        printUsageAndExit argv0
      else if bool_decide (arg = "-f") || bool_decide (arg = "--file") then
        match rest with
        | [] =>
            cerr ("Option '" +:+ arg +:+ "' requires additional argument." +:+ newline) ;;
            printUsageAndExit argv0
        | file :: rest' =>
            parse_args argv0 rest'
              (mkOptions (use_pbo o) file (mesh_files o) (mesh_xforms o))
        end
      else if bool_decide (arg = "-n") || bool_decide (arg = "--nopbo") then
        parse_args argv0 rest
          (mkOptions false (out_file o) (mesh_files o) (mesh_xforms o))
      else if starts_with_dash arg then
        cerr ("Unknown option '" +:+ arg +:+ "'" +:+ newline) ;;
        printUsageAndExit argv0
      else
        (* Interpret argument as a mesh file. *)
        parse_args argv0 rest
          (mkOptions (use_pbo o) (out_file o) (mesh_files o ++ [arg])
             (mesh_xforms o ++ [Matrix4x4_identity]))
  end.

Definition camera_create : M unit :=
  update_context (fun c =>
    with_variables
      (<["rtpass_W" := VCameraOwned]>
         (<["rtpass_V" := VCameraOwned]>
            (<["rtpass_U" := VCameraOwned]>
               (<["rtpass_eye" := VCameraOwned]> (variables c))))) c) ;;
  log (OpCamera "Camera").

(** The [try] block of [main] (lines 590-626); [glew_ok] is whether
    [glewInit()] answers GLEW_OK.  An exception leaves through [Throw]:
    the handler is the macro SUTIL_CATCH of sutil.h. *)
Definition main_try (o : Options) (glew_ok : bool) (frames : list FrameInput) : M Z :=
  glfwInitialize ;;
  (if glew_ok then mret tt
   else cerr ("GLEW init failed: " +:+ glewGetErrorString env +:+ newline) ;;
        exit EXIT_FAILURE) ;;
  createContext (use_pbo o) ;;
  camera_create ;;
  material ← createMaterial;
  createGeometry material ;;
  createLight ;;
  get_context ;; log (OpContext "validate") ;;
  (if bool_decide (out_file o = "") then glfwRun frames
   else mret tt (* TODO: batch mode *)) ;;
  mret 0.

Definition main (argv0 : string) (args : list string) (glew_ok : bool)
    (frames : list FrameInput) : M Z :=
  o ← parse_args argv0 args initial_options;
  main_try o glew_ok frames.

End HostProgram.

(** ** Vocabulary of the properties *)

(** The entry points launched in a stretch of the log, in order. *)
Definition launches (t : list HostOp) : list Z :=
  omap (fun op => match op with OpLaunch e _ => Some e | _ => None end) t.

(** The frame numbers recorded in a stretch of the log, in order. *)
Definition frame_numbers (t : list HostOp) : list Z :=
  omap (fun op => match op with
                  | OpSetVariable "frame_number" (VFloat (FOfUint n)) => Some n
                  | _ => None
                  end) t.

(** [accesses h op]: the call [op] reaches the storage of buffer [h]
    (maps or unmaps it, writes through the mapping, resizes it, or hands it
    to a helper that reads it). *)
Definition accesses (h : nat) (op : HostOp) : bool :=
  match op with
  | OpMap h' | OpUnmap h' | OpHostWrite h' _ | OpResizeBuffer h' _ _
  | OpDisplayBufferGL h' | OpWriteBufferToFile _ h' => bool_decide (h' = h)
  | _ => false
  end.

(** The buffers the loop and the callbacks look up by name. *)
Record Bindings := mkBindings {
  h_output : nat;
  h_debug : nat;
  h_rtpass_output : nat;
  h_image_rnd_seeds : nat;
  h_photon_rnd_seeds : nat;
  h_photon_map : nat;
}.

Definition bound (b : Bindings) (s : Host) : Prop :=
  exists c, context s = Some c /\
    variables c !! "output_buffer" = Some (VBuffer (h_output b)) /\
    variables c !! "debug_buffer" = Some (VBuffer (h_debug b)) /\
    variables c !! "rtpass_output_buffer" = Some (VBuffer (h_rtpass_output b)) /\
    variables c !! "image_rnd_seeds" = Some (VBuffer (h_image_rnd_seeds b)) /\
    variables c !! "photon_rnd_seeds" = Some (VBuffer (h_photon_rnd_seeds b)) /\
    variables c !! "photon_map" = Some (VBuffer (h_photon_map b)).

Definition buffer_names : list string :=
  ["output_buffer"; "debug_buffer"; "rtpass_output_buffer"; "image_rnd_seeds";
   "photon_rnd_seeds"; "photon_map"].

(** The handles [createContext] hands out, in the order of creation. *)
Definition createContext_bindings : Bindings := mkBindings 0 1 2 3 5 6.

(** A key press that ends the process from inside the key callback. *)
Definition is_quit (e : GlfwEvent) : bool :=
  match e with
  | KeyEvent GLFW_KEY_Q GLFW_PRESS | KeyEvent GLFW_KEY_ESCAPE GLFW_PRESS => true
  | _ => false
  end.

(** An event whose callback sets the accumulation counter back to 0. *)
Definition event_resets (e : GlfwEvent) : bool :=
  match e with
  | KeyEvent GLFW_KEY_F GLFW_PRESS => true
  | WindowSizeEvent w h camera_resized => negb ((w <? 0) || (h <? 0)) && camera_resized
  | _ => false
  end.

(** The counter is set back to 0 during the frame, before the frame
    number is recorded: by a callback or by the mouse moving the camera. *)
Definition frame_resets (f : FrameInput) : bool :=
  existsb event_resets (events f) || (negb (want_capture_mouse f) && camera_moved f).

(** The counter at the point where the frame number is recorded. *)
Definition recorded_counter (f : FrameInput) (s : Host) : Z :=
  if frame_resets f then 0 else accumulation_frame s.

(** The launches of one pass through the loop body, for the counter value
    [n] at the point of recording. *)
Definition frame_launches (n : Z) : list Z :=
  (if n =? 0 then [enum_value rtpass] else []) ++ [enum_value ppass; enum_value gather].

(** What a callback may put in the log, given the buffer bindings. *)
Definition callback_op (b : Bindings) (op : HostOp) : bool :=
  match op with
  | OpContext _ | OpWindow _ | OpGui _ | OpCamera _ => true
  | OpWriteBufferToFile _ h => bool_decide (h = h_output b)
  | OpResizeBuffer h _ _ =>
      bool_decide (h = h_output b) || bool_decide (h = h_debug b) ||
      bool_decide (h = h_rtpass_output b) || bool_decide (h = h_image_rnd_seeds b)
  | _ => false
  end.

(** The calls of one pass through the loop body after event polling, for
    the counter value [n] at the point of recording. *)
Definition frame_ops (b : Bindings) (f : FrameInput) (n : Z) : list HostOp :=
  [OpGui "ImGui_ImplGlfw_NewFrame"] ++
  (if negb (want_capture_mouse f)
   then [OpWindow "glfwGetCursorPos"; OpCamera "process_mouse"] else []) ++
  [OpGui "ImGui::PushStyleVar"; OpGui "ImGui::PushStyleVar"; OpGui "ImGui::PushStyleVar";
   OpGui "sutil::displayFps"; OpGui "ImGui::PopStyleVar";
   OpSetVariable "frame_number" (VFloat (FOfUint n))] ++
  (if n =? 0
   then [OpLaunch (enum_value rtpass) [camera_width f; camera_height f];
         OpSetVariable "total_emitted" (VFloat (FLit "0.0f"))]
   else []) ++
  [OpMap (h_photon_rnd_seeds b);
   OpHostWrite (h_photon_rnd_seeds b) (U32.mul photon_launch_dim photon_launch_dim);
   OpUnmap (h_photon_rnd_seeds b);
   OpLaunch (enum_value ppass) [photon_launch_dim; photon_launch_dim];
   OpSetVariable "total_emitted"
     (VFloat (FOfULongLong (U32.add n 1 * photon_launch_dim * photon_launch_dim)));
   OpLaunch (enum_value gather) [camera_width f; camera_height f];
   OpDisplayBufferGL (h_output b);
   OpGui "ImGui::Render";
   OpWindow "glfwSwapBuffers"].

(** The counter values at the successive points of recording, for a loop
    entered with the counter at [af]. *)
Fixpoint recorded_counters (af : Z) (frames : list FrameInput) : list Z :=
  match frames with
  | [] => []
  | f :: rest =>
      let n := if frame_resets f then 0 else af in
      n :: recorded_counters (U32.add n 1) rest
  end.

(** The photon map buffer is none of the buffers the host looks up to map,
    resize, display or save. *)
Definition photon_map_apart (b : Bindings) : bool :=
  forallb (fun h => negb (bool_decide (h = h_photon_map b)))
    [h_output b; h_debug b; h_rtpass_output b; h_image_rnd_seeds b; h_photon_rnd_seeds b].

(** A logged call that leaves the storage of the photon map alone and does
    not rebind the variable "photon_map" to another buffer. *)
Definition quiet_op (b : Bindings) (op : HostOp) : bool :=
  negb (accesses (h_photon_map b) op) &&
  match op with
  | OpSetVariable name (VBuffer h) =>
      if bool_decide (name = "photon_map") then bool_decide (h = h_photon_map b) else true
  | _ => true
  end.

(** A step of the set-up in [main]: on a context that binds the buffers it
    returns, keeps them bound, and logs only calls that leave the photon
    map alone. *)
Definition setup_step {A} (m : M A) : Prop :=
  forall c t e f n,
    bound createContext_bindings (mkHost (Some c) t e f n) ->
    exists a c' ops,
      m (mkHost (Some c) t e f n) = Ret a (mkHost (Some c') (t ++ ops) e f n) /\
      bound createContext_bindings (mkHost (Some c') (t ++ ops) e f n) /\
      forallb (quiet_op createContext_bindings) ops = true.

(** The context variables after one pass through the loop body. *)
Definition frame_variables (n : Z) (vars : gmap string Value) : gmap string Value :=
  let vars := <["frame_number" := VFloat (FOfUint n)]> vars in
  let vars := if n =? 0 then <["total_emitted" := VFloat (FLit "0.0f")]> vars else vars in
  <["total_emitted" :=
      VFloat (FOfULongLong (U32.add n 1 * photon_launch_dim * photon_launch_dim))]> vars.

(** The host state [createContext_configure] leaves when started on a fresh
    context with an empty log. *)
Definition configured (env : Env) (use_pbo : bool) (deviceId : Z) : Host :=
  final_host
    (createContext_configure env use_pbo deviceId (mkHost (Some Context_create) [] [] 0 0)).

Definition configured_context (env : Env) (use_pbo : bool) (deviceId : Z) : ContextObj :=
  default Context_create (context (configured env use_pbo deviceId)).

(** The buffer a context variable refers to. *)
Definition buffer_named (c : ContextObj) (name : string) : option BufferObj :=
  match variables c !! name with
  | Some (VBuffer h) => buffers c !! h
  | _ => None
  end.

(** The three CUDA sources of the sample's device programs. *)
Definition cuda_files : list string := ["ppm_rtpass.cu"; "ppm_ppass.cu"; "ppm_gather.cu"].

(** The PTX file the build of the samples generates from a CUDA source of
    this sample: <PTX directory>/optixProgressivePhotonMap_generated_<source>.ptx. *)
Definition generated_ptx_file (env : Env) (cuda_file : string) : string :=
  samplesPTXDir env +:+ "/optixProgressivePhotonMap_generated_" +:+ cuda_file +:+ ".ptx".

(** A program created from the PTX file generated from one of them. *)
Definition from_sample_ptx (env : Env) (p : Program) : Prop :=
  exists cuda_file name,
    In cuda_file cuda_files /\
    p = ProgramFromPTXFile (generated_ptx_file env cuda_file) name.

(** The buffers in which the passes keep their results: the hit records
    of the eye rays, the photons, the photon map, and the radiance shown. *)
Definition device_buffer_names : list string :=
  ["rtpass_output_buffer"; "ppass_output_buffer"; "photon_map"; "output_buffer";
   "debug_buffer"].

(** The buffer a logged call maps, unmaps or writes through its mapping:
    the ways the host itself reaches the contents of a buffer. *)
Definition host_access (op : HostOp) : option nat :=
  match op with
  | OpMap h | OpUnmap h | OpHostWrite h _ => Some h
  | _ => None
  end.

(** A logged call by which the host computes nothing of the image: it
    reaches into the random seed buffers only, and it launches only the
    three entry points. *)
Definition left_to_device (b : Bindings) (op : HostOp) : bool :=
  match op with
  | OpMap h | OpUnmap h | OpHostWrite h _ =>
      bool_decide (h = h_image_rnd_seeds b) || bool_decide (h = h_photon_rnd_seeds b)
  | OpLaunch entry _ =>
      bool_decide (entry ∈ [enum_value rtpass; enum_value ppass; enum_value gather])
  | _ => true
  end.

(** Every device query of [createContext] answers RT_SUCCESS. *)
Definition devices_answer (env : Env) : Prop :=
  forall ordinal, (rtDeviceGetAttribute env ordinal).1 = 0.

(** The log is append-only: a call behaves the same whatever was logged
    before it, and leaves what was logged in place. *)
Definition prepend (tr : list HostOp) (s : Host) : Host :=
  mkHost (context s) (tr ++ trace s) (stderr s) (frame_count s) (accumulation_frame s).

Definition lift_trace {A} (tr : list HostOp) (o : Outcome A) : Outcome A :=
  match o with
  | Ret a s => Ret a (prepend tr s)
  | Exit status s => Exit status (prepend tr s)
  | Throw e s => Throw e (prepend tr s)
  end.

Definition appends {A} (m : M A) : Prop :=
  forall s tr, m (prepend tr s) = lift_trace tr (m s).

(** *** Command-line arguments *)

Definition is_help (arg : string) : bool :=
  bool_decide (arg = "-h") || bool_decide (arg = "--help").

Definition is_file_option (arg : string) : bool :=
  bool_decide (arg = "-f") || bool_decide (arg = "--file").

Definition is_nopbo (arg : string) : bool :=
  bool_decide (arg = "-n") || bool_decide (arg = "--nopbo").

(** Begins with '-' but is none of -h, --help, -f, --file, -n, --nopbo. *)
Definition unknown_option (arg : string) : bool :=
  starts_with_dash arg && negb (is_help arg || is_file_option arg || is_nopbo arg).

(** The arguments the loop looks at as options or mesh files: all but the
    ones taken as the file name after a -f or --file. *)
Fixpoint option_args (args : list string) : list string :=
  match args with
  | [] => []
  | arg :: rest =>
      arg :: (if is_file_option arg
              then match rest with
                   | [] => []
                   | _ :: rest' => option_args rest'
                   end
              else option_args rest)
  end.

(** The last argument is a -f or --file that the loop looks at as an
    option, so that no file name follows it. *)
Fixpoint dangling_file_option (args : list string) : bool :=
  match args with
  | [] => false
  | arg :: rest =>
      if is_file_option arg
      then match rest with
           | [] => true
           | _ :: rest' => dangling_file_option rest'
           end
      else dangling_file_option rest
  end.

(** The command lines for which the usage exit is claimed, read literally:
    -f or --file is the final argument, or some argument is an unknown
    option. *)
Definition claimed_usage_exit (args : list string) : Prop :=
  (exists arg, last args = Some arg /\ is_file_option arg = true) \/
  (exists arg, In arg args /\ unknown_option arg = true).

(** The same with the arguments taken as file names left out. *)
Definition usage_exit (args : list string) : Prop :=
  dangling_file_option args = true \/
  (exists arg, In arg (option_args args) /\ unknown_option arg = true).

(** Some argument looked at as an option asks for the usage message or is
    unknown, or the file option dangles. *)
Definition rejected (args : list string) : bool :=
  existsb (fun arg => is_help arg || unknown_option arg) (option_args args) ||
  dangling_file_option args.

(** *** Concrete inputs for the examples *)

Definition example_env : Env :=
  mkEnv "/opt/samples/ptx" "/opt/samples" 32 64 48 2
    (fun ordinal => (0, if ordinal =? 0 then (6, 1) else (5, 2)))
    "Missing GL version".

Definition example_frames : list FrameInput :=
  [ mkFrame [] false false 768 768;
    mkFrame [KeyEvent GLFW_KEY_S GLFW_PRESS] true false 768 768;
    mkFrame [WindowSizeEvent 640 480 true] false false 640 480;
    mkFrame [] false false 640 480 ].

Definition example_frame : FrameInput :=
  mkFrame [KeyEvent GLFW_KEY_S GLFW_PRESS; WindowSizeEvent 640 480 false] false false 640 480.

(** The host right after [createContext]. *)
Definition example_host : Host :=
  final_host (createContext example_env true initial_host).

Definition example_context : ContextObj :=
  default Context_create (context example_host).

(** The same host after three frames without a reset. *)
Definition example_host_later : Host :=
  final_host
    (glfwRun_loop
       [mkFrame [] false false 768 768; mkFrame [] false false 768 768;
        mkFrame [] true true 768 768] example_host).

Definition example_material : Material :=
  match createMaterial example_env example_host with
  | Ret material _ => material
  | _ => mkMaterial ∅ ∅
  end.

Definition example_main (args : list string) : Outcome Z :=
  main example_env "optixProgressivePhotonMap" args true example_frames initial_host.

(** ** Further functions of the file *)

Section Float3.

(** [float] with its comparison [>]; nothing else about it is used. *)
Variable float : Type.
Variable gt : float -> float -> bool.

Record float3 := make_float3 { x : float; y : float; z : float }.

(** [max_component] (lines 103-118). *)
Definition max_component (a : float3) : Z :=
  if gt (x a) (y a) then
    if gt (x a) (z a) then 0 else 2
  else
    if gt (y a) (z a) then 1 else 2.

(** The component with a given index. *)
Definition component (a : float3) (i : Z) : float :=
  if i =? 0 then x a else if i =? 1 then y a else z a.

End Float3.

Arguments make_float3 {float} x y z.
Arguments x {float} f.
Arguments y {float} f.
Arguments z {float} f.
Arguments max_component {float} gt a.
Arguments component {float} a i.

(** ** Further vocabulary *)

(** The answers of the device queries. *)
Definition device_code (env : Env) (ordinal : Z) : Z := (rtDeviceGetAttribute env ordinal).1.

Definition device_caps (env : Env) (ordinal : Z) : Z * Z := (rtDeviceGetAttribute env ordinal).2.

(** The ordinals the loop of lines 177-185 goes through. *)
Definition further_devices (env : Env) : list Z :=
  Z.of_nat <$> seq 1 (Z.to_nat (getDeviceCount env) - 1).

(** The arguments taken as the file name after a -f or --file, in order. *)
Fixpoint file_operands (args : list string) : list string :=
  match args with
  | [] => []
  | arg :: rest =>
      if is_file_option arg
      then match rest with
           | [] => []
           | file :: rest' => file :: file_operands rest'
           end
      else file_operands rest
  end.

(** A logged call that is neither a launch nor touches a buffer, and that
    does not set one of the buffer variables. *)
Definition plain_op (op : HostOp) : bool :=
  match op with
  | OpWindow _ | OpGui _ | OpCamera _ | OpContext _ => true
  | OpSetVariable name _ => negb (bool_decide (name ∈ buffer_names))
  | _ => false
  end.

(** A step of the set-up in [main] that logs plain calls only and leaves
    the buffers of the context as they are. *)
Definition plain_step {A} (m : M A) : Prop :=
  forall c t e f n,
    bound createContext_bindings (mkHost (Some c) t e f n) ->
    exists a c' ops,
      m (mkHost (Some c) t e f n) = Ret a (mkHost (Some c') (t ++ ops) e f n) /\
      bound createContext_bindings (mkHost (Some c') (t ++ ops) e f n) /\
      buffers c' = buffers c /\
      forallb plain_op ops = true.

(** The buffer mapping protocol of the runtime, followed along a log:
    [mapped] is the buffer currently mapped by the host, if any.  A buffer
    is mapped only when none is, written and unmapped only while it is the
    mapped one; launches need every buffer unmapped, and the sutil helpers
    need theirs unmapped.  [None] when the log breaks the protocol. *)
Fixpoint map_protocol (mapped : option nat) (t : list HostOp) : option (option nat) :=
  match t with
  | [] => Some mapped
  | op :: rest =>
      match op with
      | OpMap h =>
          match mapped with
          | None => map_protocol (Some h) rest
          | Some _ => None
          end
      | OpHostWrite h _ =>
          if bool_decide (mapped = Some h) then map_protocol mapped rest else None
      | OpUnmap h =>
          if bool_decide (mapped = Some h) then map_protocol None rest else None
      | OpLaunch _ _ =>
          match mapped with
          | None => map_protocol mapped rest
          | Some _ => None
          end
      | OpResizeBuffer h _ _ | OpDisplayBufferGL h | OpWriteBufferToFile _ h =>
          if bool_decide (mapped = Some h) then None else map_protocol mapped rest
      | _ => map_protocol mapped rest
      end
  end.

(** The number of elements of a buffer: the product of its dimensions. *)
Definition element_count (b : BufferObj) : Z := foldr Z.mul 1 (buf_size b).

(** The buffer variables of a context, with the buffers they hold. *)
Definition buffer_variables (c : ContextObj) : list (string * nat) :=
  omap (fun kv => match kv.2 with
                  | VBuffer h => Some (kv.1, h)
                  | _ => None
                  end)
       (map_to_list (variables c)).

(** The number of elements each buffer of [createContext] is created
    with, by handle. *)
Definition created_counts : list Z :=
  [WIDTH * HEIGHT; WIDTH * HEIGHT; WIDTH * HEIGHT; WIDTH * HEIGHT;
   num_photons; photon_launch_dim * photon_launch_dim; photon_map_size].

(** The number of elements of every buffer, followed along a log: a
    buffer starts with the count it is created with and a resize sets
    width * height.  [None] when a host write does not fill exactly the
    buffer it writes to, as it is at that point. *)
Fixpoint buffer_counts (counts : gmap nat Z) (t : list HostOp) : option (gmap nat Z) :=
  match t with
  | [] => Some counts
  | op :: rest =>
      match op with
      | OpCreateBuffer h =>
          match created_counts !! h with
          | Some n => buffer_counts (<[h := n]> counts) rest
          | None => None
          end
      | OpResizeBuffer h w hgt => buffer_counts (<[h := w * hgt]> counts) rest
      | OpHostWrite h n =>
          if bool_decide (counts !! h = Some n) then buffer_counts counts rest else None
      | _ => buffer_counts counts rest
      end
  end.

(** The launches of a run are whole frames. *)
Definition whole_frames (t : list HostOp) : Prop :=
  exists counters : list Z, launches t = concat (frame_launches <$> counters).

(** A logged call that saves a buffer to an image file. *)
Definition saves_image (op : HostOp) : bool :=
  match op with
  | OpWriteBufferToFile _ _ => true
  | _ => false
  end.

(** The calls of [glfwInitialize]. *)
Definition glfwInitialize_ops : list HostOp :=
  [OpWindow "sutil::initGLFW"; OpWindow "glfwSetKeyCallback";
   OpWindow "glfwSetWindowSize"; OpWindow "glfwSetWindowSizeCallback"].

(** *** Further concrete inputs *)

(** Three devices: the second differs from the first, the third matches it. *)
Definition example_env_three : Env :=
  mkEnv "/opt/samples/ptx" "/opt/samples" 32 64 48 3
    (fun ordinal => (0, if ordinal =? 1 then (5, 2) else (6, 1)))
    "Missing GL version".

(** Three devices, the query of the third failing with code 1285. *)
Definition example_env_failing : Env :=
  mkEnv "/opt/samples/ptx" "/opt/samples" 32 64 48 3
    (fun ordinal => (if ordinal =? 2 then 1285 else 0,
                     if ordinal =? 0 then (6, 1) else (5, 2)))
    "Missing GL version".
(** * Properties *)

Section Pow2RoundUp.

Lemma u32_wrap_in_range z : U32.in_range (U32.wrap z).
Proof. unfold U32.in_range, U32.wrap, U32.modulus. apply Z.mod_pos_bound. lia. Qed.

Lemma u32_wrap_small z : U32.in_range z -> U32.wrap z = z.
Proof. unfold U32.in_range, U32.wrap. intros H. apply Z.mod_small. exact H. Qed.

Lemma or_shr_bits x k i :
  0 <= i -> 0 <= k ->
  Z.testbit (or_shr x k) i = Z.testbit x i || Z.testbit x (i + k).
Proof.
  intros Hi Hk. unfold or_shr.
  rewrite Z.lor_spec, Z.shiftr_spec by lia. reflexivity.
Qed.

Lemma covers_refl x : covers 1 x x.
Proof.
  intros i Hi. split.
  - intros H. exists 0. rewrite Z.add_0_r. split; [lia | exact H].
  - intros (d & Hd & H). replace (i + d) with i in H by lia. exact H.
Qed.

Lemma covers_step n x y : 0 < n -> covers n x y -> covers (2 * n) x (or_shr y n).
Proof.
  intros Hn Hc i Hi. rewrite or_shr_bits by lia. rewrite orb_true_iff.
  rewrite (Hc i) by lia. rewrite (Hc (i + n)) by lia. split.
  - intros [(d & Hd & H) | (d & Hd & H)].
    + exists d. split; [lia | exact H].
    + exists (n + d). split; [lia |]. rewrite <- H. f_equal. lia.
  - intros (d & Hd & H). destruct (Z_lt_dec d n) as [Hlt | Hge].
    + left. exists d. split; [lia | exact H].
    + right. exists (d - n). split; [lia |]. rewrite <- H. f_equal. lia.
Qed.

Lemma smear_covers x : covers 32 x (smear x).
Proof.
  unfold smear.
  pose proof (covers_refl x) as H1.
  apply (covers_step 1) in H1; [| lia].
  apply (covers_step 2) in H1; [| lia].
  apply (covers_step 4) in H1; [| lia].
  apply (covers_step 8) in H1; [| lia].
  apply (covers_step 16) in H1; [| lia].
  exact H1.
Qed.

Lemma smear_0 : smear 0 = 0.
Proof. reflexivity. Qed.

(** On a positive 32-bit value the smearing sets every bit up to the
    highest set one. *)
Lemma smear_ones y :
  0 < y < 2 ^ 32 -> smear y = 2 ^ (Z.log2 y + 1) - 1.
Proof.
  intros Hy.
  assert (Hl : 0 <= Z.log2 y < 32).
  { split; [apply Z.log2_nonneg |]. apply Z.log2_lt_pow2; lia. }
  replace (2 ^ (Z.log2 y + 1) - 1) with (Z.ones (Z.log2 y + 1))
    by (rewrite Z.ones_equiv; lia).
  apply Z.bits_inj'. intros i Hi.
  destruct (Z_lt_dec i (Z.log2 y + 1)) as [Hlt | Hge].
  - rewrite Z.ones_spec_low by lia.
    apply (smear_covers y i Hi). exists (Z.log2 y - i). split; [lia |].
    replace (i + (Z.log2 y - i)) with (Z.log2 y) by lia.
    apply Z.bit_log2. lia.
  - rewrite Z.ones_spec_high by lia.
    apply not_true_is_false. intros H.
    apply (smear_covers y i Hi) in H. destruct H as (d & Hd & H).
    rewrite Z.bits_above_log2 in H by lia. discriminate.
Qed.

Lemma pow2roundup_zero : pow2roundup 0 = 0.
Proof. reflexivity. Qed.

Lemma pow2roundup_one : pow2roundup 1 = 1.
Proof. reflexivity. Qed.

(** From 2 on: one past the highest set bit of [x - 1], modulo 2^32. *)
Lemma pow2roundup_log2 x :
  2 <= x <= 2 ^ 32 ->
  pow2roundup x = U32.wrap (2 ^ (Z.log2 (x - 1) + 1)).
Proof.
  intros Hx. unfold pow2roundup, U32.sub, U32.add.
  rewrite (u32_wrap_small (x - 1)) by (unfold U32.in_range, U32.modulus; lia).
  rewrite smear_ones by lia. f_equal. lia.
Qed.

(** C8. For an unsigned 32-bit [x] with [1 <= x <= 2^31], [pow2roundup x]
    is the smallest power of two that is at least [x]; for [x = 0] and for
    every [x] above [2^31] the result is 0, the sum wrapping modulo 2^32. *)
Theorem pow2roundup_spec x :
  0 <= x < 2 ^ 32 ->
  (1 <= x <= 2 ^ 31 -> smallest_pow2_geq x (pow2roundup x)) /\
  (x = 0 \/ 2 ^ 31 < x -> pow2roundup x = 0).
Proof.
  intros Hx. split.
  - intros Hr. destruct (Z.eq_dec x 1) as [-> | Hne].
    + rewrite pow2roundup_one. repeat split.
      * exists 0. split; [lia | reflexivity].
      * lia.
      * intros j Hj _. pose proof (Z.pow_pos_nonneg 2 j). lia.
    + assert (Hy : 0 < x - 1 < 2 ^ 31) by lia.
      pose proof (Z.log2_nonneg (x - 1)) as Hl0.
      assert (Hl : Z.log2 (x - 1) < 31) by (apply Z.log2_lt_pow2; lia).
      pose proof (Z.log2_spec (x - 1) ltac:(lia)) as [Hlo Hhi].
      replace (Z.succ (Z.log2 (x - 1))) with (Z.log2 (x - 1) + 1) in Hhi by lia.
      assert (Hp : 2 ^ (Z.log2 (x - 1) + 1) <= 2 ^ 31)
        by (apply Z.pow_le_mono_r; lia).
      rewrite pow2roundup_log2 by lia.
      rewrite u32_wrap_small by (unfold U32.in_range, U32.modulus; lia).
      repeat split.
      * exists (Z.log2 (x - 1) + 1). split; [lia | reflexivity].
      * lia.
      * intros j Hj Hxj.
        apply Z.pow_le_mono_r; [lia |].
        assert (Z.log2 (x - 1) < j); [| lia].
        apply (Z.pow_lt_mono_r_iff 2); lia.
  - intros [-> | Hbig]; [apply pow2roundup_zero |].
    rewrite pow2roundup_log2 by lia.
    assert (Hl : Z.log2 (x - 1) = 31).
    { apply Z.log2_unique; lia. }
    rewrite Hl. reflexivity.
Qed.

(** The claim at a few inputs, by evaluation. *)
Example pow2roundup_examples :
  pow2roundup 3 = 4 /\ pow2roundup 524288 = 524288 /\ pow2roundup 524289 = 1048576 /\
  pow2roundup (2 ^ 31) = 2 ^ 31 /\ pow2roundup (2 ^ 31 + 1) = 0 /\
  pow2roundup (2 ^ 32 - 1) = 0.
Proof. repeat split; reflexivity. Qed.

End Pow2RoundUp.

(** ** Running the host monad in proofs *)

#[local] Arguments U32.add : simpl never.
#[local] Arguments U32.sub : simpl never.
#[local] Arguments U32.mul : simpl never.
#[local] Arguments U32.wrap : simpl never.
#[local] Arguments U64.mul : simpl never.
#[local] Arguments U64.wrap : simpl never.
#[local] Arguments photon_launch_dim : simpl never.

Lemma bind_eq {A B} (m : M A) (k : A -> M B) s :
  (m ≫= k) s =
  match m s with
  | Ret a s' => k a s'
  | Exit status s' => Exit status s'
  | Throw e s' => Throw e s'
  end.
Proof. reflexivity. Qed.

Lemma launches_app t1 t2 : launches (t1 ++ t2) = launches t1 ++ launches t2.
Proof. apply omap_app. Qed.

Lemma frame_numbers_app t1 t2 :
  frame_numbers (t1 ++ t2) = frame_numbers t1 ++ frame_numbers t2.
Proof. apply omap_app. Qed.

Lemma bool_decide_refl (x : nat) : bool_decide (x = x) = true.
Proof. apply bool_decide_eq_true_2. reflexivity. Qed.

(** Runs the monadic calls of the host program on an explicit state. *)
Ltac exec :=
  repeat (progress
    (cbv beta delta
       [mbind mret M_bind M_ret log cerr exit throw set_global_context
        set_frame_count set_accumulation_frame get_frame_count
        get_accumulation_frame get_context update_context set_variable
        setUint setFloat setFloat3 getBuffer getOutputBuffer map_buffer
        unmap_buffer fill_seeds launch sutil_resizeBuffer
        setDevices setRayTypeCount setEntryPointCount setStackSize add_buffer
        createBuffer sutil_createOutputBuffer setElementSize
        createProgramFromPTXFile setRayGenerationProgram setExceptionProgram
        setMissProgram];
     cbn)).

(** Closes a goal [exists ops msgs, allowed ops /\ outcome = outcome']
    once both outcomes are explicit. *)
Ltac close_logged :=
  rewrite <- ?app_assoc;
  eexists _, _;
  (split; [| do 2 f_equal; first [reflexivity | symmetry; apply app_nil_r]]);
  cbn; rewrite ?bool_decide_refl;
  repeat first [rewrite orb_true_r | rewrite orb_true_l | progress cbn]; reflexivity.


(** *** Equations of the calls on an explicit host state *)

Lemma runs_bind {A B} (m : M A) (k : A -> M B) s a s1 r :
  m s = Ret a s1 -> k a s1 = r -> (m ≫= k) s = r.
Proof. intros Hm Hk. rewrite bind_eq, Hm. exact Hk. Qed.

Lemma Ret_inj {A} (a a' : A) (s s' : Host) : Ret a s = Ret a' s' -> a = a' /\ s = s'.
Proof. intros H. injection H as -> ->. split; reflexivity. Qed.

Lemma mret_eq {A} (a : A) (s : Host) : (mret a : M A) s = Ret a s.
Proof. reflexivity. Qed.

Lemma log_eq op c t e f n :
  log op (mkHost c t e f n) = Ret tt (mkHost c (t ++ [op]) e f n).
Proof. reflexivity. Qed.

Lemma map_buffer_eq h c t e f n :
  map_buffer h (mkHost c t e f n) = Ret tt (mkHost c (t ++ [OpMap h]) e f n).
Proof. reflexivity. Qed.

Lemma unmap_buffer_eq h c t e f n :
  unmap_buffer h (mkHost c t e f n) = Ret tt (mkHost c (t ++ [OpUnmap h]) e f n).
Proof. reflexivity. Qed.

Lemma fill_seeds_eq h count c t e f n :
  fill_seeds h count (mkHost c t e f n) = Ret tt (mkHost c (t ++ [OpHostWrite h count]) e f n).
Proof. reflexivity. Qed.

Lemma get_frame_count_eq c t e f n :
  get_frame_count (mkHost c t e f n) = Ret f (mkHost c t e f n).
Proof. reflexivity. Qed.

Lemma set_frame_count_eq x c t e f n :
  set_frame_count x (mkHost c t e f n) = Ret tt (mkHost c t e x n).
Proof. reflexivity. Qed.

Lemma get_accumulation_frame_eq c t e f n :
  get_accumulation_frame (mkHost c t e f n) = Ret n (mkHost c t e f n).
Proof. reflexivity. Qed.

Lemma set_accumulation_frame_eq x c t e f n :
  set_accumulation_frame x (mkHost c t e f n) = Ret tt (mkHost c t e f x).
Proof. reflexivity. Qed.

Lemma get_context_eq c t e f n :
  get_context (mkHost (Some c) t e f n) = Ret c (mkHost (Some c) t e f n).
Proof. reflexivity. Qed.

Lemma set_global_context_eq c' c t e f n :
  set_global_context c' (mkHost c t e f n) = Ret tt (mkHost c' t e f n).
Proof. reflexivity. Qed.

Lemma update_context_eq g c t e f n :
  update_context g (mkHost (Some c) t e f n) = Ret tt (mkHost (Some (g c)) t e f n).
Proof. reflexivity. Qed.

Lemma set_variable_eq name v c t e f n :
  set_variable name v (mkHost (Some c) t e f n) =
  Ret tt (mkHost (Some (with_variables (<[name := v]> (variables c)) c))
            (t ++ [OpSetVariable name v]) e f n).
Proof. reflexivity. Qed.

Lemma setFloat_eq name x c t e f n :
  setFloat name x (mkHost (Some c) t e f n) =
  Ret tt (mkHost (Some (with_variables (<[name := VFloat x]> (variables c)) c))
            (t ++ [OpSetVariable name (VFloat x)]) e f n).
Proof. reflexivity. Qed.

Lemma setFloat3_eq name x y z c t e f n :
  setFloat3 name x y z (mkHost (Some c) t e f n) =
  Ret tt (mkHost (Some (with_variables (<[name := VFloat3 x y z]> (variables c)) c))
            (t ++ [OpSetVariable name (VFloat3 x y z)]) e f n).
Proof. reflexivity. Qed.

Lemma launch_eq p dims c t e f n :
  launch p dims (mkHost (Some c) t e f n) =
  Ret tt (mkHost (Some c) (t ++ [OpLaunch (enum_value p) dims]) e f n).
Proof. reflexivity. Qed.

Lemma getBuffer_eq name h c t e f n :
  variables c !! name = Some (VBuffer h) ->
  getBuffer name (mkHost (Some c) t e f n) = Ret h (mkHost (Some c) t e f n).
Proof.
  intros H. unfold getBuffer. rewrite bind_eq, get_context_eq. rewrite H. reflexivity.
Qed.

Lemma createProgramFromPTXFile_eq path name c t e f n :
  createProgramFromPTXFile path name (mkHost (Some c) t e f n) =
  Ret (ProgramFromPTXFile path name) (mkHost (Some c) t e f n).
Proof. reflexivity. Qed.

Lemma variables_with_variables v c : variables (with_variables v c) = v.
Proof. reflexivity. Qed.

Lemma with_variables_twice v1 v2 c :
  with_variables v2 (with_variables v1 c) = with_variables v2 c.
Proof. reflexivity. Qed.

(** One call whose equation is known; [lookup] settles the side condition
    of a buffer lookup. *)
Ltac run_call lookup :=
  lazymatch goal with
  | |- mret _ _ = _ => apply mret_eq
  | |- log _ _ = _ => apply log_eq
  | |- map_buffer _ _ = _ => apply map_buffer_eq
  | |- unmap_buffer _ _ = _ => apply unmap_buffer_eq
  | |- fill_seeds _ _ _ = _ => apply fill_seeds_eq
  | |- get_frame_count _ = _ => apply get_frame_count_eq
  | |- set_frame_count _ _ = _ => apply set_frame_count_eq
  | |- get_accumulation_frame _ = _ => apply get_accumulation_frame_eq
  | |- set_accumulation_frame _ _ = _ => apply set_accumulation_frame_eq
  | |- get_context _ = _ => apply get_context_eq
  | |- update_context _ _ = _ => apply update_context_eq
  | |- setFloat _ _ _ = _ => apply setFloat_eq
  | |- setFloat3 _ _ _ _ _ = _ => apply setFloat3_eq
  | |- set_variable _ _ _ = _ => apply set_variable_eq
  | |- launch _ _ _ = _ => apply launch_eq
  | |- createProgramFromPTXFile _ _ _ = _ => apply createProgramFromPTXFile_eq
  | |- getBuffer _ _ = _ => apply getBuffer_eq; lookup
  | |- getOutputBuffer _ = _ => apply getBuffer_eq; lookup
  | |- _ => idtac
  end.

(** Runs a program made of such calls, binds and conditionals; [cond]
    settles the test of a conditional. *)
Ltac run lookup cond :=
  cbv beta iota zeta;
  lazymatch goal with
  | |- (_ ≫= _) _ = _ => eapply runs_bind; [ run lookup cond | run lookup cond ]
  | |- (if _ then _ else _) _ = _ => cond; run lookup cond
  | |- _ => run_call lookup
  end.

(** Looks a buffer name up through the variables set since. *)
Ltac lookup_through :=
  rewrite ?variables_with_variables; rewrite ?lookup_insert_ne by done; eassumption.

(** *** The log is append-only *)

Lemma prepend_prepend tr1 tr2 s : prepend tr1 (prepend tr2 s) = prepend (tr1 ++ tr2) s.
Proof. unfold prepend. cbn. rewrite app_assoc. reflexivity. Qed.

Lemma appends_bind {A B} (m : M A) (k : A -> M B) :
  appends m -> (forall a, appends (k a)) -> appends (m ≫= k).
Proof.
  intros Hm Hk s tr. rewrite !bind_eq, Hm.
  destruct (m s) as [a s1 | st s1 | e s1]; cbn [lift_trace]; [| reflexivity ..].
  apply Hk.
Qed.

Lemma appends_ret {A} (a : A) : appends (mret a).
Proof. intros s tr. reflexivity. Qed.

Lemma appends_log op : appends (log op).
Proof. intros s tr. unfold log, lift_trace, prepend. cbn. rewrite app_assoc. reflexivity. Qed.

Lemma appends_throw {A} e : appends (@throw A e).
Proof. intros s tr. reflexivity. Qed.

Lemma appends_get_context : appends get_context.
Proof. intros s tr. unfold get_context. cbn. destruct (context s); reflexivity. Qed.

Lemma appends_set_global_context c : appends (set_global_context c).
Proof. intros s tr. reflexivity. Qed.

Lemma lift_trace_Ret {A} (a : A) tr c t e f n :
  lift_trace tr (Ret a (mkHost c t e f n)) = Ret a (mkHost c (tr ++ t) e f n).
Proof. reflexivity. Qed.

Lemma appends_at {A} (m : M A) c tr err fc af :
  appends m ->
  m (mkHost c tr err fc af) = lift_trace tr (m (mkHost c [] err fc af)).
Proof.
  intros H. specialize (H (mkHost c [] err fc af) tr).
  unfold prepend in H. cbn in H. rewrite app_nil_r in H. exact H.
Qed.

(** Walks through a straight-line program built from these calls. *)
Ltac appends_tac :=
  repeat first
    [ apply appends_bind
    | apply appends_ret
    | apply appends_log
    | apply appends_throw
    | apply appends_get_context
    | apply appends_set_global_context
    | intro
    | match goal with
      | |- appends (match ?x with _ => _ end) => destruct x
      end ].

(** ** Context set-up *)

#[local] Opaque configured configured_context.

Section ContextSetup.

Variable env : Env.

Lemma pick_device_pure caps ordinals s :
  (exists d, pick_device env caps ordinals s = Ret d s) \/
  (exists e, pick_device env caps ordinals s = Throw e s).
Proof.
  induction ordinals as [| index rest IH]; cbn [pick_device].
  - left. exists 0. reflexivity.
  - destruct (rtDeviceGetAttribute env index) as [code capsB].
    destruct (code =? 0); cbn [negb].
    + destruct ((caps.1 =? capsB.1) && (caps.2 =? capsB.2)).
      * left. exists index. reflexivity.
      * exact IH.
    + right. exists (RTException code). reflexivity.
Qed.

Lemma select_device_pure s :
  (exists d, select_device env s = Ret d s) \/
  (exists e, select_device env s = Throw e s).
Proof.
  unfold select_device. destruct (rtDeviceGetAttribute env 0) as [code caps].
  destruct (code =? 0); cbn [negb].
  - apply pick_device_pure.
  - right. exists (RTException code). reflexivity.
Qed.

Lemma pick_device_returns caps ordinals s :
  devices_answer env -> exists d, pick_device env caps ordinals s = Ret d s.
Proof.
  intros Hok. induction ordinals as [| index rest IH]; cbn [pick_device].
  - exists 0. reflexivity.
  - specialize (Hok index). destruct (rtDeviceGetAttribute env index) as [code capsB].
    cbn in Hok. subst code. cbn.
    destruct ((caps.1 =? capsB.1) && (caps.2 =? capsB.2)).
    + exists index. reflexivity.
    + exact IH.
Qed.

Lemma select_device_returns s :
  devices_answer env -> exists d, select_device env s = Ret d s.
Proof.
  intros Hok. unfold select_device. pose proof (Hok 0) as H0.
  destruct (rtDeviceGetAttribute env 0) as [code caps]. cbn in H0. subst code. cbn.
  apply pick_device_returns. exact Hok.
Qed.

(** The configuration part only adds to the log. *)
Lemma appends_createContext_configure use_pbo d :
  appends (createContext_configure env use_pbo d).
Proof.
  unfold createContext_configure, setDevices, setRayTypeCount, setEntryPointCount,
    setStackSize, setUint, setFloat, setFloat3, set_variable, sutil_createOutputBuffer,
    createBuffer, add_buffer, setElementSize, map_buffer, unmap_buffer, fill_seeds,
    createProgramFromPTXFile, setRayGenerationProgram, setExceptionProgram,
    setMissProgram, update_context.
  appends_tac.
Qed.

Lemma createContext_configure_from_empty use_pbo d err fc af :
  createContext_configure env use_pbo d (mkHost (Some Context_create) [] err fc af) =
  Ret tt (mkHost (Some (configured_context env use_pbo d))
            (trace (configured env use_pbo d)) err fc af).
Proof. vm_compute. reflexivity. Qed.

(** It runs to its end on any fresh context. *)
Lemma createContext_configure_eq use_pbo d tr err fc af :
  createContext_configure env use_pbo d (mkHost (Some Context_create) tr err fc af) =
  Ret tt (mkHost (Some (configured_context env use_pbo d))
            (tr ++ trace (configured env use_pbo d)) err fc af).
Proof.
  rewrite (appends_at _ _ tr err fc af (appends_createContext_configure use_pbo d)).
  rewrite createContext_configure_from_empty.
  apply lift_trace_Ret.
Qed.

(** [createContext] either fails in a device query, or returns with the
    configured context in place. *)
Lemma createContext_cases use_pbo s :
  (exists e,
     createContext env use_pbo s =
     Throw e (mkHost (Some Context_create) (trace s) (stderr s) (frame_count s)
                (accumulation_frame s))) \/
  (exists d,
     createContext env use_pbo s =
     Ret tt (mkHost (Some (configured_context env use_pbo d))
               (trace s ++ trace (configured env use_pbo d)) (stderr s)
               (frame_count s) (accumulation_frame s))).
Proof.
  destruct s as [c t e fc af]. unfold createContext.
  rewrite bind_eq, set_global_context_eq, bind_eq.
  cbn [context trace stderr frame_count accumulation_frame].
  destruct (select_device_pure (mkHost (Some Context_create) t e fc af))
    as [[d Hd] | [x Hx]].
  - right. exists d. rewrite Hd. apply createContext_configure_eq.
  - left. exists x. rewrite Hx. reflexivity.
Qed.

(** It returns when the device queries answer. *)
Lemma createContext_returns use_pbo s :
  devices_answer env -> exists s', createContext env use_pbo s = Ret tt s'.
Proof.
  intros Hok. destruct s as [c t e fc af]. unfold createContext.
  rewrite bind_eq, set_global_context_eq, bind_eq.
  destruct (select_device_returns (mkHost (Some Context_create) t e fc af) Hok) as [d Hd].
  rewrite Hd, createContext_configure_eq. eexists. reflexivity.
Qed.

Lemma createContext_ret use_pbo s s' :
  createContext env use_pbo s = Ret tt s' ->
  exists d, context s' = Some (configured_context env use_pbo d) /\
            trace s' = trace s ++ trace (configured env use_pbo d).
Proof.
  intros H. destruct (createContext_cases use_pbo s) as [[e He] | [d Hd]].
  - rewrite He in H. discriminate.
  - rewrite Hd in H. apply Ret_inj in H as [_ <-]. exists d. split; reflexivity.
Qed.

(** *** The configured context, by evaluation *)

Lemma configured_counts use_pbo d :
  devices (configured_context env use_pbo d) = [d] /\
  ray_type_count (configured_context env use_pbo d) = 3 /\
  entry_point_count (configured_context env use_pbo d) = 3 /\
  stack_size (configured_context env use_pbo d) = 800.
Proof. vm_compute. repeat split; reflexivity. Qed.

Lemma configured_ray_generation use_pbo d :
  ray_generation_program (configured_context env use_pbo d) =
  <[2 := ProgramFromPTXFile (ptxPath env "ppm_gather.cu") "gather"]>
    (<[1 := ProgramFromPTXFile (ptxPath env "ppm_ppass.cu") "ppass_camera"]>
       (<[0 := ProgramFromPTXFile (ptxPath env "ppm_rtpass.cu") "rtpass_camera"]> ∅)).
Proof. vm_compute. reflexivity. Qed.

Lemma configured_exception use_pbo d :
  exception_program (configured_context env use_pbo d) =
  <[2 := ProgramFromPTXFile (ptxPath env "ppm_gather.cu") "gather_exception"]>
    (<[0 := ProgramFromPTXFile (ptxPath env "ppm_rtpass.cu") "rtpass_exception"]> ∅).
Proof. vm_compute. reflexivity. Qed.

Lemma configured_miss use_pbo d :
  miss_program (configured_context env use_pbo d) =
  <[0 := ProgramFromPTXFile (ptxPath env "ppm_rtpass.cu") "rtpass_miss"]> ∅.
Proof. vm_compute. reflexivity. Qed.

Lemma configured_buffers use_pbo d :
  buffers (configured_context env use_pbo d) =
  [ mkBuffer RT_BUFFER_OUTPUT false RT_FORMAT_FLOAT4 [WIDTH; HEIGHT] None use_pbo;
    mkBuffer RT_BUFFER_OUTPUT false RT_FORMAT_FLOAT4 [WIDTH; HEIGHT] None false;
    mkBuffer RT_BUFFER_OUTPUT false RT_FORMAT_USER [WIDTH; HEIGHT]
      (Some (sizeof_HitRecord env)) false;
    mkBuffer RT_BUFFER_INPUT_OUTPUT true RT_FORMAT_UNSIGNED_INT2 [WIDTH; HEIGHT] None false;
    mkBuffer RT_BUFFER_OUTPUT false RT_FORMAT_USER [num_photons]
      (Some (sizeof_PhotonRecord env)) false;
    mkBuffer RT_BUFFER_INPUT false RT_FORMAT_UNSIGNED_INT2
      [photon_launch_dim; photon_launch_dim] None false;
    mkBuffer RT_BUFFER_INPUT false RT_FORMAT_USER [photon_map_size]
      (Some (sizeof_PhotonRecord env)) false ].
Proof. vm_compute. reflexivity. Qed.

Lemma configured_bindings use_pbo d :
  let vars := variables (configured_context env use_pbo d) in
  vars !! "output_buffer" = Some (VBuffer 0) /\
  vars !! "debug_buffer" = Some (VBuffer 1) /\
  vars !! "rtpass_output_buffer" = Some (VBuffer 2) /\
  vars !! "image_rnd_seeds" = Some (VBuffer 3) /\
  vars !! "ppass_output_buffer" = Some (VBuffer 4) /\
  vars !! "photon_rnd_seeds" = Some (VBuffer 5) /\
  vars !! "photon_map" = Some (VBuffer 6).
Proof. vm_compute. repeat split; reflexivity. Qed.

Lemma configured_bound use_pbo d t e fc af :
  bound createContext_bindings
    (mkHost (Some (configured_context env use_pbo d)) t e fc af).
Proof.
  destruct (configured_bindings use_pbo d) as (H0 & H1 & H2 & H3 & H4 & H5 & H6).
  eexists. split; [reflexivity |]. repeat split; assumption.
Qed.

Lemma configured_trace_quiet use_pbo d :
  forallb (quiet_op createContext_bindings) (trace (configured env use_pbo d)) = true.
Proof. vm_compute. reflexivity. Qed.

Lemma buffer_named_configured use_pbo d name h :
  variables (configured_context env use_pbo d) !! name = Some (VBuffer h) ->
  buffer_named (configured_context env use_pbo d) name =
  buffers (configured_context env use_pbo d) !! h.
Proof. intros H. unfold buffer_named. rewrite H. reflexivity. Qed.

(** *** What the claims say about the set-up *)

(** C2. The context gets exactly three entry points, one per pass
    (rtpass = 0, ppass = 1, gather = 2), a ray-generation program on each
    of them, and a ray-type count of 3. *)
Theorem createContext_entry_points use_pbo s s' :
  createContext env use_pbo s = Ret tt s' ->
  exists c,
    context s' = Some c /\
    entry_point_count c = enum_value NUM_PROGRAMS /\
    entry_point_count c = 3 /\
    enum_value rtpass = 0 /\ enum_value ppass = 1 /\ enum_value gather = 2 /\
    ray_generation_program c !! enum_value rtpass =
      Some (ProgramFromPTXFile (ptxPath env "ppm_rtpass.cu") "rtpass_camera") /\
    ray_generation_program c !! enum_value ppass =
      Some (ProgramFromPTXFile (ptxPath env "ppm_ppass.cu") "ppass_camera") /\
    ray_generation_program c !! enum_value gather =
      Some (ProgramFromPTXFile (ptxPath env "ppm_gather.cu") "gather") /\
    (forall e, is_Some (ray_generation_program c !! e) <-> 0 <= e < entry_point_count c) /\
    ray_type_count c = 3.
Proof.
  intros H. apply createContext_ret in H as (d & Hc & _).
  exists (configured_context env use_pbo d). split; [exact Hc |].
  destruct (configured_counts use_pbo d) as (_ & Hrt & Hep & _).
  rewrite Hep, Hrt, configured_ray_generation.
  repeat (split; [reflexivity |]).
  split; [| reflexivity].
  intros e. split.
  - intros [p Hp]. rewrite !lookup_insert in Hp.
    repeat case_decide; try lia. rewrite lookup_empty in Hp. discriminate.
  - intros He. assert (e = 0 \/ e = 1 \/ e = 2) as [-> | [-> | ->]] by lia;
      eexists; reflexivity.
Qed.

(** [ptxPath] names the file the build generates. *)
Lemma ptxPath_generated cuda_file : ptxPath env cuda_file = generated_ptx_file env cuda_file.
Proof. reflexivity. Qed.

Lemma from_sample_ptx_intro cuda_file name :
  In cuda_file cuda_files ->
  from_sample_ptx env (ProgramFromPTXFile (ptxPath env cuda_file) name).
Proof.
  intros H. exists cuda_file, name. split; [exact H |].
  rewrite ptxPath_generated. reflexivity.
Qed.

(** Settles [m !! k = Some p -> from_sample_ptx env p] on an explicit map. *)
Ltac programs_of_map H :=
  rewrite ?lookup_insert in H;
  repeat (case_decide;
          [ apply Some_inj in H; subst; apply from_sample_ptx_intro; cbn; tauto | ]);
  rewrite lookup_empty in H; discriminate.

Lemma createMaterial_eq c t e f n :
  createMaterial env (mkHost (Some c) t e f n) =
  Ret (mkMaterial
         (<[1 := ProgramFromPTXFile (ptxPath env "ppm_ppass.cu") "ppass_closest_hit"]>
            (<[0 := ProgramFromPTXFile (ptxPath env "ppm_rtpass.cu") "rtpass_closest_hit"]> ∅))
         (<[2 := ProgramFromPTXFile (ptxPath env "ppm_gather.cu") "gather_any_hit"]> ∅))
      (mkHost (Some c) t e f n).
Proof. unfold createMaterial. run ltac:(idtac) ltac:(idtac). Qed.

(** The programs installed into the context (three ray-generation
    programs, two exception programs, one miss program) and into the
    material (two closest-hit programs, one any-hit program). *)
Lemma installed_programs use_pbo s s1 s2 material s3 :
  createContext env use_pbo s = Ret tt s1 ->
  createMaterial env s2 = Ret material s3 ->
  (exists c, context s1 = Some c /\
     size (ray_generation_program c) = 3%nat /\
     size (exception_program c) = 2%nat /\
     size (miss_program c) = 1%nat /\
     forall i p,
       ray_generation_program c !! i = Some p \/
       exception_program c !! i = Some p \/
       miss_program c !! i = Some p ->
       from_sample_ptx env p) /\
  (forall i p,
     closest_hit_program material !! i = Some p \/
     any_hit_program material !! i = Some p ->
     from_sample_ptx env p) /\
  size (closest_hit_program material) = 2%nat /\
  size (any_hit_program material) = 1%nat.
Proof.
  intros H1 H2. apply createContext_ret in H1 as (d & Hc & _).
  split.
  - exists (configured_context env use_pbo d). split; [exact Hc |].
    rewrite configured_ray_generation, configured_exception, configured_miss.
    repeat (split; [reflexivity |]).
    intros i p [H | [H | H]]; programs_of_map H.
  - destruct s2 as [[c |] t e f n].
    + rewrite createMaterial_eq in H2. apply Ret_inj in H2 as [<- _].
      cbn [closest_hit_program any_hit_program].
      split; [| split; reflexivity].
      intros i p [H | H]; programs_of_map H.
    + discriminate H2.
Qed.

(** C5. The output, debug, hit-record and image-seed buffers are
    allocated WIDTH x HEIGHT = 768 x 768; the photon output buffer has
    512 * 512 * 2 = 524288 elements and the photon map buffer
    pow2roundup( 524288 ) - 1 = 524287. *)
Theorem createContext_buffer_sizes use_pbo s s' :
  createContext env use_pbo s = Ret tt s' ->
  exists c,
    context s' = Some c /\
    (forall name,
       In name ["output_buffer"; "debug_buffer"; "rtpass_output_buffer"; "image_rnd_seeds"] ->
       buf_size <$> buffer_named c name = Some [WIDTH; HEIGHT]) /\
    WIDTH = 768 /\ HEIGHT = 768 /\
    buf_size <$> buffer_named c "ppass_output_buffer" = Some [num_photons] /\
    num_photons = photon_launch_dim * photon_launch_dim * MAX_PHOTON_COUNT /\
    num_photons = 524288 /\
    buf_size <$> buffer_named c "photon_map" = Some [photon_map_size] /\
    photon_map_size = pow2roundup 524288 - 1 /\
    photon_map_size = 524287.
Proof.
  intros H. apply createContext_ret in H as (d & Hc & _).
  exists (configured_context env use_pbo d). split; [exact Hc |].
  destruct (configured_bindings use_pbo d) as (H0 & H1 & H2 & H3 & H4 & H5 & H6).
  cbv zeta in *.
  split.
  - intros name [<- | [<- | [<- | [<- | []]]]];
      erewrite buffer_named_configured by eassumption;
      rewrite configured_buffers; reflexivity.
  - rewrite (buffer_named_configured _ _ _ _ H4), (buffer_named_configured _ _ _ _ H6).
    rewrite configured_buffers. repeat split; reflexivity.
Qed.

Lemma createLight_eq c t e f n :
  exists c' ops,
    createLight env (mkHost (Some c) t e f n) = Ret tt (mkHost (Some c') (t ++ ops) e f n) /\
    variables c' =
      <["envmap" := VTextureSampler (samplesDir env +:+ "/data/CedarCity.hdr")]>
        (<["ambient_light" := VFloat3 (FLit "0.1f") (FLit "0.1f") (FLit "0.1f")]>
           (<["rtpass_default_radius2" := VFloat (FLit "0.25f")]>
              (<["light" := VUserData (sizeof_PPMLight env)]> (variables c)))) /\
    ops = [OpSetVariable "light" (VUserData (sizeof_PPMLight env));
           OpSetVariable "rtpass_default_radius2" (VFloat (FLit "0.25f"));
           OpSetVariable "ambient_light" (VFloat3 (FLit "0.1f") (FLit "0.1f") (FLit "0.1f"));
           OpSetVariable "envmap"
             (VTextureSampler (samplesDir env +:+ "/data/CedarCity.hdr"))].
Proof.
  eexists _, _. split; [| split].
  - unfold createLight. etransitivity; [run ltac:(idtac) ltac:(idtac) |].
    rewrite <- !app_assoc. reflexivity.
  - rewrite !variables_with_variables. reflexivity.
  - reflexivity.
Qed.

(** C6. The hit-record buffer gets element size sizeof( HitRecord ), the
    photon output and photon map buffers sizeof( PhotonRecord ), and the
    light is uploaded as user data of sizeof( PPMLight ) bytes. *)
Theorem record_sizes use_pbo s s1 s2 s3 :
  createContext env use_pbo s = Ret tt s1 ->
  createLight env s2 = Ret tt s3 ->
  (exists c,
     context s1 = Some c /\
     buf_element_size <$> buffer_named c "rtpass_output_buffer" =
       Some (Some (sizeof_HitRecord env)) /\
     buf_element_size <$> buffer_named c "ppass_output_buffer" =
       Some (Some (sizeof_PhotonRecord env)) /\
     buf_element_size <$> buffer_named c "photon_map" =
       Some (Some (sizeof_PhotonRecord env))) /\
  (exists c,
     context s3 = Some c /\
     variables c !! "light" = Some (VUserData (sizeof_PPMLight env))).
Proof.
  intros H1 H2. apply createContext_ret in H1 as (d & Hc & _). split.
  - exists (configured_context env use_pbo d). split; [exact Hc |].
    destruct (configured_bindings use_pbo d) as (H0 & _ & Hrt & _ & Hpp & _ & Hpm).
    cbv zeta in *.
    rewrite (buffer_named_configured _ _ _ _ Hrt), (buffer_named_configured _ _ _ _ Hpp),
      (buffer_named_configured _ _ _ _ Hpm), configured_buffers.
    repeat split; reflexivity.
  - destruct s2 as [[c |] t e f n].
    + destruct (createLight_eq c t e f n) as (c' & ops & Heq & Hvars & _).
      rewrite Heq in H2. apply Ret_inj in H2 as [_ <-].
      exists c'. split; [reflexivity |].
      rewrite Hvars, !lookup_insert_ne by done. apply lookup_insert_eq.
    + discriminate H2.
Qed.

End ContextSetup.

(** ** The display loop *)


Section DisplayLoop.

Variable b : Bindings.

(** One callback: it either ends the process (the quit keys) or returns
    with the context untouched, the counter kept or set back to 0, and
    only harmless calls logged. *)
Lemma callback_spec e s :
  bound b s ->
  exists ops msgs,
    forallb (callback_op b) ops = true /\
    callback e s =
    (if is_quit e
     then Exit EXIT_SUCCESS
            (mkHost (context s) (trace s ++ ops) (stderr s ++ msgs)
               (frame_count s) (accumulation_frame s))
     else Ret tt
            (mkHost (context s) (trace s ++ ops) (stderr s ++ msgs)
               (frame_count s)
               (if event_resets e then 0 else accumulation_frame s))).
Proof.
  intros (c & Hc & Hout & Hdbg & Hrt & Himg & _ & _).
  destruct s as [ctx tr err fc af]. simpl in Hc. subst ctx.
  destruct e as [key action | w h resized].
  - destruct action, key; exec; rewrite ?Hout; exec; close_logged.
  - unfold callback, windowSizeCallback, event_resets.
    destruct (w <? 0), (h <? 0), resized; exec;
      rewrite ?Hout; exec; rewrite ?Hdbg; exec; rewrite ?Hrt; exec; rewrite ?Himg; exec.
    all: try close_logged.
    all: try (exists [], []; rewrite !app_nil_r; split; reflexivity).
Qed.

Lemma bound_same_context s s' : context s' = context s -> bound b s -> bound b s'.
Proof. intros Hc (c & H). exists c. rewrite Hc. exact H. Qed.

(** Event polling: the callbacks run in order until a quit key ends the
    process; they leave the context alone. *)
Lemma glfwPollEvents_spec evs s :
  bound b s ->
  exists ops msgs af,
    forallb (callback_op b) ops = true /\
    glfwPollEvents evs s =
    (if existsb is_quit evs
     then Exit EXIT_SUCCESS
            (mkHost (context s) (trace s ++ ops) (stderr s ++ msgs) (frame_count s) af)
     else Ret tt
            (mkHost (context s) (trace s ++ ops) (stderr s ++ msgs) (frame_count s)
               (if existsb event_resets evs then 0 else accumulation_frame s))).
Proof.
  revert s. induction evs as [| e rest IH]; intros s Hb.
  - exists [], [], 0. split; [reflexivity |].
    destruct s; cbn. rewrite !app_nil_r. reflexivity.
  - destruct (callback_spec e s Hb) as (ops1 & msgs1 & Hops1 & He).
    cbn [glfwPollEvents existsb]. rewrite bind_eq, He.
    destruct (is_quit e).
    + exists ops1, msgs1, (accumulation_frame s). split; [exact Hops1 | reflexivity].
    + match goal with |- context [glfwPollEvents rest ?s1] =>
        destruct (IH s1) as (ops2 & msgs2 & af & Hops2 & Hr);
          [ apply (bound_same_context s); [reflexivity | exact Hb] | rewrite Hr ]
      end.
      cbn [context trace stderr frame_count accumulation_frame orb].
      exists (ops1 ++ ops2), (msgs1 ++ msgs2), af.
      split; [rewrite forallb_app, Hops1, Hops2; reflexivity |].
      rewrite <- !app_assoc.
      destruct (event_resets e), (existsb event_resets rest); reflexivity.
Qed.

Lemma u32_add_1_is_1 n : U32.in_range n -> (U32.add n 1 =? 1) = (n =? 0).
Proof.
  unfold U32.in_range, U32.add, U32.wrap, U32.modulus. intros Hn.
  destruct (Z.eq_dec n (2 ^ 32 - 1)) as [-> | Hne]; [reflexivity |].
  rewrite Z.mod_small by lia.
  destruct (Z.eqb_spec (n + 1) 1), (Z.eqb_spec n 0); lia || reflexivity.
Qed.

(** The 64-bit product of line 501 does not wrap. *)
Lemma total_emitted_exact a :
  U32.in_range a ->
  U64.mul (U64.mul (U64.wrap a) photon_launch_dim) photon_launch_dim =
  a * photon_launch_dim * photon_launch_dim.
Proof.
  unfold U32.in_range, U32.modulus, U64.mul, U64.wrap, U64.modulus, photon_launch_dim.
  intros Ha. rewrite (Z.mod_small a) by lia.
  rewrite (Z.mod_small (a * 512)) by lia. apply Z.mod_small. lia.
Qed.

Lemma recorded_counter_in_range f s :
  U32.in_range (accumulation_frame s) -> U32.in_range (recorded_counter f s).
Proof.
  unfold recorded_counter. destruct (frame_resets f); [| tauto].
  intros _. unfold U32.in_range, U32.modulus. lia.
Qed.

(** One pass through the loop body, on a host whose context binds the
    buffers: either a quit key ends the process during event polling, or
    the body runs to its end and logs exactly [frame_ops]. *)
Lemma glfwRun_body_spec f s :
  bound b s ->
  U32.in_range (accumulation_frame s) ->
  exists ops msgs c,
    forallb (callback_op b) ops = true /\
    context s = Some c /\
    if existsb is_quit (events f)
    then exists af,
      glfwRun_body f s =
      Exit EXIT_SUCCESS
        (mkHost (context s) (trace s ++ [OpWindow "glfwPollEvents"] ++ ops)
           (stderr s ++ msgs) (frame_count s) af)
    else
      let n := recorded_counter f s in
      glfwRun_body f s =
      Ret tt
        (mkHost (Some (with_variables (frame_variables n (variables c)) c))
           (trace s ++ [OpWindow "glfwPollEvents"] ++ ops ++ frame_ops b f n)
           (stderr s ++ msgs) (U32.add (frame_count s) 1) (U32.add n 1)).
Proof.
  intros Hb Hr.
  pose proof (recorded_counter_in_range f s Hr) as Hn.
  pose proof Hb as (c & Hc & Hout & _ & _ & _ & Hseeds & _).
  unfold glfwRun_body. rewrite bind_eq. cbn [log].
  match goal with |- context [(glfwPollEvents (events f) ;; ?k) ?s1] =>
    rewrite (bind_eq (glfwPollEvents (events f)) (fun _ => k) s1);
    destruct (glfwPollEvents_spec (events f) s1) as (ops & msgs & af & Hops & Hp);
      [ apply (bound_same_context s); [reflexivity | exact Hb] | rewrite Hp ]
  end.
  exists ops, msgs, c. split; [exact Hops |]. split; [exact Hc |].
  cbn [context trace stderr frame_count accumulation_frame].
  destruct (existsb is_quit (events f)) eqn:Hq.
  - exists af. rewrite <- app_assoc. reflexivity.
  - rewrite Hc. unfold frame_ops, frame_variables, recorded_counter, frame_resets in *.
    destruct (want_capture_mouse f), (camera_moved f),
      (existsb event_resets (events f)); cbn [negb orb andb] in *.
    all: match goal with
         | |- _ = Ret tt (mkHost _ _ _ _ (U32.add ?N 1)) => destruct (N =? 0) eqn:Hz
         end.
    all: try discriminate Hz.
    all: etransitivity;
      [ run ltac:(lookup_through)
            ltac:(rewrite u32_add_1_is_1 by assumption; rewrite Hz) | ].
    all: rewrite total_emitted_exact by apply u32_wrap_in_range.
    all: rewrite !variables_with_variables, !with_variables_twice.
    all: rewrite <- !app_assoc; reflexivity.
Qed.


Lemma frame_variables_lookup name n vars :
  name <> "frame_number" -> name <> "total_emitted" ->
  frame_variables n vars !! name = vars !! name.
Proof.
  intros H1 H2. unfold frame_variables.
  destruct (n =? 0); rewrite !lookup_insert_ne by done; reflexivity.
Qed.

Lemma frame_variables_total_emitted n vars :
  frame_variables n vars !! "total_emitted" =
  Some (VFloat (FOfULongLong (U32.add n 1 * photon_launch_dim * photon_launch_dim))).
Proof. unfold frame_variables. apply lookup_insert_eq. Qed.

Lemma frame_variables_frame_number n vars :
  frame_variables n vars !! "frame_number" = Some (VFloat (FOfUint n)).
Proof.
  unfold frame_variables.
  destruct (n =? 0); rewrite !lookup_insert_ne by done; apply lookup_insert_eq.
Qed.

Lemma bound_frame_variables n s c t e fc af :
  bound b s -> context s = Some c ->
  bound b (mkHost (Some (with_variables (frame_variables n (variables c)) c)) t e fc af).
Proof.
  intros (c' & Hc' & H1 & H2 & H3 & H4 & H5 & H6) Hc.
  rewrite Hc in Hc'. injection Hc' as <-.
  eexists. split; [reflexivity |].
  rewrite variables_with_variables, !frame_variables_lookup by done.
  repeat split; assumption.
Qed.

Lemma callback_ops_quiet ops :
  forallb (callback_op b) ops = true -> launches ops = [] /\ frame_numbers ops = [].
Proof.
  induction ops as [| op ops IH]; [split; reflexivity |].
  cbn [forallb]. intros [Hop Hops]%andb_true_iff.
  destruct (IH Hops) as [IH1 IH2].
  destruct op; cbn in Hop; try discriminate; split; assumption.
Qed.

Lemma launches_frame_ops f n : launches (frame_ops b f n) = frame_launches n.
Proof.
  unfold frame_ops, frame_launches.
  destruct (want_capture_mouse f), (n =? 0); reflexivity.
Qed.

Lemma frame_numbers_frame_ops f n : frame_numbers (frame_ops b f n) = [n].
Proof.
  unfold frame_ops.
  destruct (want_capture_mouse f), (n =? 0); reflexivity.
Qed.

Lemma in_frame_launches n : In (enum_value rtpass) (frame_launches n) <-> n = 0.
Proof.
  unfold frame_launches. destruct (Z.eqb_spec n 0) as [-> | Hne]; cbn.
  - split; [reflexivity | intros _; left; reflexivity].
  - split; [intros [H | [H | []]]; discriminate | contradiction].
Qed.

(** C1. Every pass through the loop body that event polling does not cut
    short (no quit key) launches the photon pass and then the gather pass;
    the eye-ray pass is launched exactly when the accumulation counter is
    0 where the frame number is recorded, and then it comes first. *)
Theorem glfwRun_body_launches f s :
  bound b s ->
  U32.in_range (accumulation_frame s) ->
  existsb is_quit (events f) = false ->
  exists s' ops,
    glfwRun_body f s = Ret tt s' /\
    trace s' = trace s ++ ops /\
    frame_numbers ops = [recorded_counter f s] /\
    launches ops =
      (if recorded_counter f s =? 0 then [enum_value rtpass] else []) ++
      [enum_value ppass; enum_value gather] /\
    (In (enum_value rtpass) (launches ops) <-> recorded_counter f s = 0).
Proof.
  intros Hb Hr Hq.
  destruct (glfwRun_body_spec f s Hb Hr) as (ops & msgs & c & Hops & Hc & H).
  rewrite Hq in H. cbv zeta in H.
  destruct (callback_ops_quiet ops Hops) as [Hl Hf].
  eexists _, _. split; [exact H |]. split; [reflexivity |].
  rewrite !frame_numbers_app, !launches_app, Hl, Hf, launches_frame_ops,
    frame_numbers_frame_ops.
  split; [reflexivity |]. split; [reflexivity |].
  apply in_frame_launches.
Qed.

(** A quit key ends the process during event polling: that pass through
    the body launches nothing. *)
Lemma glfwRun_body_quit f s :
  bound b s ->
  U32.in_range (accumulation_frame s) ->
  existsb is_quit (events f) = true ->
  exists s' ops,
    glfwRun_body f s = Exit EXIT_SUCCESS s' /\
    trace s' = trace s ++ ops /\ launches ops = [].
Proof.
  intros Hb Hr Hq.
  destruct (glfwRun_body_spec f s Hb Hr) as (ops & msgs & c & Hops & Hc & H).
  rewrite Hq in H. destruct H as (af & H).
  destruct (callback_ops_quiet ops Hops) as [Hl Hf].
  eexists _, _. split; [exact H |]. split; [reflexivity |].
  rewrite launches_app, Hl. reflexivity.
Qed.

(** C9. After every pass through the loop body, total_emitted holds the
    conversion of the 64-bit product of the accumulation counter with
    512 * 512, and that product is the exact integer product. *)
Theorem glfwRun_body_total_emitted f s :
  bound b s ->
  U32.in_range (accumulation_frame s) ->
  existsb is_quit (events f) = false ->
  exists s' c',
    glfwRun_body f s = Ret tt s' /\
    context s' = Some c' /\
    U32.in_range (accumulation_frame s') /\
    variables c' !! "total_emitted" =
      Some (VFloat (FOfULongLong
              (U64.mul (U64.mul (U64.wrap (accumulation_frame s')) photon_launch_dim)
                 photon_launch_dim))) /\
    U64.mul (U64.mul (U64.wrap (accumulation_frame s')) photon_launch_dim)
      photon_launch_dim =
    accumulation_frame s' * 512 * 512.
Proof.
  intros Hb Hr Hq.
  destruct (glfwRun_body_spec f s Hb Hr) as (ops & msgs & c & Hops & Hc & H).
  rewrite Hq in H. cbv zeta in H.
  eexists _, _. split; [exact H |]. split; [reflexivity |].
  cbn [accumulation_frame].
  split; [apply u32_wrap_in_range |].
  rewrite total_emitted_exact by apply u32_wrap_in_range.
  split; [| reflexivity].
  rewrite variables_with_variables. apply frame_variables_total_emitted.
Qed.

(** *** The whole loop *)

Lemma glfwRun_loop_launches frames s :
  bound b s ->
  U32.in_range (accumulation_frame s) ->
  forallb (fun f => negb (existsb is_quit (events f))) frames = true ->
  exists s',
    glfwRun_loop frames s = Ret tt s' /\
    bound b s' /\
    frame_numbers (trace s') =
      frame_numbers (trace s) ++ recorded_counters (accumulation_frame s) frames /\
    launches (trace s') =
      launches (trace s) ++
      concat (frame_launches <$> recorded_counters (accumulation_frame s) frames).
Proof.
  revert s. induction frames as [| f rest IH]; intros s Hb Hr Hq.
  - exists s. cbn. rewrite !app_nil_r. repeat split; try reflexivity. exact Hb.
  - cbn [forallb] in Hq. apply andb_true_iff in Hq as [Hqf Hqr].
    apply negb_true_iff in Hqf.
    destruct (glfwRun_body_spec f s Hb Hr) as (ops & msgs & c & Hops & Hc & H).
    rewrite Hqf in H. cbv zeta in H.
    destruct (callback_ops_quiet ops Hops) as [Hl Hf].
    cbn [glfwRun_loop]. rewrite bind_eq, H.
    match goal with |- context [glfwRun_loop rest ?s1] =>
      destruct (IH s1) as (s' & Hrun & Hb' & Hfn & Hla);
        [ eapply bound_frame_variables; eassumption
        | apply u32_wrap_in_range
        | exact Hqr | ]
    end.
    exists s'. split; [exact Hrun |]. split; [exact Hb' |].
    rewrite Hfn, Hla. cbn [trace accumulation_frame recorded_counters fmap list_fmap concat].
    fold (recorded_counter f s).
    rewrite !frame_numbers_app, !launches_app, Hl, Hf, launches_frame_ops,
      frame_numbers_frame_ops.
    cbn [app]. rewrite <- !app_assoc. split; reflexivity.
Qed.

(** Until the counter wraps, it is 0 at the point of recording exactly on
    the frames that set it back. *)
Lemma recorded_counters_reset frames : forall af k f n,
  1 <= af ->
  af + Z.of_nat (length frames) <= 2 ^ 32 ->
  frames !! k = Some f ->
  recorded_counters af frames !! k = Some n ->
  (n = 0 <-> frame_resets f = true).
Proof.
  induction frames as [| f0 rest IH]; intros af k f n Haf Hlen Hf Hn; [discriminate |].
  cbn [length] in Hlen. destruct k as [| k]; cbn in Hf, Hn.
  - injection Hf as ->. injection Hn as <-.
    destruct (frame_resets f); split; intros; congruence || lia.
  - destruct rest as [| f1 rest']; [discriminate |].
    cbn [length] in Hlen.
    apply (IH (U32.add (if frame_resets f0 then 0 else af) 1) k f n); try assumption.
    + unfold U32.add, U32.wrap, U32.modulus.
      destruct (frame_resets f0); rewrite Z.mod_small; lia.
    + unfold U32.add, U32.wrap, U32.modulus. cbn [length].
      destruct (frame_resets f0); rewrite Z.mod_small; lia.
Qed.

(** In a loop of at most 2^32 frames, entered with the counter at 0, the
    counter is 0 at the point of recording on the first frame and on the
    frames that set it back, and on no other. *)
Lemma recorded_counters_first_or_reset frames k f n :
  Z.of_nat (length frames) <= 2 ^ 32 ->
  frames !! k = Some f ->
  recorded_counters 0 frames !! k = Some n ->
  (n = 0 <-> k = 0%nat \/ frame_resets f = true).
Proof.
  intros Hlen Hf Hn. destruct frames as [| f0 rest]; [discriminate |].
  cbn [length] in Hlen. destruct k as [| k]; cbn in Hf, Hn.
  - injection Hn as <-. destruct (frame_resets f0); split; auto.
  - replace (U32.add (if frame_resets f0 then 0 else 0) 1) with 1 in Hn
      by (destruct (frame_resets f0); reflexivity).
    rewrite (recorded_counters_reset rest 1 k f n); try assumption; try lia.
    split; [auto | intros [H | H]; [discriminate | exact H]].
Qed.

(** Without a reset the counter counts the frames modulo 2^32. *)
Lemma recorded_counters_no_reset frames : forall af k f,
  forallb (fun f => negb (frame_resets f)) frames = true ->
  frames !! k = Some f ->
  recorded_counters (U32.wrap af) frames !! k = Some (U32.wrap (af + Z.of_nat k)).
Proof.
  induction frames as [| f0 rest IH]; intros af k f Hno Hf; [discriminate |].
  cbn [forallb] in Hno. apply andb_true_iff in Hno as [H0 Hrest].
  apply negb_true_iff in H0.
  destruct k as [| k]; cbn [recorded_counters]; rewrite H0.
  - cbn. rewrite Z.add_0_r. reflexivity.
  - cbn in Hf. cbn [lookup list_lookup].
    replace (U32.add (U32.wrap af) 1) with (U32.wrap (af + 1)).
    + change (recorded_counters (U32.wrap (af + 1)) rest !! k =
              Some (U32.wrap (af + Z.of_nat (S k)))).
      rewrite (IH (af + 1) k f Hrest Hf). do 2 f_equal. lia.
    + unfold U32.add, U32.wrap, U32.modulus. rewrite Zplus_mod_idemp_l. reflexivity.
Qed.

(** *** The photon map buffer stays out of the host's reach *)

Hypothesis Hapart : photon_map_apart b = true.

Lemma apart_handles :
  h_output b <> h_photon_map b /\ h_debug b <> h_photon_map b /\
  h_rtpass_output b <> h_photon_map b /\ h_image_rnd_seeds b <> h_photon_map b /\
  h_photon_rnd_seeds b <> h_photon_map b.
Proof.
  pose proof Hapart as H. unfold photon_map_apart in H. cbn [forallb] in H.
  repeat (apply andb_true_iff in H as [?H%negb_true_iff%bool_decide_eq_false_1 H]).
  repeat split; assumption.
Qed.

Lemma callback_op_quiet op : callback_op b op = true -> quiet_op b op = true.
Proof.
  destruct apart_handles as (H1 & H2 & H3 & H4 & H5).
  destruct op; unfold quiet_op, callback_op, accesses; try discriminate; try reflexivity.
  - intros Hor. rewrite ?andb_true_r. apply negb_true_iff, bool_decide_eq_false_2.
    repeat (apply orb_true_iff in Hor as [Hor | Hor]);
      apply bool_decide_eq_true_1 in Hor; congruence.
  - intros Hh%bool_decide_eq_true_1. rewrite ?andb_true_r.
    apply negb_true_iff, bool_decide_eq_false_2. congruence.
Qed.

Lemma callback_ops_quiet_ops ops :
  forallb (callback_op b) ops = true -> forallb (quiet_op b) ops = true.
Proof.
  rewrite !forallb_forall. intros H op Hin. apply callback_op_quiet, H, Hin.
Qed.

Lemma frame_ops_quiet f n : forallb (quiet_op b) (frame_ops b f n) = true.
Proof.
  destruct apart_handles as (H1 & H2 & H3 & H4 & H5).
  unfold frame_ops. destruct (want_capture_mouse f), (n =? 0); cbn;
    unfold quiet_op, accesses;
    rewrite !bool_decide_eq_false_2 by assumption; reflexivity.
Qed.

Lemma glfwRun_loop_quiet frames : forall s,
  bound b s ->
  U32.in_range (accumulation_frame s) ->
  forallb (quiet_op b) (trace s) = true ->
  forallb (quiet_op b) (trace (final_host (glfwRun_loop frames s))) = true.
Proof.
  induction frames as [| f rest IH]; intros s Hb Hr Ht; [exact Ht |].
  destruct (glfwRun_body_spec f s Hb Hr) as (ops & msgs & c & Hops & Hc & H).
  apply callback_ops_quiet_ops in Hops.
  cbn [glfwRun_loop]. rewrite bind_eq.
  destruct (existsb is_quit (events f)).
  - destruct H as (af & H). rewrite H. cbn [final_host trace].
    rewrite !forallb_app, Ht, Hops. reflexivity.
  - cbv zeta in H. rewrite H. apply IH.
    + eapply bound_frame_variables; eassumption.
    + apply u32_wrap_in_range.
    + cbn [trace]. rewrite !forallb_app, Ht, Hops, frame_ops_quiet. reflexivity.
Qed.

Lemma glfwRun_eq frames c t e f n :
  glfwRun frames (mkHost c t e f n) =
  (glfwRun_loop frames ;;
   destroyContext ;;
   log (OpWindow "glfwDestroyWindow") ;;
   log (OpWindow "glfwTerminate"))
    (mkHost c
       (t ++ [OpWindow "glMatrixMode"; OpWindow "glLoadIdentity"; OpWindow "glOrtho";
              OpWindow "glMatrixMode"; OpWindow "glLoadIdentity"; OpWindow "glViewport";
              OpWindow "glfwSetWindowUserPointer"])
       e 0 0).
Proof.
  unfold glfwRun.
  do 9 (eapply runs_bind; [run_call idtac | cbv beta]).
  rewrite <- !app_assoc. reflexivity.
Qed.

Lemma destroyContext_eq c t e f n :
  exists ops,
    (destroyContext ;;
     log (OpWindow "glfwDestroyWindow") ;;
     log (OpWindow "glfwTerminate")) (mkHost c t e f n) =
    Ret tt (mkHost None (t ++ ops) e f n) /\
    forallb (quiet_op b) ops = true.
Proof.
  destruct c as [c |].
  - eexists. split; [| shelve].
    rewrite bind_eq. unfold destroyContext. cbn [context].
    rewrite bind_eq, log_eq. cbv beta iota. rewrite set_global_context_eq.
    cbv beta iota. rewrite bind_eq, log_eq. cbv beta iota. rewrite log_eq.
    rewrite <- !app_assoc. reflexivity.
    Unshelve. reflexivity.
  - eexists. split; [| shelve].
    rewrite bind_eq. unfold destroyContext. cbn [context]. cbv beta iota.
    rewrite bind_eq, log_eq. cbv beta iota. rewrite log_eq.
    rewrite <- !app_assoc. reflexivity.
    Unshelve. reflexivity.
Qed.

(** [glfwRun], from a host whose context binds the buffers. *)
Lemma glfwRun_quiet frames s :
  bound b s ->
  forallb (quiet_op b) (trace s) = true ->
  forallb (quiet_op b) (trace (final_host (glfwRun frames s))) = true.
Proof.
  intros Hb Ht. destruct s as [c t e f n]. rewrite glfwRun_eq, bind_eq.
  match goal with |- context [glfwRun_loop frames ?s1] =>
    pose proof (glfwRun_loop_quiet frames s1) as Hloop;
    destruct (glfwRun_loop frames s1) as [[] [c2 t2 e2 f2 n2] | st s2 | x s2]
  end.
  - destruct (destroyContext_eq c2 t2 e2 f2 n2) as (ops & Heq & Hq).
    rewrite Heq. cbn [final_host trace]. rewrite forallb_app, Hq, andb_true_r.
    apply Hloop.
    + apply (bound_same_context (mkHost c t e f n)); [reflexivity | exact Hb].
    + unfold U32.in_range, U32.modulus. cbn. lia.
    + cbn [trace] in *. rewrite forallb_app, Ht. reflexivity.
  - apply Hloop.
    + apply (bound_same_context (mkHost c t e f n)); [reflexivity | exact Hb].
    + unfold U32.in_range, U32.modulus. cbn. lia.
    + cbn [trace] in *. rewrite forallb_app, Ht. reflexivity.
  - apply Hloop.
    + apply (bound_same_context (mkHost c t e f n)); [reflexivity | exact Hb].
    + unfold U32.in_range, U32.modulus. cbn. lia.
    + cbn [trace] in *. rewrite forallb_app, Ht. reflexivity.
Qed.

End DisplayLoop.

(** ** Command line and main *)

Section CommandLine.

Variable argv0 : string.

Lemma printUsageAndExit_eq {A} c t e f n :
  @printUsageAndExit A argv0 (mkHost c t e f n) =
  Exit 1 (mkHost c t (e ++ usage argv0) f n).
Proof. reflexivity. Qed.

(** Induction along the loop: it moves on by one argument, or by two
    after a file option. *)
Lemma list_ind2 {A} (P : list A -> Prop) :
  P [] ->
  (forall a, P [a]) ->
  (forall a a' l, P l -> P (a' :: l) -> P (a :: a' :: l)) ->
  forall l, P l.
Proof.
  intros H0 H1 H2 l.
  enough (P l /\ forall a, P (a :: l)) by tauto.
  induction l as [| x l [IH1 IH2]].
  - split; [exact H0 | exact H1].
  - split; [apply IH2 |]. intros a. apply H2; [exact IH1 | apply IH2].
Qed.

Lemma parse_args_step arg rest o s :
  parse_args argv0 (arg :: rest) o s =
  (if is_help arg then printUsageAndExit argv0
   else if is_file_option arg then
     match rest with
     | [] =>
         cerr ("Option '" +:+ arg +:+ "' requires additional argument." +:+ newline) ;;
         printUsageAndExit argv0
     | file :: rest' =>
         parse_args argv0 rest'
           (mkOptions (use_pbo o) file (mesh_files o) (mesh_xforms o))
     end
   else if is_nopbo arg then
     parse_args argv0 rest (mkOptions false (out_file o) (mesh_files o) (mesh_xforms o))
   else if starts_with_dash arg then
     cerr ("Unknown option '" +:+ arg +:+ "'" +:+ newline) ;;
     printUsageAndExit argv0
   else
     parse_args argv0 rest
       (mkOptions (use_pbo o) (out_file o) (mesh_files o ++ [arg])
          (mesh_xforms o ++ [Matrix4x4_identity]))) s.
Proof. destruct rest; reflexivity. Qed.

(** The loop ends the process with the usage message exactly on the
    rejected command lines, and touches nothing but std::cerr. *)
Lemma parse_args_rejected args : forall o s,
  rejected args = true ->
  exists msgs,
    parse_args argv0 args o s =
    Exit 1 (mkHost (context s) (trace s) (stderr s ++ msgs ++ usage argv0)
              (frame_count s) (accumulation_frame s)).
Proof.
  unfold rejected.
  induction args as [| arg | arg file rest IH1 IH2] using list_ind2; intros o s Hrej.
  - discriminate.
  - rewrite parse_args_step. destruct s as [c t e f n].
    cbn in Hrej. unfold unknown_option in Hrej.
    destruct (is_help arg); [exists []; apply printUsageAndExit_eq |].
    destruct (is_file_option arg).
    + eexists [_]. rewrite bind_eq. cbn [cerr context trace stderr frame_count accumulation_frame].
      rewrite printUsageAndExit_eq, <- app_assoc. reflexivity.
    + destruct (is_nopbo arg); [rewrite !andb_false_r in Hrej; discriminate |].
      destruct (starts_with_dash arg); [| discriminate].
      eexists [_]. rewrite bind_eq. cbn [cerr context trace stderr frame_count accumulation_frame].
      rewrite printUsageAndExit_eq, <- app_assoc. reflexivity.
  - rewrite parse_args_step. cbn [option_args dangling_file_option existsb] in Hrej.
    unfold unknown_option in Hrej.
    destruct (is_help arg).
    { destruct s. exists []. apply printUsageAndExit_eq. }
    destruct (is_file_option arg).
    { apply IH1. rewrite andb_false_r in Hrej. exact Hrej. }
    destruct (is_nopbo arg).
    { apply IH2. rewrite andb_false_r in Hrej. exact Hrej. }
    destruct (starts_with_dash arg).
    { destruct s as [c t e f n]. eexists [_]. rewrite bind_eq.
      cbn [cerr context trace stderr frame_count accumulation_frame].
      rewrite printUsageAndExit_eq, <- app_assoc. reflexivity. }
    apply IH2. exact Hrej.
Qed.

(** On the others it returns, with the arguments that do not begin with
    '-' collected as mesh files, in order. *)
Lemma parse_args_accepted args : forall o s,
  rejected args = false ->
  exists o',
    parse_args argv0 args o s = Ret o' s /\
    mesh_files o' =
      mesh_files o ++ filter (fun arg => starts_with_dash arg = false) (option_args args) /\
    length (mesh_xforms o') =
      (length (mesh_xforms o) +
       length (filter (fun arg => starts_with_dash arg = false) (option_args args)))%nat.
Proof.
  unfold rejected.
  induction args as [| arg | arg file rest IH1 IH2] using list_ind2; intros o s Hacc.
  - exists o. cbn. rewrite app_nil_r, Nat.add_0_r. repeat split; reflexivity.
  - rewrite parse_args_step. cbn in Hacc. unfold unknown_option in Hacc.
    cbn [option_args].
    destruct (is_help arg) eqn:Hh; [discriminate |].
    destruct (is_file_option arg) eqn:Hf; [rewrite !orb_true_r in Hacc; discriminate |].
    destruct (is_nopbo arg) eqn:Hn.
    + eexists. split; [reflexivity |].
      assert (Hd : starts_with_dash arg = true).
      { unfold is_nopbo in Hn. apply orb_true_iff in Hn as [Hn | Hn];
          apply bool_decide_eq_true_1 in Hn; subst; reflexivity. }
      rewrite filter_cons_False by congruence.
      cbn. rewrite app_nil_r, Nat.add_0_r. split; reflexivity.
    + destruct (starts_with_dash arg) eqn:Hd; [discriminate |].
      eexists. split; [reflexivity |].
      rewrite filter_cons_True by exact Hd.
      cbn. rewrite length_app. split; reflexivity.
  - rewrite parse_args_step. cbn [option_args dangling_file_option existsb] in Hacc.
    unfold unknown_option in Hacc. cbn [option_args].
    destruct (is_help arg) eqn:Hh; [discriminate |].
    destruct (is_file_option arg) eqn:Hf.
    { assert (Hd : starts_with_dash arg = true).
      { unfold is_file_option in Hf. apply orb_true_iff in Hf as [Hf | Hf];
          apply bool_decide_eq_true_1 in Hf; subst; reflexivity. }
      rewrite filter_cons_False by congruence.
      rewrite andb_false_r in Hacc.
      destruct (IH1 (mkOptions (use_pbo o) file (mesh_files o) (mesh_xforms o)) s Hacc)
        as (o' & Hp & Hm & Hx).
      exists o'. split; [exact Hp |]. split; assumption. }
    destruct (is_nopbo arg) eqn:Hn.
    { assert (Hd : starts_with_dash arg = true).
      { unfold is_nopbo in Hn. apply orb_true_iff in Hn as [Hn | Hn];
          apply bool_decide_eq_true_1 in Hn; subst; reflexivity. }
      rewrite filter_cons_False by congruence.
      rewrite andb_false_r in Hacc.
      destruct (IH2 (mkOptions false (out_file o) (mesh_files o) (mesh_xforms o)) s Hacc)
        as (o' & Hp & Hm & Hx).
      exists o'. split; [exact Hp |]. split; assumption. }
    destruct (starts_with_dash arg) eqn:Hd; [discriminate |].
    rewrite filter_cons_True by exact Hd.
    destruct (IH2 (mkOptions (use_pbo o) (out_file o) (mesh_files o ++ [arg])
                     (mesh_xforms o ++ [Matrix4x4_identity])) s Hacc)
      as (o' & Hp & Hm & Hx).
    exists o'. split; [exact Hp |]. cbn [mesh_files mesh_xforms] in Hm, Hx.
    rewrite Hm, Hx, <- app_assoc, length_app. cbn. split; [reflexivity | lia].
Qed.

Lemma usage_exit_rejected args : usage_exit args -> rejected args = true.
Proof.
  unfold usage_exit, rejected. intros [H | (arg & Hin & Hu)].
  - rewrite H. apply orb_true_r.
  - apply orb_true_iff. left. apply existsb_exists.
    exists arg. split; [exact Hin |]. rewrite Hu. apply orb_true_r.
Qed.

End CommandLine.

Section Main.

Variable env : Env.

#[local] Abbreviation b := createContext_bindings.

Lemma bound_update c c' t e f n t' e' f' n' :
  bound b (mkHost (Some c) t e f n) ->
  (forall name, In name buffer_names -> variables c' !! name = variables c !! name) ->
  bound b (mkHost (Some c') t' e' f' n').
Proof.
  intros (c0 & Hc0 & H1 & H2 & H3 & H4 & H5 & H6) Hsame.
  apply Some_inj in Hc0. subst c0.
  exists c'. split; [reflexivity |].
  rewrite !Hsame by (cbn; tauto). repeat split; assumption.
Qed.

(** Settles the premise of [bound_update] once the variables are explicit. *)
Ltac same_buffers :=
  intros name Hin; cbn [In buffer_names] in Hin;
  repeat destruct Hin as [<- | Hin]; try contradiction;
  repeat (rewrite variables_with_variables || rewrite lookup_insert_ne by done);
  reflexivity.

Lemma camera_create_step : setup_step camera_create.
Proof.
  intros c t e f n Hb. eexists _, _, _. split; [| split].
  - unfold camera_create. run ltac:(idtac) ltac:(idtac).
  - eapply bound_update; [exact Hb | same_buffers].
  - reflexivity.
Qed.

Lemma createMaterial_step : setup_step (createMaterial env).
Proof.
  intros c t e f n Hb. eexists _, c, []. rewrite app_nil_r.
  split; [apply createMaterial_eq |]. split; [exact Hb | reflexivity].
Qed.

Lemma createGeometry_step material : setup_step (createGeometry env material).
Proof.
  intros c t e f n Hb. eexists _, _, _. split; [| split].
  - unfold createGeometry. etransitivity; [run ltac:(idtac) ltac:(idtac) |].
    rewrite <- !app_assoc. reflexivity.
  - eapply bound_update; [exact Hb | same_buffers].
  - reflexivity.
Qed.

Lemma createLight_step : setup_step (createLight env).
Proof.
  intros c t e f n Hb.
  destruct (createLight_eq env c t e f n) as (c' & ops & Heq & Hvars & Hops).
  exists tt, c', ops. split; [exact Heq |]. split.
  - eapply bound_update; [exact Hb |].
    intros name Hin. cbn [In buffer_names] in Hin. rewrite Hvars.
    repeat destruct Hin as [<- | Hin]; try contradiction;
      rewrite !lookup_insert_ne by done; reflexivity.
  - rewrite Hops. reflexivity.
Qed.

Lemma validate_step : setup_step (get_context ;; log (OpContext "validate")).
Proof.
  intros c t e f n Hb. eexists _, _, _. split; [| split].
  - run ltac:(idtac) ltac:(idtac).
  - eapply bound_update; [exact Hb | reflexivity].
  - reflexivity.
Qed.

Lemma glfwInitialize_eq c t e f n :
  glfwInitialize (mkHost c t e f n) =
  Ret tt (mkHost c
            (t ++ [OpWindow "sutil::initGLFW"; OpWindow "glfwSetKeyCallback";
                   OpWindow "glfwSetWindowSize"; OpWindow "glfwSetWindowSizeCallback"])
            e f n).
Proof.
  unfold glfwInitialize. etransitivity; [run ltac:(idtac) ltac:(idtac) |].
  rewrite <- !app_assoc. reflexivity.
Qed.

(** Uses a [setup_step] at the head of the program being run. *)
Ltac use_step Hstep a c' ops Hb Hq :=
  rewrite bind_eq;
  match goal with
  | Hbound : bound b (mkHost (Some ?c) ?t ?e ?f ?n) |- _ =>
      destruct (Hstep c t e f n Hbound) as (a & c' & ops & -> & Hb & Hq);
      clear Hbound
  end;
  cbv beta iota.

(** The [try] block of [main] keeps the log quiet about the photon map. *)
Lemma main_try_quiet o glew_ok frames s :
  forallb (quiet_op b) (trace s) = true ->
  forallb (quiet_op b) (trace (final_host (main_try env o glew_ok frames s))) = true.
Proof.
  intros Ht. destruct s as [c t e f n]. cbn [trace] in Ht.
  unfold main_try. rewrite bind_eq, glfwInitialize_eq. cbv beta iota.
  rewrite bind_eq. destruct glew_ok.
  2: { rewrite bind_eq. cbn [cerr exit final_host trace].
       rewrite forallb_app, Ht. reflexivity. }
  rewrite mret_eq. cbv beta iota. rewrite bind_eq.
  match goal with |- context [createContext env ?p ?s1] =>
    destruct (createContext_cases env p s1) as [[x ->] | [d ->]]
  end.
  { cbn [final_host trace]. rewrite forallb_app, Ht. reflexivity. }
  cbv beta iota. cbn [trace stderr frame_count accumulation_frame].
  pose proof (configured_trace_quiet env (use_pbo o) d) as Hcq.
  match goal with |- context [mkHost (Some ?cc) ?t1 ?e1 ?f1 ?n1] =>
    pose proof (configured_bound env (use_pbo o) d t1 e1 f1 n1) as Hb0;
    assert (Ht1 : forallb (quiet_op b) t1 = true)
      by (rewrite !forallb_app, Ht, Hcq; reflexivity);
    generalize dependent t1; generalize dependent cc
  end.
  intros c0 t0 Hb0 Ht0.
  use_step camera_create_step a1 c1 ops1 Hb1 Hq1.
  use_step createMaterial_step material c2 ops2 Hb2 Hq2.
  use_step (createGeometry_step material) a3 c3 ops3 Hb3 Hq3.
  use_step createLight_step a4 c4 ops4 Hb4 Hq4.
  rewrite bind_eq, get_context_eq. cbv beta iota.
  rewrite bind_eq, log_eq. cbv beta iota.
  rewrite bind_eq.
  match goal with |- context [mkHost (Some c4) ?t4 e f n] =>
    assert (Ht4 : forallb (quiet_op b) t4 = true)
      by (rewrite !forallb_app, Ht0, Hq1, Hq2, Hq3, Hq4; reflexivity);
    assert (Hb5 : bound b (mkHost (Some c4) t4 e f n))
      by (eapply bound_update; [exact Hb4 | reflexivity]);
    generalize dependent t4
  end.
  intros t4 Ht4 Hb5.
  destruct (bool_decide (out_file o = "")).
  - pose proof (glfwRun_quiet b eq_refl frames _ Hb5 Ht4) as Hrun.
    destruct (glfwRun frames (mkHost (Some c4) t4 e f n)) as [[] s' | st s' | x s'];
      exact Hrun.
  - rewrite mret_eq. exact Ht4.
Qed.

Lemma main_quiet argv0 args glew_ok frames s :
  forallb (quiet_op b) (trace s) = true ->
  forallb (quiet_op b) (trace (final_host (main env argv0 args glew_ok frames s))) = true.
Proof.
  intros Ht. unfold main. rewrite bind_eq.
  destruct (rejected args) eqn:Hrej.
  - destruct (parse_args_rejected argv0 args initial_options s Hrej) as (msgs & ->).
    exact Ht.
  - destruct (parse_args_accepted argv0 args initial_options s Hrej) as (o' & -> & _).
    apply main_try_quiet, Ht.
Qed.

(** C3. The host allocates the photon map buffer and binds it to the
    variable "photon_map", and from then on never maps it, writes to it,
    resizes it or hands it to a helper: building and traversing the
    photon map is left to the device programs. *)
Theorem photon_map_left_to_device argv0 args glew_ok frames h :
  In (OpSetVariable "photon_map" (VBuffer h))
     (trace (final_host (main env argv0 args glew_ok frames initial_host))) ->
  h = h_photon_map createContext_bindings /\
  forall op,
    In op (trace (final_host (main env argv0 args glew_ok frames initial_host))) ->
    accesses h op = false.
Proof.
  intros Hin.
  pose proof (main_quiet argv0 args glew_ok frames initial_host eq_refl) as Hq.
  rewrite forallb_forall in Hq.
  assert (Hh : h = h_photon_map createContext_bindings).
  { specialize (Hq _ Hin). unfold quiet_op in Hq.
    apply andb_true_iff in Hq as [_ Hq].
    rewrite bool_decide_eq_true_2 in Hq by reflexivity.
    apply bool_decide_eq_true_1 in Hq. exact Hq. }
  split; [exact Hh |]. intros op Hop. specialize (Hq _ Hop).
  unfold quiet_op in Hq. apply andb_true_iff in Hq as [Hq _].
  apply negb_true_iff in Hq. rewrite Hh. exact Hq.
Qed.

(** C10, as amended. When a -f or --file that is not itself taken as a file
    name is the final argument, or an argument that is not taken as a
    file name is an unknown option, [main] prints the usage message and
    exits with status 1 before any window or context call; otherwise,
    unless -h or --help is given, the loop returns with the arguments
    that do not begin with '-' and are not taken as file names collected
    as mesh files. *)
Theorem main_usage_exit argv0 args glew_ok frames s :
  (usage_exit args ->
   exists s' msgs,
     main env argv0 args glew_ok frames s = Exit 1 s' /\
     stderr s' = stderr s ++ msgs ++ usage argv0 /\
     trace s' = trace s /\ context s' = context s) /\
  (rejected args = false ->
   exists o,
     parse_args argv0 args initial_options s = Ret o s /\
     mesh_files o = filter (fun arg => starts_with_dash arg = false) (option_args args)).
Proof.
  split.
  - intros H%usage_exit_rejected.
    destruct (parse_args_rejected argv0 args initial_options s H) as (msgs & Hp).
    eexists _, msgs. unfold main. rewrite bind_eq, Hp.
    split; [reflexivity |]. repeat split; reflexivity.
  - intros H.
    destruct (parse_args_accepted argv0 args initial_options s H) as (o & Hp & Hm & _).
    exists o. split; [exact Hp | exact Hm].
Qed.

End Main.

(** ** The theorems at concrete inputs *)

Lemma example_host_bound : bound createContext_bindings example_host.
Proof. exists example_context. vm_compute. repeat split; reflexivity. Qed.

Lemma example_host_later_bound : bound createContext_bindings example_host_later.
Proof.
  exists (default Context_create (context example_host_later)).
  vm_compute. repeat split; reflexivity.
Qed.

Lemma example_in_range_0 : U32.in_range (accumulation_frame example_host).
Proof. vm_compute. split; [discriminate | reflexivity]. Qed.

Lemma example_in_range_3 : U32.in_range (accumulation_frame example_host_later).
Proof. vm_compute. split; [discriminate | reflexivity]. Qed.

(** On the first frame, where the counter is 0, the three passes are
    launched in the order rtpass, ppass, gather. *)
Lemma glfwRun_body_launches_witness :
  exists s' ops,
    glfwRun_body example_frame example_host = Ret tt s' /\
    trace s' = trace example_host ++ ops /\
    frame_numbers ops = [recorded_counter example_frame example_host] /\
    launches ops =
      (if recorded_counter example_frame example_host =? 0
       then [enum_value rtpass] else []) ++
      [enum_value ppass; enum_value gather] /\
    (In (enum_value rtpass) (launches ops) <->
     recorded_counter example_frame example_host = 0).
Proof.
  apply (glfwRun_body_launches createContext_bindings example_frame example_host).
  - exact example_host_bound.
  - exact example_in_range_0.
  - vm_compute. reflexivity.
Defined.

(** On the fourth frame without a reset the counter is 3 and the eye-ray
    pass is not launched. *)
Example fourth_frame_launches :
  recorded_counter example_frame example_host_later = 3 /\
  launches (trace (final_host (glfwRun_body example_frame example_host_later))) =
  launches (trace example_host_later) ++ [enum_value ppass; enum_value gather].
Proof. vm_compute. split; reflexivity. Qed.

(** After 2^32 frames without a reset the counter is back at 0. *)
Lemma recorded_counters_wrap n f :
  Z.of_nat n = 2 ^ 32 ->
  frame_resets f = false ->
  recorded_counters 0 (replicate (S n) f) !! n = Some 0.
Proof.
  intros Hn Hf.
  assert (Hall : forall m, forallb (fun f => negb (frame_resets f)) (replicate m f) = true).
  { induction m as [| m IH]; [reflexivity |]. cbn. rewrite Hf, IH. reflexivity. }
  change 0 with (U32.wrap 0) at 1.
  rewrite (recorded_counters_no_reset (replicate (S n) f) 0 n f (Hall _)).
  - rewrite Z.add_0_l, Hn. reflexivity.
  - apply lookup_replicate_2. lia.
Qed.

Lemma createContext_example :
  createContext example_env true initial_host = Ret tt example_host.
Proof. vm_compute. reflexivity. Qed.

Lemma createContext_entry_points_witness :
  exists c,
    context example_host = Some c /\
    entry_point_count c = enum_value NUM_PROGRAMS /\
    entry_point_count c = 3 /\
    enum_value rtpass = 0 /\ enum_value ppass = 1 /\ enum_value gather = 2 /\
    ray_generation_program c !! enum_value rtpass =
      Some (ProgramFromPTXFile (ptxPath example_env "ppm_rtpass.cu") "rtpass_camera") /\
    ray_generation_program c !! enum_value ppass =
      Some (ProgramFromPTXFile (ptxPath example_env "ppm_ppass.cu") "ppass_camera") /\
    ray_generation_program c !! enum_value gather =
      Some (ProgramFromPTXFile (ptxPath example_env "ppm_gather.cu") "gather") /\
    (forall e, is_Some (ray_generation_program c !! e) <-> 0 <= e < entry_point_count c) /\
    ray_type_count c = 3.
Proof.
  apply (createContext_entry_points example_env true initial_host example_host).
  vm_compute. reflexivity.
Defined.

Lemma photon_map_left_to_device_witness :
  6%nat = h_photon_map createContext_bindings /\
  forall op,
    In op (trace (final_host (main example_env "optixProgressivePhotonMap" ["-n"] true
                                example_frames initial_host))) ->
    accesses 6 op = false.
Proof.
  apply (photon_map_left_to_device example_env "optixProgressivePhotonMap" ["-n"] true
           example_frames 6).
  vm_compute. repeat (first [left; reflexivity | right]).
Defined.

Lemma createContext_buffer_sizes_witness :
  exists c,
    context example_host = Some c /\
    (forall name,
       In name ["output_buffer"; "debug_buffer"; "rtpass_output_buffer"; "image_rnd_seeds"] ->
       buf_size <$> buffer_named c name = Some [WIDTH; HEIGHT]) /\
    WIDTH = 768 /\ HEIGHT = 768 /\
    buf_size <$> buffer_named c "ppass_output_buffer" = Some [num_photons] /\
    num_photons = photon_launch_dim * photon_launch_dim * MAX_PHOTON_COUNT /\
    num_photons = 524288 /\
    buf_size <$> buffer_named c "photon_map" = Some [photon_map_size] /\
    photon_map_size = pow2roundup 524288 - 1 /\
    photon_map_size = 524287.
Proof.
  apply (createContext_buffer_sizes example_env true initial_host example_host).
  vm_compute. reflexivity.
Defined.

Lemma record_sizes_witness :
  (exists c,
     context example_host = Some c /\
     buf_element_size <$> buffer_named c "rtpass_output_buffer" =
       Some (Some (sizeof_HitRecord example_env)) /\
     buf_element_size <$> buffer_named c "ppass_output_buffer" =
       Some (Some (sizeof_PhotonRecord example_env)) /\
     buf_element_size <$> buffer_named c "photon_map" =
       Some (Some (sizeof_PhotonRecord example_env))) /\
  (exists c,
     context (final_host (createLight example_env example_host)) = Some c /\
     variables c !! "light" = Some (VUserData (sizeof_PPMLight example_env))).
Proof.
  apply (record_sizes example_env true initial_host example_host example_host
           (final_host (createLight example_env example_host))).
  - vm_compute. reflexivity.
  - vm_compute. reflexivity.
Defined.

Lemma pow2roundup_spec_witness :
  smallest_pow2_geq 524288 (pow2roundup 524288) /\ pow2roundup (2 ^ 31 + 1) = 0.
Proof.
  split.
  - apply (proj1 (pow2roundup_spec 524288 ltac:(lia))). lia.
  - apply (proj2 (pow2roundup_spec (2 ^ 31 + 1) ltac:(lia))). right. lia.
Defined.

Lemma glfwRun_body_total_emitted_witness :
  exists s' c',
    glfwRun_body example_frame example_host_later = Ret tt s' /\
    context s' = Some c' /\
    U32.in_range (accumulation_frame s') /\
    variables c' !! "total_emitted" =
      Some (VFloat (FOfULongLong
              (U64.mul (U64.mul (U64.wrap (accumulation_frame s')) photon_launch_dim)
                 photon_launch_dim))) /\
    U64.mul (U64.mul (U64.wrap (accumulation_frame s')) photon_launch_dim)
      photon_launch_dim =
    accumulation_frame s' * 512 * 512.
Proof.
  apply (glfwRun_body_total_emitted createContext_bindings example_frame example_host_later).
  - exact example_host_later_bound.
  - exact example_in_range_3.
  - vm_compute. reflexivity.
Defined.

(** The product of line 501 taken in 32 bits would wrap from the 16384th
    frame on; in 64 bits it does not. *)
Example total_emitted_32_bit_wraps :
  U32.mul (U32.mul 16384 photon_launch_dim) photon_launch_dim = 0 /\
  U64.mul (U64.mul (U64.wrap 16384) photon_launch_dim) photon_launch_dim = 4294967296.
Proof. split; reflexivity. Qed.

(** Read literally, the usage exit is not what happens on [-f -x]: the
    unknown option follows -f, is taken as the file name, and [main] goes
    on to create the window and the context and returns 0. *)
Lemma main_usage_exit_counterexample :
  claimed_usage_exit ["-f"; "-x"] /\
  exists s',
    example_main ["-f"; "-x"] = Ret 0 s' /\
    stderr s' = [] /\
    In (OpWindow "sutil::initGLFW") (trace s') /\
    In (OpCreateBuffer 0) (trace s').
Proof.
  split.
  - right. exists "-x". split; [right; left; reflexivity | reflexivity].
  - eexists. split; [vm_compute; reflexivity |].
    split; [reflexivity |].
    split; vm_compute; repeat (first [left; reflexivity | right]).
Qed.

(** The same for a -f taken as the file name of the -f before it, and for
    a file name that does not begin with '-': it is not a mesh file. *)
Example file_name_arguments :
  (exists s', example_main ["-f"; "-f"] = Ret 0 s' /\ stderr s' = []) /\
  parse_args "optixProgressivePhotonMap" ["-f"; "out.png"; "a.obj"] initial_options
    initial_host =
  Ret (mkOptions true "out.png" ["a.obj"] [Matrix4x4_identity]) initial_host.
Proof.
  split; [| reflexivity].
  eexists. split; [vm_compute; reflexivity | reflexivity].
Qed.

Lemma main_usage_exit_witness :
  (exists s' msgs,
     example_main ["a.obj"; "-f"] = Exit 1 s' /\
     stderr s' = stderr initial_host ++ msgs ++ usage "optixProgressivePhotonMap" /\
     trace s' = trace initial_host /\ context s' = context initial_host) /\
  (exists o,
     parse_args "optixProgressivePhotonMap" ["a.obj"; "-f"; "-x"] initial_options
       initial_host = Ret o initial_host /\
     mesh_files o =
       filter (fun arg => starts_with_dash arg = false) (option_args ["a.obj"; "-f"; "-x"])).
Proof.
  split.
  - apply (proj1 (main_usage_exit example_env "optixProgressivePhotonMap" ["a.obj"; "-f"]
                    true example_frames initial_host)).
    left. reflexivity.
  - apply (proj2 (main_usage_exit example_env "optixProgressivePhotonMap"
                    ["a.obj"; "-f"; "-x"] true example_frames initial_host)).
    reflexivity.
Defined.

(** The usage exit and the collection of mesh files at concrete command lines. *)
Example usage_exit_examples :
  (exists s',
     example_main ["a.obj"; "-x"; "b.obj"] = Exit 1 s' /\ trace s' = [] /\ context s' = None) /\
  (exists s',
     example_main ["-n"; "-f"] = Exit 1 s' /\ trace s' = [] /\ context s' = None) /\
  exists o,
    parse_args "optixProgressivePhotonMap" ["a.obj"; "-n"; "-f"; "-x"; "b.obj"]
      initial_options initial_host = Ret o initial_host /\
    mesh_files o = ["a.obj"; "b.obj"] /\ out_file o = "-x" /\ use_pbo o = false.
Proof.
  split; [| split].
  - eexists. split; [vm_compute; reflexivity | split; reflexivity].
  - eexists. split; [vm_compute; reflexivity | split; reflexivity].
  - eexists. split; [vm_compute; reflexivity | repeat split; reflexivity].
Qed.

(** * Further properties of the code *)

(** ** [pow2roundup] on its whole domain *)

Lemma pow2roundup_pow2 k : 0 <= k <= 31 -> pow2roundup (2 ^ k) = 2 ^ k.
Proof.
  intros Hk. destruct (Z.eq_dec k 0) as [-> | Hne]; [reflexivity |].
  assert (H2 : 2 ^ 1 <= 2 ^ k) by (apply Z.pow_le_mono_r; lia).
  assert (H31 : 2 ^ k <= 2 ^ 31) by (apply Z.pow_le_mono_r; lia).
  rewrite pow2roundup_log2 by lia.
  replace (2 ^ k - 1) with (Z.pred (2 ^ k)) by lia.
  rewrite Z.log2_pred_pow2 by lia.
  replace (Z.pred k + 1) with k by lia.
  apply u32_wrap_small. unfold U32.in_range, U32.modulus. lia.
Qed.

Lemma pow2roundup_overflow x : 2 ^ 31 < x < 2 ^ 32 -> pow2roundup x = 0.
Proof.
  intros Hx. rewrite pow2roundup_log2 by lia.
  assert (Hl : Z.log2 (x - 1) = 31) by (apply Z.log2_unique; lia).
  rewrite Hl. reflexivity.
Qed.

(** In the range without wrap-around the result is a power of two between
    [x] and [2 * x]. *)
Lemma pow2roundup_form x :
  1 <= x <= 2 ^ 31 ->
  exists k, 0 <= k <= 31 /\ pow2roundup x = 2 ^ k /\ x <= 2 ^ k /\ 2 ^ k < 2 * x.
Proof.
  intros Hx. destruct (Z.eq_dec x 1) as [-> | Hne].
  - exists 0. repeat split; try lia; reflexivity.
  - pose proof (Z.log2_nonneg (x - 1)) as Hl0.
    assert (Hl : Z.log2 (x - 1) < 31) by (apply Z.log2_lt_pow2; lia).
    pose proof (Z.log2_spec (x - 1) ltac:(lia)) as [Hlo Hhi].
    replace (Z.succ (Z.log2 (x - 1))) with (Z.log2 (x - 1) + 1) in Hhi by lia.
    assert (Hp : 2 ^ (Z.log2 (x - 1) + 1) <= 2 ^ 31) by (apply Z.pow_le_mono_r; lia).
    exists (Z.log2 (x - 1) + 1).
    rewrite pow2roundup_log2 by lia.
    rewrite u32_wrap_small by (unfold U32.in_range, U32.modulus; lia).
    rewrite Z.pow_add_r in * by lia. repeat split; lia.
Qed.

(** X1. For 1 <= x <= 2^31 the result is at least [x] and less than twice
    [x]: rounding up never doubles. *)
Theorem pow2roundup_bounds x :
  1 <= x <= 2 ^ 31 -> x <= pow2roundup x < 2 * x.
Proof.
  intros Hx. destruct (pow2roundup_form x Hx) as (k & _ & -> & Hlo & Hhi). lia.
Qed.

(** X2. Rounding up twice is rounding up once, on every unsigned 32-bit
    input, the wrapped ones included. *)
Theorem pow2roundup_idempotent x :
  0 <= x < 2 ^ 32 -> pow2roundup (pow2roundup x) = pow2roundup x.
Proof.
  intros Hx.
  destruct (Z.eq_dec x 0) as [-> | Hne]; [reflexivity |].
  destruct (Z_le_gt_dec x (2 ^ 31)) as [Hle | Hgt].
  - destruct (pow2roundup_form x ltac:(lia)) as (k & Hk & -> & _).
    apply pow2roundup_pow2, Hk.
  - rewrite (pow2roundup_overflow x) by lia. reflexivity.
Qed.

(** X3. The inputs that [pow2roundup] leaves alone are 0 and the powers of
    two up to 2^31. *)
Theorem pow2roundup_fixed_points x :
  0 <= x < 2 ^ 32 ->
  (pow2roundup x = x <-> x = 0 \/ exists k, 0 <= k <= 31 /\ x = 2 ^ k).
Proof.
  intros Hx. split.
  - intros Hfix. destruct (Z.eq_dec x 0) as [-> | Hne]; [left; reflexivity | right].
    destruct (Z_le_gt_dec x (2 ^ 31)) as [Hle | Hgt].
    + destruct (pow2roundup_form x ltac:(lia)) as (k & Hk & Hr & _).
      exists k. split; [exact Hk | congruence].
    + rewrite pow2roundup_overflow in Hfix by lia. lia.
  - intros [-> | (k & Hk & ->)]; [reflexivity | apply pow2roundup_pow2, Hk].
Qed.

(** X4. Below the wrap-around [pow2roundup] is monotone. *)
Theorem pow2roundup_monotone x y :
  1 <= x -> x <= y -> y <= 2 ^ 31 -> pow2roundup x <= pow2roundup y.
Proof.
  intros Hx Hxy Hy.
  destruct (Z.eq_dec x 1) as [-> | Hne].
  - pose proof (pow2roundup_form y ltac:(lia)) as (k & _ & _ & Hlo & _).
    destruct (pow2roundup_form y ltac:(lia)) as (k' & _ & -> & Hlo' & _).
    change (pow2roundup 1) with 1. lia.
  - rewrite !pow2roundup_log2 by lia.
    assert (Hlx : 0 <= Z.log2 (x - 1)) by apply Z.log2_nonneg.
    assert (Hm : Z.log2 (x - 1) <= Z.log2 (y - 1)) by (apply Z.log2_le_mono; lia).
    assert (Hl : Z.log2 (y - 1) < 31) by (apply Z.log2_lt_pow2; lia).
    assert (H1 : 2 ^ (Z.log2 (x - 1) + 1) <= 2 ^ (Z.log2 (y - 1) + 1))
      by (apply Z.pow_le_mono_r; lia).
    assert (H2 : 2 ^ (Z.log2 (y - 1) + 1) <= 2 ^ 31) by (apply Z.pow_le_mono_r; lia).
    assert (H0 : 0 < 2 ^ (Z.log2 (x - 1) + 1)) by (apply Z.pow_pos_nonneg; lia).
    rewrite !u32_wrap_small by (unfold U32.in_range, U32.modulus; lia).
    exact H1.
Qed.

(** X5. The photon map size of line 267, [pow2roundup( n ) - 1], holds all
    [n] records exactly when [n] is not a power of two; when it is, as with
    the sample's 2^19 photons, the buffer is one record short of [n]. *)
Theorem photon_map_capacity n :
  1 <= n <= 2 ^ 31 ->
  n - 1 <= U32.sub (pow2roundup n) 1 /\
  (n <= U32.sub (pow2roundup n) 1 <-> ~ exists k, 0 <= k /\ n = 2 ^ k) /\
  (photon_map_size = num_photons - 1).
Proof.
  intros Hn. destruct (pow2roundup_form n Hn) as (k & Hk & Hr & Hlo & Hhi).
  assert (H31 : 2 ^ k <= 2 ^ 31) by (apply Z.pow_le_mono_r; lia).
  unfold U32.sub. rewrite Hr.
  rewrite u32_wrap_small by (unfold U32.in_range, U32.modulus; lia).
  split; [lia |]. split; [| reflexivity]. split.
  - intros Hfit (j & Hj & ->).
    assert (Hjk : j < k) by (apply (Z.pow_lt_mono_r_iff 2); lia).
    assert (Hle : 2 ^ (j + 1) <= 2 ^ k) by (apply Z.pow_le_mono_r; lia).
    rewrite Z.pow_add_r in Hle by lia. lia.
  - intros Hnot. destruct (Z.eq_dec n (2 ^ k)) as [-> | Hne]; [| lia].
    exfalso. apply Hnot. exists k. split; [lia | reflexivity].
Qed.

(** ** Device selection and context life cycle *)

Section DeviceSelection.

Variable env : Env.

Lemma caps_eqb_true (a c : Z * Z) : (a.1 =? c.1) && (a.2 =? c.2) = true <-> c = a.
Proof.
destruct a as [a1 a2], c as [c1 c2]. cbn. rewrite andb_true_iff, !Z.eqb_eq.
split; [intros [-> ->]; reflexivity | intros [= -> ->]; split; reflexivity].
Qed.

(** The loop over the ordinals [a], [a+1], ..., [a+n-1]. *)
Lemma pick_device_spec caps n : forall a s,
(1 <= a)%nat ->
match pick_device env caps (Z.of_nat <$> seq a n) s with
| Ret d s' =>
    s' = s /\
    (forall j, Z.of_nat a <= j < d \/ (d = 0 /\ Z.of_nat a <= j < Z.of_nat (a + n)) ->
               device_code env j = 0 /\ device_caps env j <> caps) /\
    (d = 0 \/
     (Z.of_nat a <= d < Z.of_nat (a + n) /\ device_code env d = 0 /\
      device_caps env d = caps))
| Throw e s' =>
    s' = s /\
    exists j, Z.of_nat a <= j < Z.of_nat (a + n) /\
              device_code env j <> 0 /\ e = RTException (device_code env j) /\
              forall i, Z.of_nat a <= i < j ->
                        device_code env i = 0 /\ device_caps env i <> caps
| Exit _ _ => False
end.
Proof.
induction n as [| n IH]; intros a s Ha; cbn [seq fmap list_fmap pick_device].
- cbn. split; [reflexivity |]. split; [| left; reflexivity]. intros j. lia.
- unfold device_code, device_caps in *.
  destruct (rtDeviceGetAttribute env (Z.of_nat a)) as [code capsB] eqn:Hq.
  destruct (Z.eqb_spec code 0) as [-> | Hcode]; cbn [negb].
  + destruct ((caps.1 =? capsB.1) && (caps.2 =? capsB.2)) eqn:Hc.
    * apply caps_eqb_true in Hc. cbn. split; [reflexivity |].
      split; [intros j; lia |]. right. rewrite Hq. cbn. split; [lia |]. auto.
    * assert (Hne : capsB <> caps).
      { intros H. apply caps_eqb_true in H. congruence. }
      specialize (IH (S a) s ltac:(lia)).
      change (list_fmap nat Z Z.of_nat (seq (S a) n)) with (Z.of_nat <$> seq (S a) n).
      destruct (pick_device env caps (Z.of_nat <$> seq (S a) n) s) as [d s' | | e s'].
      -- destruct IH as (Hs & Hbefore & Hd). split; [exact Hs |]. split.
         ++ intros j Hj. destruct (Z.eq_dec j (Z.of_nat a)) as [-> | Hja].
            ** rewrite Hq. cbn. auto.
            ** apply Hbefore. lia.
         ++ destruct Hd as [Hd | Hd]; [left; exact Hd | right].
            destruct Hd as (Hr & Hrest). split; [lia | exact Hrest].
      -- exact IH.
      -- destruct IH as (Hs & j & Hj & Hcj & He & Hbefore). split; [exact Hs |].
         exists j. split; [lia |]. split; [exact Hcj |]. split; [exact He |].
         intros i Hi. destruct (Z.eq_dec i (Z.of_nat a)) as [-> | Hia].
         ++ rewrite Hq. cbn. auto.
         ++ apply Hbefore. lia.
  + cbn. split; [reflexivity |]. exists (Z.of_nat a). rewrite Hq. cbn.
    split; [lia |]. split; [exact Hcode |]. split; [reflexivity |]. intros i. lia.
Qed.

Lemma further_devices_bounds j :
Z.of_nat 1 <= j < Z.of_nat (1 + (Z.to_nat (getDeviceCount env) - 1)) <->
1 <= j < getDeviceCount env.
Proof. lia. Qed.

(** X6. When the device selection returns, it has picked the first device
  after device 0 with the compute capability of device 0, or device 0 if
  there is none; every query up to there answered RT_SUCCESS. *)
Theorem select_device_first_match s d s' :
select_device env s = Ret d s' ->
s' = s /\
device_code env 0 = 0 /\
((d = 0 /\
  forall j, 1 <= j < getDeviceCount env ->
            device_code env j = 0 /\ device_caps env j <> device_caps env 0) \/
 (1 <= d < getDeviceCount env /\
  device_code env d = 0 /\ device_caps env d = device_caps env 0 /\
  forall j, 1 <= j < d ->
            device_code env j = 0 /\ device_caps env j <> device_caps env 0)).
Proof.
unfold select_device, device_code, device_caps.
destruct (rtDeviceGetAttribute env 0) as [code caps] eqn:Hq0.
destruct (Z.eqb_spec code 0) as [-> | Hcode]; cbn [negb]; [| discriminate].
pose proof (pick_device_spec caps (Z.to_nat (getDeviceCount env) - 1) 1 s ltac:(lia))
  as Hspec.
intros Hsel. rewrite Hsel in Hspec. destruct Hspec as (Hs & Hbefore & Hd).
unfold device_code, device_caps in *.
split; [exact Hs |]. split; [reflexivity |]. cbn [snd].
destruct Hd as [-> | (Hr & Hc & Hcaps)].
- left. split; [reflexivity |]. intros j Hj. apply Hbefore. right. lia.
- right. split; [lia |]. split; [exact Hc |]. split; [exact Hcaps |].
  intros j Hj. apply Hbefore. lia.
Qed.

(** X7. When a device query fails before the selection has found its
  device (the query of device 0, or that of a later device with every
  earlier query answered and no earlier device matching device 0), the
  selection throws the code of that query and changes nothing. *)
Theorem select_device_query_failure s j :
j = 0 \/ 1 <= j < getDeviceCount env ->
device_code env j <> 0 ->
(forall i, 0 <= i < j -> device_code env i = 0) ->
(forall i, 1 <= i < j -> device_caps env i <> device_caps env 0) ->
select_device env s = Throw (RTException (device_code env j)) s.
Proof.
intros Hj Hfail Hok Hcaps.
unfold select_device. destruct Hj as [-> | Hj].
- unfold device_code in Hfail |- *.
  destruct (rtDeviceGetAttribute env 0) as [code caps]. cbn [fst] in *.
  destruct (Z.eqb_spec code 0) as [-> | Hcode]; [contradiction | reflexivity].
- pose proof (Hok 0 ltac:(lia)) as Hc0.
  unfold device_code, device_caps in *.
  destruct (rtDeviceGetAttribute env 0) as [code caps]. cbn [fst snd] in *.
  subst code. cbn [negb Z.eqb]. cbv iota.
  pose proof (pick_device_spec caps (Z.to_nat (getDeviceCount env) - 1) 1 s ltac:(lia))
    as Hspec.
  unfold device_code, device_caps in Hspec.
  destruct (pick_device env caps _ s) as [d s' | | e s'].
  + exfalso. destruct Hspec as (_ & Hbefore & Hd).
    destruct Hd as [-> | (Hr & Hcd & Hcapsd)].
    * apply Hfail. apply (Hbefore j). right. split; [reflexivity | lia].
    * destruct (Z_lt_le_dec j d) as [Hlt | Hge].
      -- apply Hfail. apply (Hbefore j). left. lia.
      -- destruct (Z.eq_dec j d) as [-> | Hne]; [contradiction |].
         apply (Hcaps d ltac:(lia)). exact Hcapsd.
  + contradiction.
  + destruct Hspec as (-> & j' & Hj' & Hcj' & -> & Hbefore).
    assert (j' = j) as ->; [| reflexivity].
    destruct (Z_lt_le_dec j' j) as [Hlt | Hge].
    * exfalso. apply Hcj'. apply Hok. lia.
    * destruct (Z.eq_dec j' j) as [-> | Hne]; [reflexivity |].
      exfalso. apply Hfail. apply (Hbefore j). lia.
Qed.

End DeviceSelection.

(** X8. [destroyContext] destroys the context at most once: it logs the
    call only when the global handle is set, clears the handle, and a
    second call does nothing. *)
Theorem destroyContext_idempotent s :
  (destroyContext ;; destroyContext) s = destroyContext s /\
  context (final_host (destroyContext s)) = None /\
  trace (final_host (destroyContext s)) =
    trace s ++ match context s with
               | Some _ => [OpContext "destroy"]
               | None => []
               end.
Proof.
  destruct s as [[c |] t e f n]; rewrite bind_eq; unfold destroyContext;
    cbn [context]; rewrite ?bind_eq, ?log_eq; cbv beta iota;
    rewrite ?set_global_context_eq; cbn [context final_host trace];
    rewrite ?app_nil_r; repeat split; reflexivity.
Qed.

(** ** [ptxPath] *)

Lemma list_ascii_of_string_append s1 s2 :
  list_ascii_of_string (s1 +:+ s2) = list_ascii_of_string s1 ++ list_ascii_of_string s2.
Proof.
  induction s1 as [| a s1 IH]; [reflexivity |].
  change (String a s1 +:+ s2) with (String a (s1 +:+ s2)). cbn. f_equal. exact IH.
Qed.

Lemma append_inj_l s s1 s2 : s +:+ s1 = s +:+ s2 -> s1 = s2.
Proof. apply (inj (String.append s)). Qed.

Lemma append_inj_r s s1 s2 : s1 +:+ s = s2 +:+ s -> s1 = s2.
Proof.
  intros H. apply (f_equal list_ascii_of_string) in H.
  rewrite !list_ascii_of_string_append in H. apply app_inv_tail in H.
  apply (f_equal string_of_list_ascii) in H.
  rewrite !string_of_list_ascii_of_string in H. exact H.
Qed.

(** X9. Different CUDA file names give different PTX paths, whatever the
    PTX directory is. *)
Theorem ptxPath_injective env cuda_file1 cuda_file2 :
  ptxPath env cuda_file1 = ptxPath env cuda_file2 -> cuda_file1 = cuda_file2.
Proof.
  unfold ptxPath. intros H.
  do 4 apply append_inj_l in H. apply append_inj_r in H. exact H.
Qed.

(** ** The argument loop, in full *)

Section ArgumentLoop.

Variable argv0 : string.

Lemma is_file_option_dash arg : is_file_option arg = true -> starts_with_dash arg = true.
Proof.
unfold is_file_option. intros [H | H]%orb_true_iff;
  apply bool_decide_eq_true_1 in H; subst; reflexivity.
Qed.

Lemma default_last_cons {A} (d a : A) l : default d (last (a :: l)) = default a (last l).
Proof.
revert d a. induction l as [| a' l IH]; intros d a; [reflexivity |].
change (last (a :: a' :: l)) with (last (a' :: l)).
rewrite (IH d a'), (IH a a'). reflexivity.
Qed.

(** What the loop returns on an accepted command line. *)
Lemma parse_args_options args : forall o s,
rejected args = false ->
exists o',
  parse_args argv0 args o s = Ret o' s /\
  use_pbo o' = use_pbo o && negb (existsb is_nopbo (option_args args)) /\
  out_file o' = default (out_file o) (last (file_operands args)) /\
  mesh_xforms o' =
    mesh_xforms o ++
    replicate (length (filter (fun arg => starts_with_dash arg = false) (option_args args)))
      Matrix4x4_identity.
Proof.
unfold rejected.
induction args as [| arg | arg file rest IH1 IH2] using list_ind2; intros o s Hacc.
- exists o. cbn. rewrite andb_true_r, app_nil_r. repeat split; reflexivity.
- rewrite parse_args_step. cbn in Hacc. unfold unknown_option in Hacc.
  cbn [option_args file_operands existsb].
  destruct (is_help arg) eqn:Hh; [discriminate |].
  destruct (is_file_option arg) eqn:Hf; [rewrite !orb_true_r in Hacc; discriminate |].
  destruct (is_nopbo arg) eqn:Hn.
  + eexists. split; [reflexivity |].
    assert (Hd : starts_with_dash arg = true).
    { unfold is_nopbo in Hn. apply orb_true_iff in Hn as [Hn | Hn];
        apply bool_decide_eq_true_1 in Hn; subst; reflexivity. }
    rewrite filter_cons_False by congruence.
    cbn. rewrite andb_false_r, app_nil_r. repeat split; reflexivity.
  + destruct (starts_with_dash arg) eqn:Hd; [discriminate |].
    eexists. split; [reflexivity |].
    rewrite filter_cons_True by exact Hd.
    cbn. rewrite andb_true_r. repeat split; reflexivity.
- rewrite parse_args_step. cbn [option_args dangling_file_option existsb] in Hacc.
  unfold unknown_option in Hacc. cbn [option_args file_operands existsb].
  destruct (is_help arg) eqn:Hh; [discriminate |].
  destruct (is_file_option arg) eqn:Hf.
  { rewrite filter_cons_False by (rewrite (is_file_option_dash arg Hf); discriminate).
    rewrite andb_false_r in Hacc.
    destruct (IH1 (mkOptions (use_pbo o) file (mesh_files o) (mesh_xforms o)) s Hacc)
      as (o' & Hp & Hu & Ho & Hx).
    exists o'. split; [exact Hp |]. cbn [use_pbo out_file mesh_xforms] in Hu, Ho, Hx.
    rewrite default_last_cons.
    assert (Hn : is_nopbo arg = false).
    { unfold is_file_option, is_nopbo in *.
      apply orb_true_iff in Hf as [Hf | Hf]; apply bool_decide_eq_true_1 in Hf; subst;
        reflexivity. }
    rewrite Hn. cbn [orb]. repeat split; assumption. }
  destruct (is_nopbo arg) eqn:Hn.
  { assert (Hd : starts_with_dash arg = true).
    { unfold is_nopbo in Hn. apply orb_true_iff in Hn as [Hn | Hn];
        apply bool_decide_eq_true_1 in Hn; subst; reflexivity. }
    rewrite filter_cons_False by congruence.
    rewrite andb_false_r in Hacc.
    destruct (IH2 (mkOptions false (out_file o) (mesh_files o) (mesh_xforms o)) s Hacc)
      as (o' & Hp & Hu & Ho & Hx).
    exists o'. split; [exact Hp |]. cbn [use_pbo out_file mesh_xforms] in Hu, Ho, Hx.
    cbn [orb negb]. rewrite andb_false_r. repeat split; assumption. }
  destruct (starts_with_dash arg) eqn:Hd; [discriminate |].
  rewrite filter_cons_True by exact Hd.
  destruct (IH2 (mkOptions (use_pbo o) (out_file o) (mesh_files o ++ [arg])
                   (mesh_xforms o ++ [Matrix4x4_identity])) s Hacc)
    as (o' & Hp & Hu & Ho & Hx).
  exists o'. split; [exact Hp |]. cbn [use_pbo out_file mesh_xforms] in Hu, Ho, Hx.
  cbn [orb length replicate]. rewrite Hx, <- app_assoc. repeat split; assumption.
Qed.

(** X10. On an accepted command line the loop returns with GL interop
  switched off exactly when -n or --nopbo was given, the output file set
  to the name after the last -f or --file (empty if there is none), and
  one identity transform for each mesh file. *)
Theorem parse_args_result args s :
rejected args = false ->
exists o,
  parse_args argv0 args initial_options s = Ret o s /\
  use_pbo o = negb (existsb is_nopbo (option_args args)) /\
  out_file o = default "" (last (file_operands args)) /\
  mesh_files o = filter (fun arg => starts_with_dash arg = false) (option_args args) /\
  mesh_xforms o = replicate (length (mesh_files o)) Matrix4x4_identity.
Proof.
intros Hacc.
destruct (parse_args_options args initial_options s Hacc) as (o & Hp & Hu & Ho & Hx).
destruct (parse_args_accepted argv0 args initial_options s Hacc) as (o' & Hp' & Hm & _).
rewrite Hp in Hp'. apply Ret_inj in Hp' as [<- _].
exists o. split; [exact Hp |]. cbn in Hu, Ho, Hx, Hm.
rewrite Hm. repeat split; assumption.
Qed.

(** X11. The argument loop never throws.  It ends the process exactly on
  the rejected command lines (-h and --help included), always with
  status 1 and the usage text last on std::cerr, and without a window or
  context call; on every other command line it returns and leaves the
  host as it was. *)
Theorem parse_args_outcome args o s :
match parse_args argv0 args o s with
| Exit status s' =>
    rejected args = true /\ status = 1 /\
    trace s' = trace s /\ context s' = context s /\
    exists msgs, stderr s' = stderr s ++ msgs ++ usage argv0
| Ret _ s' => rejected args = false /\ s' = s
| Throw _ _ => False
end.
Proof.
destruct (rejected args) eqn:Hrej.
- destruct (parse_args_rejected argv0 args o s Hrej) as (msgs & ->).
  split; [reflexivity |]. split; [reflexivity |]. split; [reflexivity |].
  split; [reflexivity |]. exists msgs. reflexivity.
- destruct (parse_args_accepted argv0 args o s Hrej) as (o' & -> & _).
  split; reflexivity.
Qed.

End ArgumentLoop.

(** ** The set-up of [main] and its ways out *)

Section MainRun.

Variable env : Env.

#[local] Abbreviation b := createContext_bindings.

(** Settles the premise of [bound_update] once the variables are explicit. *)
Ltac same_buffers :=
intros name Hin; cbn [In buffer_names] in Hin;
repeat destruct Hin as [<- | Hin]; try contradiction;
repeat (rewrite variables_with_variables || rewrite lookup_insert_ne by done);
reflexivity.

Lemma camera_create_plain : plain_step camera_create.
Proof.
intros c t e f n Hb. eexists _, _, _. split; [| split; [| split]].
- unfold camera_create. run ltac:(idtac) ltac:(idtac).
- eapply bound_update; [exact Hb | same_buffers].
- reflexivity.
- reflexivity.
Qed.

Lemma createMaterial_plain : plain_step (createMaterial env).
Proof.
intros c t e f n Hb. eexists _, c, []. rewrite app_nil_r.
split; [apply createMaterial_eq |]. split; [exact Hb |]. split; reflexivity.
Qed.

Lemma createGeometry_plain material : plain_step (createGeometry env material).
Proof.
intros c t e f n Hb. eexists _, _, _. split; [| split; [| split]].
- unfold createGeometry. etransitivity; [run ltac:(idtac) ltac:(idtac) |].
  rewrite <- !app_assoc. reflexivity.
- eapply bound_update; [exact Hb | same_buffers].
- reflexivity.
- vm_compute. reflexivity.
Qed.

Lemma createLight_run c t e f n :
createLight env (mkHost (Some c) t e f n) =
Ret tt
  (mkHost
     (Some (with_variables
              (<["envmap" := VTextureSampler (samplesDir env +:+ "/data/CedarCity.hdr")]>
                 (<["ambient_light" := VFloat3 (FLit "0.1f") (FLit "0.1f") (FLit "0.1f")]>
                    (<["rtpass_default_radius2" := VFloat (FLit "0.25f")]>
                       (<["light" := VUserData (sizeof_PPMLight env)]> (variables c)))))
              c))
     (t ++ [OpSetVariable "light" (VUserData (sizeof_PPMLight env));
            OpSetVariable "rtpass_default_radius2" (VFloat (FLit "0.25f"));
            OpSetVariable "ambient_light"
              (VFloat3 (FLit "0.1f") (FLit "0.1f") (FLit "0.1f"));
            OpSetVariable "envmap"
              (VTextureSampler (samplesDir env +:+ "/data/CedarCity.hdr"))])
     e f n).
Proof.
unfold createLight. etransitivity; [run ltac:(idtac) ltac:(idtac) |].
rewrite !variables_with_variables, !with_variables_twice, <- !app_assoc. reflexivity.
Qed.

Lemma createLight_plain : plain_step (createLight env).
Proof.
intros c t e f n Hb. eexists _, _, _. split; [| split; [| split]].
- apply createLight_run.
- eapply bound_update; [exact Hb | same_buffers].
- reflexivity.
- vm_compute. reflexivity.
Qed.

Lemma validate_plain : plain_step (get_context ;; log (OpContext "validate")).
Proof.
intros c t e f n Hb. eexists _, _, _. split; [| split; [| split]].
- run ltac:(idtac) ltac:(idtac).
- eapply bound_update; [exact Hb | reflexivity].
- reflexivity.
- reflexivity.
Qed.

(** Uses a [plain_step] at the head of the program being run. *)
Ltac use_plain Hstep a c' ops Hb Hbuf Hq :=
rewrite bind_eq;
match goal with
| Hbound : bound b (mkHost (Some ?c) ?t ?e ?f ?n) |- _ =>
    destruct (Hstep c t e f n Hbound) as (a & c' & ops & -> & Hb & Hbuf & Hq);
    clear Hbound
end;
cbv beta iota.

(** The [try] block of [main] up to the choice between the display loop
  and the batch mode: it exits if GLEW fails, throws if [createContext]
  does, and otherwise has configured the context and logged plain calls
  after that. *)
Lemma main_try_cases o glew_ok frames c t e f n :
(glew_ok = false /\
 main_try env o glew_ok frames (mkHost c t e f n) =
 Exit EXIT_FAILURE (mkHost c (t ++ glfwInitialize_ops) (e ++ ["GLEW init failed: " +:+ glewGetErrorString env +:+ newline]) f n)) \/
(glew_ok = true /\
 exists x s',
   createContext env (use_pbo o) (mkHost c (t ++ glfwInitialize_ops) e f n) = Throw x s' /\
   main_try env o glew_ok frames (mkHost c t e f n) =
   Throw x (mkHost (Some Context_create) (t ++ glfwInitialize_ops) e f n)) \/
(glew_ok = true /\
 exists d c' ops,
   forallb plain_op ops = true /\
   buffers c' = buffers (configured_context env (use_pbo o) d) /\
   (forall t', bound b (mkHost (Some c') t' e f n)) /\
   main_try env o glew_ok frames (mkHost c t e f n) =
   ((if bool_decide (out_file o = "") then glfwRun frames else mret tt) ;; mret 0)
     (mkHost (Some c')
        (t ++ glfwInitialize_ops ++ trace (configured env (use_pbo o) d) ++ ops) e f n)).
Proof.
unfold main_try. rewrite bind_eq, glfwInitialize_eq. cbv beta iota.
fold glfwInitialize_ops.
rewrite bind_eq. destruct glew_ok.
2: { left. split; [reflexivity |]. rewrite bind_eq. reflexivity. }
right. rewrite mret_eq. cbv beta iota. rewrite bind_eq.
match goal with |- context [createContext env ?p ?s1] =>
  destruct (createContext_cases env p s1) as [[x Hx] | [d Hd]]
end.
{ left. split; [reflexivity |]. exists x. eexists. split; [exact Hx |].
  rewrite Hx. reflexivity. }
right. split; [reflexivity |]. exists d. rewrite Hd.
cbv beta iota. cbn [trace stderr frame_count accumulation_frame].
match goal with |- context [mkHost (Some ?cc) ?t1 ?e1 ?f1 ?n1] =>
  pose proof (configured_bound env (use_pbo o) d t1 e1 f1 n1) as Hb0
end.
use_plain camera_create_plain a1 c1 ops1 Hb1 Hbuf1 Hq1.
use_plain createMaterial_plain material c2 ops2 Hb2 Hbuf2 Hq2.
use_plain (createGeometry_plain material) a3 c3 ops3 Hb3 Hbuf3 Hq3.
use_plain createLight_plain a4 c4 ops4 Hb4 Hbuf4 Hq4.
rewrite bind_eq, get_context_eq. cbv beta iota.
rewrite bind_eq, log_eq. cbv beta iota.
exists c4, (ops1 ++ ops2 ++ ops3 ++ ops4 ++ [OpContext "validate"]).
split; [rewrite !forallb_app, Hq1, Hq2, Hq3, Hq4; reflexivity |].
split; [congruence |].
split; [intros t'; eapply bound_update; [exact Hb4 | reflexivity] |].
rewrite <- !app_assoc. reflexivity.
Qed.

Lemma plain_ops_launches ops : forallb plain_op ops = true -> launches ops = [].
Proof.
induction ops as [| op ops IH]; [reflexivity |].
cbn [forallb]. intros [Hop Hops]%andb_true_iff.
destruct op; cbn in Hop; try discriminate; apply IH, Hops.
Qed.

Lemma plain_ops_no_save ops : forallb plain_op ops = true -> existsb saves_image ops = false.
Proof.
induction ops as [| op ops IH]; [reflexivity |].
cbn [forallb existsb]. intros [Hop Hops]%andb_true_iff.
rewrite (IH Hops). destruct op; cbn in Hop; try discriminate; reflexivity.
Qed.

Lemma configured_trace_launches use_pbo d :
launches (trace (configured env use_pbo d)) = [] /\
existsb saves_image (trace (configured env use_pbo d)) = false.
Proof. vm_compute. split; reflexivity. Qed.

(** X12. With a non-empty output file name ([-f file]) a run of [main]
  that returns has set the context up and returns 0 without entering the
  display loop: no pass is launched, no image is saved, the frames are
  ignored and the context is left in place. *)
Theorem main_batch_mode argv0 args glew_ok frames s r s' :
default "" (last (file_operands args)) <> "" ->
main env argv0 args glew_ok frames s = Ret r s' ->
r = 0 /\
exists ops,
  trace s' = trace s ++ ops /\
  launches ops = [] /\
  existsb saves_image ops = false /\
  is_Some (context s').
Proof.
intros Hfile. unfold main. rewrite bind_eq.
destruct (rejected args) eqn:Hacc.
{ destruct (parse_args_rejected argv0 args initial_options s Hacc) as (msgs & ->).
  discriminate. }
destruct (parse_args_options argv0 args initial_options s Hacc) as (o & -> & _ & Ho & _).
cbn [out_file initial_options] in Ho. rewrite <- Ho in Hfile.
destruct s as [c t e f n].
destruct (main_try_cases o glew_ok frames c t e f n)
  as [[_ ->] | [[_ (x & s1 & _ & ->)] | [_ (d & c' & ops & Hplain & _ & _ & ->)]]].
- discriminate.
- discriminate.
- rewrite bool_decide_eq_false_2 by exact Hfile.
  rewrite bind_eq, mret_eq. cbv beta iota. rewrite mret_eq.
  intros Hret. apply Ret_inj in Hret as [<- <-].
  split; [reflexivity |]. eexists. split; [reflexivity |].
  destruct (configured_trace_launches (use_pbo o) d) as [Hl Hs].
  rewrite !launches_app, !existsb_app, Hl, Hs, (plain_ops_launches ops Hplain),
    (plain_ops_no_save ops Hplain).
  split; [reflexivity |]. split; [reflexivity |]. eexists. reflexivity.
Qed.

(** X13. When GLEW fails to initialise, [main] exits with EXIT_FAILURE
  right after the window set-up: no context is created and nothing else
  is called. *)
Theorem main_glew_failure argv0 args frames s :
rejected args = false ->
exists s',
  main env argv0 args false frames s = Exit 1 s' /\
  trace s' = trace s ++ glfwInitialize_ops /\
  context s' = context s.
Proof.
intros Hacc. unfold main. rewrite bind_eq.
destruct (parse_args_accepted argv0 args initial_options s Hacc) as (o & -> & _).
destruct s as [c t e f n].
destruct (main_try_cases o false frames c t e f n)
  as [[_ ->] | [[Hg _] | [Hg _]]]; try discriminate.
eexists. split; [reflexivity |]. split; reflexivity.
Qed.

End MainRun.

(** ** Properties of every run of [main] *)

Section TraceInvariant.

Variable env : Env.

#[local] Abbreviation b := createContext_bindings.

(** Two properties of logs: [I0] until the context is configured and [I]
  from then on, each kept by every piece the host can add at that stage. *)
Variable I0 I : list HostOp -> Prop.

Hypothesis I0_plain : forall t ops, I0 t -> forallb plain_op ops = true -> I0 (t ++ ops).
Hypothesis I_plain : forall t ops, I t -> forallb plain_op ops = true -> I (t ++ ops).
Hypothesis I_callback :
forall t ops, I t -> forallb (callback_op b) ops = true -> I (t ++ ops).
Hypothesis I_frame : forall t f n, I t -> I (t ++ frame_ops b f n).
Hypothesis I_configured :
forall t use_pbo d, I0 t -> I (t ++ trace (configured env use_pbo d)).

Lemma glfwRun_loop_keeps frames : forall s,
bound b s ->
U32.in_range (accumulation_frame s) ->
I (trace s) ->
I (trace (final_host (glfwRun_loop frames s))).
Proof.
induction frames as [| f rest IH]; intros s Hb Hr Ht; [exact Ht |].
destruct (glfwRun_body_spec b f s Hb Hr) as (ops & msgs & c & Hops & Hc & H).
cbn [glfwRun_loop]. rewrite bind_eq.
assert (Hpoll : I ((trace s ++ [OpWindow "glfwPollEvents"]) ++ ops)).
{ apply I_callback; [| exact Hops]. apply I_plain; [exact Ht | reflexivity]. }
destruct (existsb is_quit (events f)).
- destruct H as (af & H). rewrite H. cbn [final_host trace].
  rewrite app_assoc. exact Hpoll.
- cbv zeta in H. rewrite H. apply IH.
  + eapply bound_frame_variables; eassumption.
  + apply u32_wrap_in_range.
  + cbn [trace]. rewrite !app_assoc. apply I_frame.
    rewrite <- app_assoc. rewrite app_assoc. exact Hpoll.
Qed.

Lemma glfwRun_end_plain c t e f n :
exists ops,
  (destroyContext ;;
   log (OpWindow "glfwDestroyWindow") ;;
   log (OpWindow "glfwTerminate")) (mkHost c t e f n) =
  Ret tt (mkHost None (t ++ ops) e f n) /\
  forallb plain_op ops = true.
Proof.
destruct c as [c |].
- exists [OpContext "destroy"; OpWindow "glfwDestroyWindow"; OpWindow "glfwTerminate"].
  split; [| reflexivity].
  rewrite bind_eq. unfold destroyContext. cbn [context].
  rewrite bind_eq, log_eq. cbv beta iota. rewrite set_global_context_eq.
  cbv beta iota. rewrite bind_eq, log_eq. cbv beta iota. rewrite log_eq.
  rewrite <- !app_assoc. reflexivity.
- exists [OpWindow "glfwDestroyWindow"; OpWindow "glfwTerminate"].
  split; [| reflexivity].
  rewrite bind_eq. unfold destroyContext. cbn [context]. cbv beta iota.
  rewrite bind_eq, log_eq. cbv beta iota. rewrite log_eq.
  rewrite <- !app_assoc. reflexivity.
Qed.

Lemma glfwRun_keeps frames s :
bound b s -> I (trace s) -> I (trace (final_host (glfwRun frames s))).
Proof.
intros Hb Ht. destruct s as [c t e f n]. rewrite glfwRun_eq, bind_eq.
match goal with |- context [glfwRun_loop frames ?s1] =>
  assert (Hloop : I (trace (final_host (glfwRun_loop frames s1))));
    [ apply glfwRun_loop_keeps;
      [ apply (bound_same_context b (mkHost c t e f n)); [reflexivity | exact Hb]
      | unfold U32.in_range, U32.modulus; cbn; lia
      | cbn [trace] in *; apply I_plain; [exact Ht | reflexivity] ]
    | destruct (glfwRun_loop frames s1) as [[] [c2 t2 e2 f2 n2] | st s2 | x s2] ]
end.
- destruct (glfwRun_end_plain c2 t2 e2 f2 n2) as (ops & -> & Hq).
  cbn [final_host trace] in *. apply I_plain; assumption.
- exact Hloop.
- exact Hloop.
Qed.

(** Every run of [main], however it ends, keeps the properties. *)
Lemma main_keeps argv0 args glew_ok frames s :
I0 (trace s) ->
I0 (trace (final_host (main env argv0 args glew_ok frames s))) \/
I (trace (final_host (main env argv0 args glew_ok frames s))).
Proof.
intros Ht. unfold main. rewrite bind_eq.
destruct (rejected args) eqn:Hrej.
- destruct (parse_args_rejected argv0 args initial_options s Hrej) as (msgs & ->).
  left. exact Ht.
- destruct (parse_args_accepted argv0 args initial_options s Hrej) as (o & -> & _).
  destruct s as [c t e f n]. cbn [trace] in Ht.
  destruct (main_try_cases env o glew_ok frames c t e f n)
    as [[_ ->] | [[_ (x & s1 & _ & ->)] | [_ (d & c' & ops & Hplain & _ & Hb & ->)]]].
  + left. cbn [final_host trace]. apply I0_plain; [exact Ht | reflexivity].
  + left. cbn [final_host trace]. apply I0_plain; [exact Ht | reflexivity].
  + right. rewrite bind_eq.
    assert (Hsetup : I (t ++ glfwInitialize_ops ++
                        trace (configured env (use_pbo o) d) ++ ops)).
    { rewrite !app_assoc. apply I_plain; [| exact Hplain].
      apply I_configured. apply I0_plain; [exact Ht | reflexivity]. }
    destruct (bool_decide (out_file o = "")).
    * match goal with |- context [glfwRun frames ?s1] =>
        pose proof (glfwRun_keeps frames s1 (Hb _) Hsetup) as Hrun;
        destruct (glfwRun frames s1) as [[] s' | st s' | x s']
      end; exact Hrun.
    * rewrite mret_eq. exact Hsetup.
Qed.

End TraceInvariant.

(** *** The buffer mapping protocol *)

Lemma map_protocol_app t1 : forall m t2,
  map_protocol m (t1 ++ t2) =
  match map_protocol m t1 with
  | Some m' => map_protocol m' t2
  | None => None
  end.
Proof.
  induction t1 as [| op t1 IH]; intros m t2; [reflexivity |].
  cbn [app map_protocol].
  destruct op; try apply IH; try (destruct m; [reflexivity | apply IH]);
    case_bool_decide; try reflexivity; apply IH.
Qed.

Lemma map_protocol_plain ops : forall m,
  forallb plain_op ops = true -> map_protocol m ops = Some m.
Proof.
  induction ops as [| op ops IH]; intros m; [reflexivity |].
  cbn [forallb]. intros [Hop Hops]%andb_true_iff.
  destruct op; cbn in Hop; try discriminate; cbn [map_protocol]; apply IH, Hops.
Qed.

Lemma map_protocol_callback bs ops :
  forallb (callback_op bs) ops = true -> map_protocol None ops = Some None.
Proof.
  induction ops as [| op ops IH]; [reflexivity |].
  cbn [forallb]. intros [Hop Hops]%andb_true_iff.
  destruct op; cbn in Hop; try discriminate; cbn [map_protocol];
    rewrite ?bool_decide_eq_false_2 by discriminate; apply IH, Hops.
Qed.

Lemma map_protocol_frame bs f n : map_protocol None (frame_ops bs f n) = Some None.
Proof.
  unfold frame_ops. destruct (want_capture_mouse f), (n =? 0); cbn;
    rewrite !bool_decide_eq_true_2 by reflexivity;
    rewrite ?bool_decide_eq_false_2 by discriminate; reflexivity.
Qed.

Lemma map_protocol_configured env use_pbo d :
  map_protocol None (trace (configured env use_pbo d)) = Some None.
Proof. vm_compute. reflexivity. Qed.

(** X14. Every run of [main], whatever the arguments, events and frames
    and however it ends, follows the buffer mapping protocol: the host maps
    a buffer only when none is mapped, writes and unmaps only the buffer it
    has mapped, launches only with nothing mapped, and ends with nothing
    mapped. *)
Theorem main_map_protocol env argv0 args glew_ok frames :
  map_protocol None (trace (final_host (main env argv0 args glew_ok frames initial_host))) =
  Some None.
Proof.
  set (I := fun t => map_protocol None t = Some None).
  assert (H : I (trace (final_host (main env argv0 args glew_ok frames initial_host))) \/
              I (trace (final_host (main env argv0 args glew_ok frames initial_host))));
    [apply (main_keeps env I I); unfold I | destruct H as [H | H]; exact H].
  - intros t ops Ht Hops. rewrite map_protocol_app, Ht. apply map_protocol_plain, Hops.
  - intros t ops Ht Hops. rewrite map_protocol_app, Ht. apply map_protocol_plain, Hops.
  - intros t ops Ht Hops. rewrite map_protocol_app, Ht.
    apply (map_protocol_callback _ _ Hops).
  - intros t f n Ht. rewrite map_protocol_app, Ht. apply map_protocol_frame.
  - intros t use_pbo d Ht. rewrite map_protocol_app, Ht. apply map_protocol_configured.
  - reflexivity.
Qed.

(** *** Launches come in whole frames *)

Lemma whole_frames_same t ops : whole_frames t -> launches ops = [] -> whole_frames (t ++ ops).
Proof.
  intros (counters & H) Hops. exists counters.
  rewrite launches_app, Hops, app_nil_r. exact H.
Qed.

(** X15. In every run of [main] that no exception ends, whether it
    returns or exits, the launches are a sequence of whole frames, each one
    photon pass followed by one gather pass, preceded by an eye-ray pass
    when the counter was 0: a quit key never stops the host between the
    passes of a frame. *)
Theorem main_whole_frames env argv0 args glew_ok frames s' :
  (exists r, main env argv0 args glew_ok frames initial_host = Ret r s') \/
  (exists status, main env argv0 args glew_ok frames initial_host = Exit status s') ->
  whole_frames (trace s').
Proof.
  intros Hend.
  assert (H : whole_frames
                (trace (final_host (main env argv0 args glew_ok frames initial_host))) \/
              whole_frames
                (trace (final_host (main env argv0 args glew_ok frames initial_host)))).
  { apply (main_keeps env whole_frames whole_frames).
    - intros t ops Ht Hops. apply whole_frames_same; [exact Ht |].
      apply plain_ops_launches, Hops.
    - intros t ops Ht Hops. apply whole_frames_same; [exact Ht |].
      apply plain_ops_launches, Hops.
    - intros t ops Ht Hops. apply whole_frames_same; [exact Ht |].
      apply (callback_ops_quiet _ _ Hops).
    - intros t f n (counters & H). exists (counters ++ [n]).
      rewrite launches_app, H, launches_frame_ops, fmap_app, concat_app. cbn.
      rewrite app_nil_r. reflexivity.
    - intros t use_pbo d Ht. apply whole_frames_same; [exact Ht |].
      apply configured_trace_launches.
    - exists []. reflexivity. }
  destruct Hend as [[r Hend] | [status Hend]]; rewrite Hend in H;
    destruct H as [H | H]; exact H.
Qed.

(** ** The device programs *)

Lemma left_to_device_plain ops :
  forallb plain_op ops = true -> forallb (left_to_device createContext_bindings) ops = true.
Proof.
  induction ops as [| op ops IH]; [reflexivity |].
  cbn [forallb]. intros [Hop Hops]%andb_true_iff. rewrite (IH Hops), andb_true_r.
  destruct op; cbn in Hop; try discriminate; reflexivity.
Qed.

Lemma left_to_device_callback ops :
  forallb (callback_op createContext_bindings) ops = true ->
  forallb (left_to_device createContext_bindings) ops = true.
Proof.
  induction ops as [| op ops IH]; [reflexivity |].
  cbn [forallb]. intros [Hop Hops]%andb_true_iff. rewrite (IH Hops), andb_true_r.
  destruct op; cbn in Hop; try discriminate; reflexivity.
Qed.

Lemma left_to_device_frame f n :
  forallb (left_to_device createContext_bindings) (frame_ops createContext_bindings f n) = true.
Proof. unfold frame_ops. destruct (want_capture_mouse f), (n =? 0); reflexivity. Qed.

Lemma left_to_device_configured env use_pbo d :
  forallb (left_to_device createContext_bindings) (trace (configured env use_pbo d)) = true.
Proof. vm_compute. reflexivity. Qed.

(** Every run of [main], however it ends, logs such calls only. *)
Lemma main_left_to_device env argv0 args glew_ok frames :
  forallb (left_to_device createContext_bindings)
    (trace (final_host (main env argv0 args glew_ok frames initial_host))) = true.
Proof.
  set (I := fun t => forallb (left_to_device createContext_bindings) t = true).
  assert (H : I (trace (final_host (main env argv0 args glew_ok frames initial_host))) \/
              I (trace (final_host (main env argv0 args glew_ok frames initial_host))));
    [apply (main_keeps env I I); unfold I | destruct H as [H | H]; exact H].
  - intros t ops Ht Hops. rewrite forallb_app, Ht. apply left_to_device_plain, Hops.
  - intros t ops Ht Hops. rewrite forallb_app, Ht. apply left_to_device_plain, Hops.
  - intros t ops Ht Hops. rewrite forallb_app, Ht. apply left_to_device_callback, Hops.
  - intros t f n Ht. rewrite forallb_app, Ht. apply left_to_device_frame.
  - intros t use_pbo d Ht. rewrite forallb_app, Ht. apply left_to_device_configured.
  - reflexivity.
Qed.

(** C4. Every program installed into the context (three ray-generation
    programs, two exception programs, one miss program) or into the
    material (two closest-hit programs, one any-hit program) is created
    from the PTX file generated from ppm_rtpass.cu, ppm_ppass.cu or
    ppm_gather.cu.  The host itself computes nothing of the image: in every
    run of [main] the only buffers it maps or writes are the two buffers of
    random seeds, never the buffers of hit records, photons, photon map or
    radiance, and all it launches are the three entry points, whose
    programs come from those PTX files. *)
Theorem programs_from_ptx_files env use_pbo s s1 s2 material s3 argv0 args glew_ok frames :
  createContext env use_pbo s = Ret tt s1 ->
  createMaterial env s2 = Ret material s3 ->
  (exists c, context s1 = Some c /\
     size (ray_generation_program c) = 3%nat /\
     size (exception_program c) = 2%nat /\
     size (miss_program c) = 1%nat /\
     (forall i p,
        ray_generation_program c !! i = Some p \/
        exception_program c !! i = Some p \/
        miss_program c !! i = Some p ->
        from_sample_ptx env p) /\
     (forall name, In name device_buffer_names ->
        exists h, variables c !! name = Some (VBuffer h) /\
                  h <> h_image_rnd_seeds createContext_bindings /\
                  h <> h_photon_rnd_seeds createContext_bindings) /\
     variables c !! "image_rnd_seeds" =
       Some (VBuffer (h_image_rnd_seeds createContext_bindings)) /\
     variables c !! "photon_rnd_seeds" =
       Some (VBuffer (h_photon_rnd_seeds createContext_bindings)) /\
     (forall entry dims,
        In (OpLaunch entry dims)
           (trace (final_host (main env argv0 args glew_ok frames initial_host))) ->
        exists p, ray_generation_program c !! entry = Some p /\ from_sample_ptx env p)) /\
  (forall i p,
     closest_hit_program material !! i = Some p \/
     any_hit_program material !! i = Some p ->
     from_sample_ptx env p) /\
  size (closest_hit_program material) = 2%nat /\
  size (any_hit_program material) = 1%nat /\
  (forall op h,
     In op (trace (final_host (main env argv0 args glew_ok frames initial_host))) ->
     host_access op = Some h ->
     h = h_image_rnd_seeds createContext_bindings \/
     h = h_photon_rnd_seeds createContext_bindings).
Proof.
  intros H1 H2.
  destruct (installed_programs env use_pbo s s1 s2 material s3 H1 H2)
    as ((c & Hc & Hrg & Hex & Hmiss & Hprog) & Hmat & Hch & Hah).
  pose proof (main_left_to_device env argv0 args glew_ok frames) as Hrun.
  rewrite forallb_forall in Hrun.
  apply createContext_ret in H1 as (d & Hc' & _).
  rewrite Hc in Hc'. apply Some_inj in Hc'. subst c.
  destruct (configured_bindings env use_pbo d) as (B0 & B1 & B2 & B3 & B4 & B5 & B6).
  cbv zeta in *.
  split; [| split; [exact Hmat | split; [exact Hch | split; [exact Hah |]]]].
  - exists (configured_context env use_pbo d).
    split; [exact Hc |]. split; [exact Hrg |]. split; [exact Hex |].
    split; [exact Hmiss |]. split; [exact Hprog |].
    split; [| split; [exact B3 | split; [exact B5 |]]].
    + intros name [<- | [<- | [<- | [<- | [<- | []]]]]];
        eexists; (split; [eassumption | split; discriminate]).
    + intros entry dims Hin. specialize (Hrun _ Hin). cbn [left_to_device] in Hrun.
      apply bool_decide_eq_true_1 in Hrun.
      assert (He : exists p, ray_generation_program (configured_context env use_pbo d)
                               !! entry = Some p).
      { rewrite configured_ray_generation.
        apply elem_of_cons in Hrun as [-> | Hrun]; [eexists; reflexivity |].
        apply elem_of_cons in Hrun as [-> | Hrun]; [eexists; reflexivity |].
        apply elem_of_cons in Hrun as [-> | Hrun]; [eexists; reflexivity |].
        apply elem_of_nil in Hrun. contradiction. }
      destruct He as (p & Hp). exists p. split; [exact Hp |].
      apply (Hprog entry p). left. exact Hp.
  - intros op h Hin Hacc. specialize (Hrun _ Hin).
    clear - Hrun Hacc.
    destruct op; cbn [host_access] in Hacc; try discriminate Hacc;
      apply Some_inj in Hacc; subst; cbn [left_to_device] in Hrun;
      apply orb_true_iff in Hrun as [Hrun | Hrun];
      apply bool_decide_eq_true_1 in Hrun; [left | right | left | right | left | right];
      exact Hrun.
Qed.

(** ** The callbacks *)

Section Callbacks.

Variable b : Bindings.

(** X16. A key event that is not a quit key: pressing S saves the output
  buffer to optixProgressivePhotonMap.png, pressing F re-centers the
  camera and sets the accumulation counter back to 0, and neither is
  passed on; every other event is passed on to ImGui exactly once and
  changes nothing else. *)
Theorem keyCallback_handled_or_forwarded key action s :
bound b s ->
is_quit (KeyEvent key action) = false ->
exists ops msgs af,
  keyCallback key action s =
  Ret tt (mkHost (context s) (trace s ++ ops) (stderr s ++ msgs) (frame_count s) af) /\
  match action, key with
  | GLFW_PRESS, GLFW_KEY_S =>
      ops = [OpWriteBufferToFile "optixProgressivePhotonMap.png" (h_output b)] /\
      af = accumulation_frame s
  | GLFW_PRESS, GLFW_KEY_F =>
      ops = [OpCamera "reset_lookat"] /\ msgs = [] /\ af = 0
  | _, _ =>
      ops = [OpGui "ImGui_ImplGlfw_KeyCallback"] /\ msgs = [] /\
      af = accumulation_frame s
  end.
Proof.
intros (c & Hc & Hout & _) Hq.
destruct s as [ctx t e f n]. cbn in Hc. subst ctx.
destruct action, key; try discriminate Hq; exec; rewrite ?Hout; exec;
  rewrite <- ?app_assoc;
  (eexists _, _, _; split;
   [ do 2 f_equal; first [reflexivity | symmetry; apply app_nil_r]
   | repeat split ]).
Qed.

(** A window size event with a negative width or height is ignored,
  whatever the host state is. *)
Lemma windowSizeCallback_negative w h camera_resized s :
w < 0 \/ h < 0 -> windowSizeCallback w h camera_resized s = Ret tt s.
Proof.
intros Hneg. unfold windowSizeCallback.
assert (H : (w <? 0) || (h <? 0) = true).
{ apply orb_true_iff. destruct Hneg; [left | right]; apply Z.ltb_lt; assumption. }
rewrite H. reflexivity.
Qed.

(** X17. A window size event with a negative width or height is ignored.
  Any other resizes exactly the four screen-sized buffers (output, debug,
  hit records, image seeds), each to that width and height, and sets the
  counter back to 0 only if the camera reports a change; the photon
  buffers are never resized. *)
Theorem windowSizeCallback_resizes w h camera_resized s :
bound b s ->
- 2 ^ 31 <= w < 2 ^ 31 -> - 2 ^ 31 <= h < 2 ^ 31 ->
windowSizeCallback w h camera_resized s =
Ret tt
  (if (w <? 0) || (h <? 0) then s
   else
     mkHost (context s)
       (trace s ++
        [OpCamera "resize";
         OpResizeBuffer (h_output b) w h;
         OpResizeBuffer (h_debug b) w h;
         OpResizeBuffer (h_rtpass_output b) w h;
         OpResizeBuffer (h_image_rnd_seeds b) w h;
         OpWindow "glMatrixMode"; OpWindow "glLoadIdentity"; OpWindow "glOrtho";
         OpWindow "glViewport"])
       (stderr s) (frame_count s)
       (if camera_resized then 0 else accumulation_frame s)).
Proof.
intros (c & Hc & Hout & Hdbg & Hrt & Himg & _) Hw Hh.
destruct ((w <? 0) || (h <? 0)) eqn:H.
{ apply windowSizeCallback_negative. apply orb_true_iff in H.
  destruct H as [H | H]; [left | right]; apply Z.ltb_lt; exact H. }
apply orb_false_iff in H as [Hw0%Z.ltb_ge Hh0%Z.ltb_ge].
destruct s as [ctx t e f n]. cbn in Hc. subst ctx.
unfold windowSizeCallback.
assert (H : (w <? 0) || (h <? 0) = false).
{ apply orb_false_iff. split; apply Z.ltb_ge; assumption. }
rewrite H.
rewrite !u32_wrap_small by (unfold U32.in_range, U32.modulus; lia).
destruct camera_resized; exec;
  rewrite ?Hout; exec; rewrite ?Hdbg; exec; rewrite ?Hrt; exec; rewrite ?Himg; exec;
  rewrite <- ?app_assoc; reflexivity.
Qed.

Lemma callback_quit_exits e s :
is_quit e = true -> exists s', callback e s = Exit EXIT_SUCCESS s'.
Proof.
intros Hq. destruct e as [key action | w h r]; [| discriminate].
destruct s as [[c |] t err f n];
  destruct action, key; try discriminate Hq; eexists; reflexivity.
Qed.

Lemma glfwPollEvents_app evs1 evs2 s :
glfwPollEvents (evs1 ++ evs2) s = (glfwPollEvents evs1 ;; glfwPollEvents evs2) s.
Proof.
revert s. induction evs1 as [| e evs1 IH]; intros s; [reflexivity |].
cbn [app glfwPollEvents]. rewrite !bind_eq.
destruct (callback e s) as [[] s1 | st s1 | x s1]; try reflexivity.
rewrite IH, bind_eq. reflexivity.
Qed.

(** X18. Once a quit key ends the process inside event polling, no later
  pending event is dispatched: what follows the key press makes no
  difference, and polling does not return to the loop. *)
Theorem glfwPollEvents_after_quit evs1 e evs2 s :
is_quit e = true ->
glfwPollEvents (evs1 ++ e :: evs2) s = glfwPollEvents (evs1 ++ [e]) s /\
forall s', glfwPollEvents (evs1 ++ e :: evs2) s <> Ret tt s'.
Proof.
intros Hq.
assert (Hcut : forall rest s0,
           exists s', glfwPollEvents (e :: rest) s0 = Exit EXIT_SUCCESS s' /\
                      glfwPollEvents [e] s0 = Exit EXIT_SUCCESS s').
{ intros rest s0. destruct (callback_quit_exits e s0 Hq) as (s' & Hs').
  exists s'. cbn [glfwPollEvents]. rewrite !bind_eq, Hs'. split; reflexivity. }
rewrite !glfwPollEvents_app, !bind_eq.
destruct (glfwPollEvents evs1 s) as [[] s1 | st s1 | x s1].
- destruct (Hcut evs2 s1) as (s' & H1 & H2). rewrite H1, H2.
  split; [reflexivity | discriminate].
- split; [reflexivity | discriminate].
- split; [reflexivity | discriminate].
Qed.


End Callbacks.

(** ** The buffers of the context *)

Section Buffers.

Variable env : Env.

#[local] Abbreviation b := createContext_bindings.

Lemma configured_buffer_variables use_pbo d :
NoDup (buffer_variables (configured_context env use_pbo d)).*2 /\
Forall (fun h => h ∈ (buffer_variables (configured_context env use_pbo d)).*2)
  (seq 0 (length (buffers (configured_context env use_pbo d)))) /\
Forall (fun h => (h < length (buffers (configured_context env use_pbo d)))%nat)
  (buffer_variables (configured_context env use_pbo d)).*2.
Proof.
split; [| split];
  lazymatch goal with |- ?P => apply (bool_decide_eq_true_1 P) end;
  vm_compute; reflexivity.
Qed.

(** X20. In the context [createContext] sets up, every buffer is held by
  exactly one variable and every buffer variable holds a buffer of the
  context: no buffer is shared between two names, none is left unbound
  and no name dangles. *)
Theorem createContext_buffer_variables use_pbo s s' :
createContext env use_pbo s = Ret tt s' ->
exists c,
  context s' = Some c /\
  NoDup (buffer_variables c).*2 /\
  forall h, h ∈ (buffer_variables c).*2 <-> (h < length (buffers c))%nat.
Proof.
intros H. apply createContext_ret in H as (d & Hc & _).
exists (configured_context env use_pbo d). split; [exact Hc |].
destruct (configured_buffer_variables use_pbo d) as (Hnd & Hall & Hin).
split; [exact Hnd |]. intros h. split.
- intros Hh. rewrite Forall_forall in Hin. apply Hin, Hh.
- intros Hh. rewrite Forall_forall in Hall. apply Hall.
  apply elem_of_seq. lia.
Qed.

(** X21. Of the buffers [createContext] allocates, exactly those of
  format RT_FORMAT_USER are given an element size, every dimension is
  positive, and the numbers of elements are those of [created_counts]. *)
Theorem createContext_buffers_well_formed use_pbo s s' :
createContext env use_pbo s = Ret tt s' ->
exists c,
  context s' = Some c /\
  Forall (fun bo => (buf_format bo = RT_FORMAT_USER <-> is_Some (buf_element_size bo)) /\
                    Forall (fun n => 0 < n) (buf_size bo))
         (buffers c) /\
  element_count <$> buffers c = created_counts.
Proof.
intros H. apply createContext_ret in H as (d & Hc & _).
exists (configured_context env use_pbo d). split; [exact Hc |].
rewrite configured_buffers. split; [| reflexivity].
repeat apply Forall_cons_2; try apply Forall_nil_2;
  (split;
   [ cbn; split; [intros Hf; first [discriminate Hf | eexists; reflexivity]
                 | intros [n Hn]; first [discriminate Hn | reflexivity]]
   | cbn [buf_size]; repeat apply Forall_cons_2; try apply Forall_nil_2;
     reflexivity ]).
Qed.

End Buffers.

(** *** Host writes fill their buffers *)

Lemma buffer_counts_app t1 : forall counts t2,
  buffer_counts counts (t1 ++ t2) =
  match buffer_counts counts t1 with
  | Some counts' => buffer_counts counts' t2
  | None => None
  end.
Proof.
  induction t1 as [| op t1 IH]; intros counts t2; [reflexivity |].
  cbn [app buffer_counts].
  destruct op; try apply IH.
  - destruct (created_counts !! h); [apply IH | reflexivity].
  - case_bool_decide; [apply IH | reflexivity].
Qed.

Lemma buffer_counts_plain ops : forall counts,
  forallb plain_op ops = true -> buffer_counts counts ops = Some counts.
Proof.
  induction ops as [| op ops IH]; intros counts; [reflexivity |].
  cbn [forallb]. intros [Hop Hops]%andb_true_iff.
  destruct op; cbn in Hop; try discriminate; cbn [buffer_counts]; apply IH, Hops.
Qed.

Lemma buffer_counts_callback ops : forall counts,
  forallb (callback_op createContext_bindings) ops = true ->
  exists counts',
    buffer_counts counts ops = Some counts' /\ counts' !! 5%nat = counts !! 5%nat.
Proof.
  induction ops as [| op ops IH]; intros counts; [exists counts; split; reflexivity |].
  cbn [forallb]. intros [Hop Hops]%andb_true_iff.
  destruct op; cbn in Hop; try discriminate; cbn [buffer_counts];
    try (apply IH, Hops).
  destruct (IH (<[h := w * hgt]> counts) Hops) as (counts' & Hrun & H5).
  exists counts'. split; [exact Hrun |]. rewrite H5.
  apply lookup_insert_ne. intros ->. discriminate Hop.
Qed.

Lemma buffer_counts_frame f n counts :
  counts !! 5%nat = Some (photon_launch_dim * photon_launch_dim) ->
  buffer_counts counts (frame_ops createContext_bindings f n) = Some counts.
Proof.
  intros H5. unfold frame_ops. destruct (want_capture_mouse f), (n =? 0); cbn;
    (rewrite bool_decide_eq_true_2; [reflexivity | exact H5]).
Qed.

Lemma buffer_counts_configured env use_pbo d counts :
  exists counts',
    buffer_counts counts (trace (configured env use_pbo d)) = Some counts' /\
    counts' !! 5%nat = Some (photon_launch_dim * photon_launch_dim).
Proof.
  assert (Ht : exists t, trace (configured env use_pbo d) = t /\
                         buffer_counts counts t =
                         Some (<[6%nat := photon_map_size]>
                                 (<[5%nat := photon_launch_dim * photon_launch_dim]>
                                    (<[4%nat := num_photons]>
                                       (<[3%nat := WIDTH * HEIGHT]>
                                          (<[2%nat := WIDTH * HEIGHT]>
                                             (<[1%nat := WIDTH * HEIGHT]>
                                                (<[0%nat := WIDTH * HEIGHT]> counts)))))))).
  { eexists. split; [vm_compute; reflexivity |].
    cbn [buffer_counts created_counts lookup list_lookup].
    rewrite !bool_decide_eq_true_2; [reflexivity | |].
    - rewrite lookup_insert_eq. reflexivity.
    - rewrite lookup_insert_eq. reflexivity. }
  destruct Ht as (t & -> & ->). eexists. split; [reflexivity |].
  rewrite lookup_insert_ne by discriminate. apply lookup_insert_eq.
Qed.

(** X22. In every run of [main], whatever the arguments, events and
    frames and however it ends, each host write of random seeds fills
    exactly the buffer it writes to, as that buffer is at that point: the
    image seeds are written before any window resize, and the photon
    seeds, written again in every frame, are never resized. *)
Theorem main_host_writes_fit env argv0 args glew_ok frames :
  is_Some (buffer_counts ∅
             (trace (final_host (main env argv0 args glew_ok frames initial_host)))).
Proof.
  set (I0 := fun t => is_Some (buffer_counts ∅ t)).
  set (I := fun t => exists counts,
              buffer_counts ∅ t = Some counts /\
              counts !! 5%nat = Some (photon_launch_dim * photon_launch_dim)).
  assert (H : I0 (trace (final_host (main env argv0 args glew_ok frames initial_host))) \/
              I (trace (final_host (main env argv0 args glew_ok frames initial_host)))).
  { apply (main_keeps env I0 I); unfold I0, I.
    - intros t ops [counts Ht] Hops. exists counts.
      rewrite buffer_counts_app, Ht. apply buffer_counts_plain, Hops.
    - intros t ops (counts & Ht & H5) Hops. exists counts. split; [| exact H5].
      rewrite buffer_counts_app, Ht. apply buffer_counts_plain, Hops.
    - intros t ops (counts & Ht & H5) Hops.
      destruct (buffer_counts_callback ops counts Hops) as (counts' & Hrun & H5').
      exists counts'. split; [| rewrite H5'; exact H5].
      rewrite buffer_counts_app, Ht. exact Hrun.
    - intros t f n (counts & Ht & H5). exists counts. split; [| exact H5].
      rewrite buffer_counts_app, Ht. apply buffer_counts_frame, H5.
    - intros t use_pbo d [counts Ht].
      destruct (buffer_counts_configured env use_pbo d counts) as (counts' & Hrun & H5).
      exists counts'. split; [| exact H5].
      rewrite buffer_counts_app, Ht. exact Hrun.
    - eexists. reflexivity. }
  destruct H as [H | (counts & H & _)]; [exact H | eexists; exact H].
Qed.

(** ** [max_component] *)

Section MaxComponent.

Variable float : Type.
Variable gt : float -> float -> bool.

(** X23. [max_component] returns an index, 0, 1 or 2, and every component
  after the chosen one is strictly smaller than it, whatever [>] is.
  When [>] is a strict weak order, as on floats that are not NaN, no
  component is greater than the chosen one: the index is that of a
  largest component, the last of them. *)
Theorem max_component_maximal (a : float3 float) :
0 <= max_component gt a <= 2 /\
(forall i, max_component gt a < i <= 2 ->
           gt (component a (max_component gt a)) (component a i) = true) /\
((forall u v, gt u v = true -> gt v u = false) ->
 (forall u v w, gt u v = true -> gt v w = true -> gt u w = true) ->
 (forall u v w, gt u v = false -> gt v w = false -> gt u w = false) ->
 forall i, gt (component a i) (component a (max_component gt a)) = false).
Proof.
assert (Hirr : (forall u v, gt u v = true -> gt v u = false) -> forall u, gt u u = false).
{ intros Hasym u. destruct (gt u u) eqn:E; [| reflexivity].
  apply Hasym in E as E'. congruence. }
unfold max_component.
destruct (gt (x a) (y a)) eqn:Hxy;
  [destruct (gt (x a) (z a)) eqn:Hxz | destruct (gt (y a) (z a)) eqn:Hyz].
- split; [lia |]. split.
  + intros i Hi. assert (Hc : i = 1 \/ i = 2) by lia.
    destruct Hc as [-> | ->]; cbn; assumption.
  + intros Hasym Htrans Hneg i. unfold component. cbn.
    destruct (i =? 0), (i =? 1); first [apply Hirr, Hasym | apply Hasym; assumption].
- split; [lia |]. split.
  + intros i Hi. lia.
  + intros Hasym Htrans Hneg i. unfold component. cbn.
    destruct (i =? 0), (i =? 1); try assumption; try apply Hirr, Hasym.
    destruct (gt (y a) (z a)) eqn:Hyz; [| reflexivity].
    rewrite (Htrans _ _ _ Hxy Hyz) in Hxz. discriminate.
- split; [lia |]. split.
  + intros i Hi. assert (Hc : i = 2) by lia. subst i. cbn. assumption.
  + intros Hasym Htrans Hneg i. unfold component. cbn.
    destruct (i =? 0), (i =? 1);
      first [assumption | apply Hirr, Hasym | apply Hasym; assumption].
- split; [lia |]. split.
  + intros i Hi. lia.
  + intros Hasym Htrans Hneg i. unfold component. cbn.
    destruct (i =? 0), (i =? 1);
      first [assumption | apply Hirr, Hasym | eapply Hneg; eassumption].
Qed.

End MaxComponent.

(** With a NaN among the components no such guarantee is left: every
    comparison with it is false, and the last component is returned even
    when the first is greater. *)
Example max_component_nan :
  let gt (a c : option Z) :=
    match a, c with
    | Some m, Some n => m >? n
    | _, _ => false
    end in
  let a := make_float3 (Some 1) None (Some 0) in
  max_component gt a = 2 /\ gt (x a) (z a) = true.
Proof. split; reflexivity. Qed.

(** ** The further properties at concrete inputs *)

Lemma pow2roundup_bounds_witness : 524289 <= pow2roundup 524289 < 2 * 524289.
Proof. apply (pow2roundup_bounds 524289). lia. Defined.

Lemma pow2roundup_idempotent_witness :
  pow2roundup (pow2roundup 3000000000) = pow2roundup 3000000000.
Proof. apply (pow2roundup_idempotent 3000000000). lia. Defined.

Lemma pow2roundup_fixed_points_witness :
  pow2roundup 524288 = 524288 <->
  524288 = 0 \/ exists k, 0 <= k <= 31 /\ 524288 = 2 ^ k.
Proof. apply (pow2roundup_fixed_points 524288). lia. Defined.

Lemma pow2roundup_monotone_witness : pow2roundup 100 <= pow2roundup 1000.
Proof. apply (pow2roundup_monotone 100 1000); lia. Defined.

Lemma photon_map_capacity_witness :
  524288 - 1 <= U32.sub (pow2roundup 524288) 1 /\
  (524288 <= U32.sub (pow2roundup 524288) 1 <-> ~ exists k, 0 <= k /\ 524288 = 2 ^ k) /\
  photon_map_size = num_photons - 1.
Proof. apply (photon_map_capacity 524288). lia. Defined.

Lemma select_device_first_match_witness :
  initial_host = initial_host /\
  device_code example_env_three 0 = 0 /\
  ((2 = 0 /\
    forall j, 1 <= j < getDeviceCount example_env_three ->
              device_code example_env_three j = 0 /\
              device_caps example_env_three j <> device_caps example_env_three 0) \/
   (1 <= 2 < getDeviceCount example_env_three /\
    device_code example_env_three 2 = 0 /\
    device_caps example_env_three 2 = device_caps example_env_three 0 /\
    forall j, 1 <= j < 2 ->
              device_code example_env_three j = 0 /\
              device_caps example_env_three j <> device_caps example_env_three 0)).
Proof.
  apply (select_device_first_match example_env_three initial_host 2 initial_host).
  reflexivity.
Defined.

Lemma select_device_query_failure_witness :
  select_device example_env_failing initial_host =
  Throw (RTException (device_code example_env_failing 2)) initial_host.
Proof.
  apply (select_device_query_failure example_env_failing initial_host 2).
  - right. cbn. lia.
  - cbn. lia.
  - intros i Hi. assert (Hc : i = 0 \/ i = 1) by lia. destruct Hc as [-> | ->]; reflexivity.
  - intros i Hi. assert (Hc : i = 1) by lia. subst i. cbn. discriminate.
Defined.

Lemma ptxPath_injective_witness : "ppm_gather.cu" = "ppm_gather.cu".
Proof.
  apply (ptxPath_injective example_env "ppm_gather.cu" "ppm_gather.cu"). reflexivity.
Defined.

Lemma parse_args_result_witness :
  exists o,
    parse_args "optixProgressivePhotonMap" ["-n"; "a.obj"; "-f"; "a.ppm"; "-f"; "b.ppm"]
      initial_options initial_host = Ret o initial_host /\
    use_pbo o =
      negb (existsb is_nopbo
              (option_args ["-n"; "a.obj"; "-f"; "a.ppm"; "-f"; "b.ppm"])) /\
    out_file o =
      default "" (last (file_operands ["-n"; "a.obj"; "-f"; "a.ppm"; "-f"; "b.ppm"])) /\
    mesh_files o =
      filter (fun arg => starts_with_dash arg = false)
        (option_args ["-n"; "a.obj"; "-f"; "a.ppm"; "-f"; "b.ppm"]) /\
    mesh_xforms o = replicate (length (mesh_files o)) Matrix4x4_identity.
Proof.
  apply (parse_args_result "optixProgressivePhotonMap"
           ["-n"; "a.obj"; "-f"; "a.ppm"; "-f"; "b.ppm"] initial_host).
  reflexivity.
Defined.

Lemma main_batch_mode_witness :
  0 = 0 /\
  exists ops,
    trace (final_host (main example_env "optixProgressivePhotonMap" ["-f"; "a.ppm"] true
                         example_frames initial_host)) =
      trace initial_host ++ ops /\
    launches ops = [] /\
    existsb saves_image ops = false /\
    is_Some (context (final_host (main example_env "optixProgressivePhotonMap"
                                    ["-f"; "a.ppm"] true example_frames initial_host))).
Proof.
  apply (main_batch_mode example_env "optixProgressivePhotonMap" ["-f"; "a.ppm"] true
           example_frames initial_host 0
           (final_host (main example_env "optixProgressivePhotonMap" ["-f"; "a.ppm"] true
                          example_frames initial_host))).
  - vm_compute. discriminate.
  - vm_compute. reflexivity.
Defined.

Lemma main_glew_failure_witness :
  exists s',
    main example_env "optixProgressivePhotonMap" ["-n"] false example_frames initial_host =
      Exit 1 s' /\
    trace s' = trace initial_host ++ glfwInitialize_ops /\
    context s' = context initial_host.
Proof.
  apply (main_glew_failure example_env "optixProgressivePhotonMap" ["-n"] example_frames
           initial_host).
  reflexivity.
Defined.

Lemma keyCallback_handled_or_forwarded_witness :
  exists ops msgs af,
    keyCallback GLFW_KEY_S GLFW_PRESS example_host =
    Ret tt (mkHost (context example_host) (trace example_host ++ ops)
              (stderr example_host ++ msgs) (frame_count example_host) af) /\
    ops = [OpWriteBufferToFile "optixProgressivePhotonMap.png"
             (h_output createContext_bindings)] /\
    af = accumulation_frame example_host.
Proof.
  apply (keyCallback_handled_or_forwarded createContext_bindings GLFW_KEY_S GLFW_PRESS
           example_host).
  - exact example_host_bound.
  - reflexivity.
Defined.

Lemma windowSizeCallback_resizes_witness :
  windowSizeCallback 640 480 true example_host =
  Ret tt
    (if (640 <? 0) || (480 <? 0) then example_host
     else
       mkHost (context example_host)
         (trace example_host ++
          [OpCamera "resize";
           OpResizeBuffer (h_output createContext_bindings) 640 480;
           OpResizeBuffer (h_debug createContext_bindings) 640 480;
           OpResizeBuffer (h_rtpass_output createContext_bindings) 640 480;
           OpResizeBuffer (h_image_rnd_seeds createContext_bindings) 640 480;
           OpWindow "glMatrixMode"; OpWindow "glLoadIdentity"; OpWindow "glOrtho";
           OpWindow "glViewport"])
         (stderr example_host) (frame_count example_host) 0).
Proof.
  apply (windowSizeCallback_resizes createContext_bindings 640 480 true example_host).
  - exact example_host_bound.
  - lia.
  - lia.
Defined.

Lemma glfwPollEvents_after_quit_witness :
  glfwPollEvents
    ([KeyEvent GLFW_KEY_S GLFW_PRESS] ++
     KeyEvent GLFW_KEY_Q GLFW_PRESS :: [WindowSizeEvent 640 480 true]) example_host =
  glfwPollEvents ([KeyEvent GLFW_KEY_S GLFW_PRESS] ++ [KeyEvent GLFW_KEY_Q GLFW_PRESS])
    example_host /\
  forall s',
    glfwPollEvents
      ([KeyEvent GLFW_KEY_S GLFW_PRESS] ++
       KeyEvent GLFW_KEY_Q GLFW_PRESS :: [WindowSizeEvent 640 480 true]) example_host <>
    Ret tt s'.
Proof.
  apply (glfwPollEvents_after_quit [KeyEvent GLFW_KEY_S GLFW_PRESS]
           (KeyEvent GLFW_KEY_Q GLFW_PRESS) [WindowSizeEvent 640 480 true] example_host).
  reflexivity.
Defined.



Lemma createContext_buffer_variables_witness :
  exists c,
    context example_host = Some c /\
    NoDup (buffer_variables c).*2 /\
    forall h, h ∈ (buffer_variables c).*2 <-> (h < length (buffers c))%nat.
Proof.
  apply (createContext_buffer_variables example_env true initial_host example_host).
  vm_compute. reflexivity.
Defined.

Lemma createContext_buffers_well_formed_witness :
  exists c,
    context example_host = Some c /\
    Forall (fun bo => (buf_format bo = RT_FORMAT_USER <-> is_Some (buf_element_size bo)) /\
                      Forall (fun n => 0 < n) (buf_size bo))
           (buffers c) /\
    element_count <$> buffers c = created_counts.
Proof.
  apply (createContext_buffers_well_formed example_env true initial_host example_host).
  vm_compute. reflexivity.
Defined.

Lemma max_component_maximal_witness :
  (component (make_float3 1 3 2) 2 >?
   component (make_float3 1 3 2) (max_component Z.gtb (make_float3 1 3 2))) = false.
Proof.
  refine (proj2 (proj2 (max_component_maximal Z Z.gtb (make_float3 1 3 2))) _ _ _ 2).
  - intros a c H. rewrite Z.gtb_ltb in *. apply Z.ltb_lt in H. apply Z.ltb_ge. lia.
  - intros a c d H1 H2. rewrite Z.gtb_ltb in *. apply Z.ltb_lt in H1, H2.
    apply Z.ltb_lt. lia.
  - intros a c d H1 H2. rewrite Z.gtb_ltb in *. apply Z.ltb_ge in H1, H2.
    apply Z.ltb_ge. lia.
Defined.

Lemma main_whole_frames_witness :
  whole_frames
    (trace (final_host (main example_env "optixProgressivePhotonMap" ["-n"] true
                          (example_frames ++ [mkFrame [KeyEvent GLFW_KEY_Q GLFW_PRESS]
                                                false false 640 480])
                          initial_host))).
Proof.
  apply (main_whole_frames example_env "optixProgressivePhotonMap" ["-n"] true
           (example_frames ++ [mkFrame [KeyEvent GLFW_KEY_Q GLFW_PRESS] false false 640 480])).
  right. exists EXIT_SUCCESS. vm_compute. reflexivity.
Defined.

Lemma programs_from_ptx_files_witness :
  (exists c, context example_host = Some c /\
     size (ray_generation_program c) = 3%nat /\
     size (exception_program c) = 2%nat /\
     size (miss_program c) = 1%nat /\
     (forall i p,
        ray_generation_program c !! i = Some p \/
        exception_program c !! i = Some p \/
        miss_program c !! i = Some p ->
        from_sample_ptx example_env p) /\
     (forall name, In name device_buffer_names ->
        exists h, variables c !! name = Some (VBuffer h) /\
                  h <> h_image_rnd_seeds createContext_bindings /\
                  h <> h_photon_rnd_seeds createContext_bindings) /\
     variables c !! "image_rnd_seeds" =
       Some (VBuffer (h_image_rnd_seeds createContext_bindings)) /\
     variables c !! "photon_rnd_seeds" =
       Some (VBuffer (h_photon_rnd_seeds createContext_bindings)) /\
     (forall entry dims,
        In (OpLaunch entry dims) (trace (final_host (example_main ["-n"]))) ->
        exists p, ray_generation_program c !! entry = Some p /\
                  from_sample_ptx example_env p)) /\
  (forall i p,
     closest_hit_program example_material !! i = Some p \/
     any_hit_program example_material !! i = Some p ->
     from_sample_ptx example_env p) /\
  size (closest_hit_program example_material) = 2%nat /\
  size (any_hit_program example_material) = 1%nat /\
  (forall op h,
     In op (trace (final_host (example_main ["-n"]))) ->
     host_access op = Some h ->
     h = h_image_rnd_seeds createContext_bindings \/
     h = h_photon_rnd_seeds createContext_bindings).
Proof.
  apply (programs_from_ptx_files example_env true initial_host example_host
           example_host example_material example_host "optixProgressivePhotonMap"
           ["-n"] true example_frames).
  - vm_compute. reflexivity.
  - vm_compute. reflexivity.
Defined.

(** The checks do reject the logs they are meant to reject: a write while
    nothing is mapped, a launch with a buffer mapped, and a write of the
    old number of seeds after a resize. *)
Example protocol_checks_reject :
  map_protocol None [OpHostWrite 5 262144] = None /\
  map_protocol None [OpMap 5; OpLaunch 1 [512; 512]] = None /\
  buffer_counts ∅ [OpCreateBuffer 0; OpResizeBuffer 0 640 480; OpHostWrite 0 589824] = None /\
  ~ whole_frames [OpLaunch 1 [512; 512]].
Proof.
  split; [reflexivity |]. split; [reflexivity |]. split; [reflexivity |].
  intros (counters & H). cbn in H.
  destruct counters as [| n counters]; [discriminate |].
  cbn in H. unfold frame_launches in H. destruct (n =? 0); discriminate.
Qed.

(** Mapping the photon map, or launching a fourth entry point, is not a
    call the host leaves to the device. *)
Example left_to_device_rejects :
  left_to_device createContext_bindings (OpMap 6) = false /\
  left_to_device createContext_bindings (OpHostWrite 2 589824) = false /\
  left_to_device createContext_bindings (OpLaunch 3 [768; 768]) = false.
Proof. repeat split. Qed.
